(** * playbook-dispatcher: the Kessel authorization path

    A shallow embedding of the Go packages [kessel], [middleware] and [api]
    of playbook-dispatcher, and the properties of the authorization
    resolution that the specification states about them.

    Go values are modelled as follows.
    - A slice is [slice A]: Go distinguishes the nil slice from an empty,
      allocated one, and the code returns both.
    - [error] is an optional error value; error values keep the formatted
      message and, for [%w], the wrapped error.
    - A function that talks to the outside (the Kessel service, the next HTTP
      handler, metrics) is a computation [M W A] over a world [W]; it may
      panic.  [context.Context] arguments only travel to the transport and
      are part of the world.
    - An interface ([KesselClient], the gRPC stub) is a record of methods.
    - Route registration is a route table: each route with its handler and
      the middleware constructors registered for it. *)

From stdpp Require Import base tactics option list strings pretty gmap.

Set Default Proof Using "Type".
Open Scope string_scope.
Open Scope list_scope.
Open Scope nat_scope.

(** ** Go runtime: slices, errors, panics *)

Inductive slice (A : Type) : Type :=
| SliceNil
| Slice (elems : list A).
Arguments SliceNil {A}.
Arguments Slice {A} elems.

Definition elems_of {A} (s : slice A) : list A :=
  match s with
  | SliceNil => []
  | Slice l => l
  end.

(** [len(s)] *)
Definition len {A} (s : slice A) : nat := length (elems_of s).

(** [append(s, x)]: the result is allocated even when [s] is nil. *)
Definition append {A} (s : slice A) (x : A) : slice A := Slice (elems_of s ++ [x]).

(** [make([]T, n)]: [n] zero values. *)
Definition make {A} (zero : A) (n : nat) : slice A := Slice (replicate n zero).

Inductive error_value : Type :=
| errorString (msg : string)
| wrapError (msg : string) (err : error_value)
| HTTPError (code : nat) (message : string).

(** The Go [error] interface: [None] is [nil]. *)
Abbreviation error := (option error_value).

Definition Error (e : error_value) : string :=
  match e with
  | errorString msg => msg
  | wrapError msg _ => msg
  | HTTPError code m => "code=" +:+ pretty code +:+ ", message=" +:+ m
  end.

(** [fmt.Errorf(prefix + "%w", err)] *)
Definition Errorf_w (prefix : string) (err : error_value) : error_value :=
  wrapError (prefix +:+ Error err) err.

Inductive Outcome (A : Type) : Type :=
| Returned (a : A)
| Panicked (v : string).
Arguments Returned {A} a.
Arguments Panicked {A} v.

(** A computation over the world [W]. *)
Definition M (W A : Type) : Type := W → Outcome A * W.

Global Instance M_ret {W} : MRet (M W) := λ A a w, (Returned a, w).
Global Instance M_bind {W} : MBind (M W) := λ A B f m w,
  match m w with
  | (Returned a, w') => f a w'
  | (Panicked v, w') => (Panicked v, w')
  end.

Definition panic {W A} (v : string) : M W A := λ w, (Panicked v, w).

(** A call that only changes the world. *)
Definition modify {W} (f : W → W) : M W () := λ w, (Returned (), f w).

Definition index_out_of_range (i n : nat) : string :=
  "runtime error: index out of range [" +:+ pretty i +:+ "] with length " +:+ pretty n.

(** [l[i]] with Go's bounds check. *)
Definition index {W A} (l : list A) (i : nat) : M W A :=
  match l !! i with
  | Some x => mret x
  | None => panic (index_out_of_range i (length l))
  end.

(** [s[i] = x] with Go's bounds check; the slice is updated in place. *)
Definition set_index {W A} (s : slice A) (i : nat) (x : A) : M W (slice A) :=
  if decide (i < len s) then mret (Slice (<[i:=x]> (elems_of s)))
  else panic (index_out_of_range i (len s)).

(** [for i, x := range l { body }]: the loop state [s] stands for the
    variables the body assigns; the body may have effects and may panic. *)
Fixpoint for_range_from {W A St} (i : nat) (l : list A)
    (body : nat → A → St → M W St) (s : St) : M W St :=
  match l with
  | [] => mret s
  | x :: l' => s' ← body i x s; for_range_from (S i) l' body s'
  end.

(** A loop body either goes on with a new loop state or leaves the
    enclosing function with [return r]. *)
Inductive Flow (St R : Type) : Type :=
| Continue (s : St)
| Return (r : R).
Arguments Continue {St R} s.
Arguments Return {St R} r.

Fixpoint for_range_return_from {W A St R} (i : nat) (l : list A)
    (body : nat → A → St → M W (Flow St R)) (s : St) : M W (Flow St R) :=
  match l with
  | [] => mret (Continue s)
  | x :: l' =>
      f ← body i x s;
      match f with
      | Continue s' => for_range_return_from (S i) l' body s'
      | Return r => mret (Return r)
      end
  end.

(** ** package kessel *)

Module Subject.
Record t : Type := mk { Type' : string; ID : string; Tenant : string }.
End Subject.
Abbreviation Subject := Subject.t.

Module Resource.
Record t : Type := mk { Type' : string; ID : string; Tenant : string }.
End Resource.
Abbreviation Resource := Resource.t.

Module ResourceCheck.
Record t : Type := mk { Subject : Subject.t; Relation : string; Resource : Resource.t }.
End ResourceCheck.
Abbreviation ResourceCheck := ResourceCheck.t.

(** The generated gRPC messages and stub of the relations API
    ([checkv1]); the stub is the transport and is given from outside. *)
Module checkv1.

Module ObjectType.
Record t : Type := mk { Name : string }.
End ObjectType.

Module ObjectReference.
Record t : Type := mk { Type' : ObjectType.t; Id : string }.
End ObjectReference.

Module SubjectReference.
Record t : Type := mk { Subject : ObjectReference.t }.
End SubjectReference.

Module CheckRequest.
Record t : Type := mk { Subject : SubjectReference.t; Relation : string; Resource : ObjectReference.t }.
End CheckRequest.
Abbreviation CheckRequest := CheckRequest.t.

Inductive CheckResponse_Allowed : Type :=
| CheckResponse_ALLOWED_UNSPECIFIED
| CheckResponse_ALLOWED_TRUE
| CheckResponse_ALLOWED_FALSE.

Definition CheckResponse_Allowed_eqb (a b : CheckResponse_Allowed) : bool :=
  match a, b with
  | CheckResponse_ALLOWED_UNSPECIFIED, CheckResponse_ALLOWED_UNSPECIFIED => true
  | CheckResponse_ALLOWED_TRUE, CheckResponse_ALLOWED_TRUE => true
  | CheckResponse_ALLOWED_FALSE, CheckResponse_ALLOWED_FALSE => true
  | _, _ => false
  end.

Module CheckResponse.
Record t : Type := mk { Allowed : CheckResponse_Allowed }.
End CheckResponse.
Abbreviation CheckResponse := CheckResponse.t.

(** [KesselCheckServiceClient]: the request is passed by pointer; a reply is
    a response pointer (possibly nil) and an error. *)
Record KesselCheckServiceClient (W : Type) : Type :=
  { Check : option CheckRequest → M W (option CheckResponse * error) }.
Arguments Check {W} _ _ _.

End checkv1.

(** [viper.Viper], as far as the code reads it. *)
Module viper.

Record Viper : Type :=
  { GetString : string → string;
    GetInt : string → Z;
    GetBool : string → bool;
    GetDuration : string → Z }.

(** The values that the code passes to [SetDefault]. *)
Inductive Value : Type :=
| VString (s : string)
| VInt (z : Z)
| VBool (b : bool).

(** [cfg.SetDefault(key, value)], given from outside: the configuration
    after the call. *)
Definition Setter : Type := string → Value → Viper → Viper.

End viper.

(** [time.Duration] is an [int64] of nanoseconds. *)
Module time.

Definition wrap64 (z : Z) : Z := ((z + 2 ^ 63) `mod` 2 ^ 64 - 2 ^ 63)%Z.

Definition Second : Z := 1000000000%Z.

End time.

Module grpc.

Inductive DialOption : Type :=
| WithTransportCredentials_insecure
| WithTimeout (d : Z).

(** A connection, through which the generated stub sends its requests. *)
Record ClientConn (W : Type) : Type :=
  { Invoke : option checkv1.CheckRequest → M W (option checkv1.CheckResponse * error) }.
Arguments Invoke {W} _ _ _.

(** [grpc.Dial], given from outside. *)
Definition Dialer (W : Type) : Type :=
  string → list DialOption → M W (option (ClientConn W) * error).

End grpc.

Definition nil_dereference : string :=
  "runtime error: invalid memory address or nil pointer dereference".

Module kessel.

Definition ResourceTypeRun := "playbook-dispatcher/run".
Definition ResourceTypeRunHost := "playbook-dispatcher/run_host".
Definition ResourceTypeOrg := "playbook-dispatcher/org".

Definition RelationRead := "read".
Definition RelationWrite := "write".
Definition RelationExecute := "execute".
Definition RelationDelete := "delete".
Definition RelationCancel := "cancel".

Definition SubjectTypeUser := "user".
Definition SubjectTypeServiceAccount := "service_account".

(** The interface [KesselClient]. *)
Record KesselClient (W : Type) : Type :=
  { Check : ResourceCheck → M W (bool * error);
    CheckBatch : slice ResourceCheck → M W (slice bool * error);
    ListResources : Subject → string → string → M W (slice string * error) }.
Arguments Check {W} _ _ _.
Arguments CheckBatch {W} _ _ _.
Arguments ListResources {W} _ _ _ _ _.

Definition DispatcherResourceCheck (subject : Subject) (relation resourceType resourceID : string)
    : ResourceCheck :=
  {| ResourceCheck.Subject := subject;
     ResourceCheck.Relation := relation;
     ResourceCheck.Resource :=
       {| Resource.Type' := resourceType;
          Resource.ID := resourceID;
          Resource.Tenant := Subject.Tenant subject |} |}.

Definition DispatcherRunCheck (subject : Subject) (relation runID : string) : ResourceCheck :=
  DispatcherResourceCheck subject relation ResourceTypeRun runID.

Definition DispatcherRunHostCheck (subject : Subject) (relation runHostID : string) : ResourceCheck :=
  DispatcherResourceCheck subject relation ResourceTypeRunHost runHostID.

(** The zero value of [ResourceCheck], as [make] fills a fresh slice. *)
Definition zeroResourceCheck : ResourceCheck :=
  {| ResourceCheck.Subject := {| Subject.Type' := ""; Subject.ID := ""; Subject.Tenant := "" |};
     ResourceCheck.Relation := "";
     ResourceCheck.Resource := {| Resource.Type' := ""; Resource.ID := ""; Resource.Tenant := "" |} |}.

Section Clients.
Context {W : Type}.

(** *** mock client *)

Record mockClient : Type := { allowAll : bool }.

Definition mockClient_Check (m : mockClient) (check : ResourceCheck) : M W (bool * error) :=
  mret (allowAll m, None).

Definition mockClient_CheckBatch (m : mockClient) (checks : slice ResourceCheck)
    : M W (slice bool * error) :=
  let results := make false (len checks) in
  results ←
    for_range_from 0 (elems_of results) (λ i _ results, set_index results i (allowAll m)) results;
  mret (results, None).

Definition mockClient_ListResources (m : mockClient) (subject : Subject)
    (relation resourceType : string) : M W (slice string * error) :=
  if allowAll m then mret (Slice ["*"], None) else mret (Slice [], None).

Definition NewMockKesselClient (allowAll : bool) : KesselClient W :=
  let m := {| allowAll := allowAll |} in
  {| Check := mockClient_Check m;
     CheckBatch := mockClient_CheckBatch m;
     ListResources := mockClient_ListResources m |}.

(** *** gRPC client *)

Record clientImpl : Type :=
  { checkClient : checkv1.KesselCheckServiceClient W;
    conn : option (grpc.ClientConn W) }.

(** [checkv1.NewKesselCheckServiceClient(conn)]: the stub sends over the
    connection it is given. *)
Definition NewKesselCheckServiceClient (conn : option (grpc.ClientConn W))
    : checkv1.KesselCheckServiceClient W :=
  {| checkv1.Check := λ req,
       match conn with
       | Some cc => grpc.Invoke cc req
       | None => panic nil_dereference
       end |}.

(** The request literal [&checkv1.CheckRequest{...}] that [Check] and
    [CheckBatch] both build for a check. *)
Definition checkRequest (check : ResourceCheck) : option checkv1.CheckRequest :=
  Some
  {| checkv1.CheckRequest.Subject :=
       {| checkv1.SubjectReference.Subject :=
            {| checkv1.ObjectReference.Type' :=
                 {| checkv1.ObjectType.Name := Subject.Type' (ResourceCheck.Subject check) |};
               checkv1.ObjectReference.Id := Subject.ID (ResourceCheck.Subject check) |} |};
     checkv1.CheckRequest.Relation := ResourceCheck.Relation check;
     checkv1.CheckRequest.Resource :=
       {| checkv1.ObjectReference.Type' :=
            {| checkv1.ObjectType.Name := Resource.Type' (ResourceCheck.Resource check) |};
          checkv1.ObjectReference.Id := Resource.ID (ResourceCheck.Resource check) |} |}.

(** [resp.Allowed == checkv1.CheckResponse_ALLOWED_TRUE], through the
    pointer [resp]. *)
Definition responseAllowed (resp : option checkv1.CheckResponse) : M W bool :=
  match resp with
  | Some r =>
      mret (checkv1.CheckResponse_Allowed_eqb (checkv1.CheckResponse.Allowed r)
              checkv1.CheckResponse_ALLOWED_TRUE)
  | None => panic nil_dereference
  end.

Definition clientImpl_Check (c : clientImpl) (check : ResourceCheck) : M W (bool * error) :=
  let req := checkRequest check in
  '(resp, err) ← checkv1.Check (checkClient c) req;
  match err with
  | Some e => mret (false, Some (Errorf_w "kessel check failed: " e))
  | None => allowed ← responseAllowed resp; mret (allowed, None)
  end.

Definition clientImpl_CheckBatch (c : clientImpl) (checks : slice ResourceCheck)
    : M W (slice bool * error) :=
  let items := make None (len checks) in
  items ←
    for_range_from 0 (elems_of checks)
      (λ i check items, set_index items i (checkRequest check)) items;
  let results := make false (len checks) in
  f ← for_range_return_from 0 (elems_of items) (λ i item results,
         '(resp, err) ← checkv1.Check (checkClient c) item;
         match err with
         | Some e =>
             mret (Return (SliceNil, Some (Errorf_w
               ("kessel batch check failed at index " +:+ pretty i +:+ ": ") e)))
         | None =>
             allowed ← responseAllowed resp;
             results ← set_index results i allowed;
             mret (Continue results)
         end) results;
  match f with
  | Return r => mret r
  | Continue results => mret (results, None)
  end.

Definition clientImpl_ListResources (c : clientImpl) (subject : Subject)
    (relation resourceType : string) : M W (slice string * error) :=
  mret (SliceNil, Some (errorString "ListResources not yet implemented")).

Definition clientImpl_KesselClient (c : clientImpl) : KesselClient W :=
  {| Check := clientImpl_Check c;
     CheckBatch := clientImpl_CheckBatch c;
     ListResources := clientImpl_ListResources c |}.

Definition NewKesselClient (dial : grpc.Dialer W) (cfg : viper.Viper)
    : M W (option (KesselClient W) * error) :=
  let hostname := viper.GetString cfg "kessel.hostname" in
  let port := viper.GetInt cfg "kessel.port" in
  let insecureConn := viper.GetBool cfg "kessel.insecure" in
  let timeout := time.wrap64 (viper.GetDuration cfg "kessel.timeout" * time.Second) in
  let address := hostname +:+ ":" +:+ pretty port in
  let opts := [] in
  let opts := if insecureConn then opts ++ [grpc.WithTransportCredentials_insecure] else opts in
  let opts := opts ++ [grpc.WithTimeout timeout] in
  '(conn, err) ← dial address opts;
  match err with
  | Some e =>
      mret (None, Some (Errorf_w ("failed to connect to Kessel at " +:+ address +:+ ": ") e))
  | None =>
      let checkClient := NewKesselCheckServiceClient conn in
      mret (Some (clientImpl_KesselClient {| checkClient := checkClient; conn := conn |}), None)
  end.

Definition NewKesselClientFromConfig (dial : grpc.Dialer W) (cfg : viper.Viper)
    : M W (option (KesselClient W) * error) :=
  let impl := viper.GetString cfg "kessel.impl" in
  if String.eqb impl "mock" then mret (Some (NewMockKesselClient true), None)
  else NewKesselClient dial cfg.

End Clients.
Arguments clientImpl W : clear implicits.

Definition ConfigureDefaults (SetDefault : viper.Setter) (cfg : viper.Viper) : viper.Viper :=
  let cfg := SetDefault "kessel.impl" (viper.VString "mock") cfg in
  let cfg := SetDefault "kessel.hostname" (viper.VString "kessel-relations") cfg in
  let cfg := SetDefault "kessel.port" (viper.VInt 9000) cfg in
  let cfg := SetDefault "kessel.insecure" (viper.VBool false) cfg in
  let cfg := SetDefault "kessel.timeout" (viper.VInt 10) cfg in
  let cfg := SetDefault "kessel.enabled" (viper.VBool false) cfg in
  cfg.

(** *** service permissions *)

Definition ServicePermissionResourceType := "playbook-dispatcher/service-permission".

Definition ServicePermissionRelationReader := "reader".

Definition KnownServices : list string :=
  [ "remediations";
    "config-manager";
    "vulnerability";
    "advisor";
    "compliance";
    "drift";
    "policies";
    "resource-optimization" ].

(** The org-level check that [GetAllowedServices] and [HasServiceAccess]
    both build first. *)
Definition orgCheck (subject : Subject) : ResourceCheck :=
  {| ResourceCheck.Subject := subject;
     ResourceCheck.Relation := RelationRead;
     ResourceCheck.Resource :=
       {| Resource.Type' := ResourceTypeOrg;
          Resource.ID := Subject.Tenant subject;
          Resource.Tenant := Subject.Tenant subject |} |}.

(** The check for one service. *)
Definition serviceCheck (subject : Subject) (service : string) : ResourceCheck :=
  {| ResourceCheck.Subject := subject;
     ResourceCheck.Relation := ServicePermissionRelationReader;
     ResourceCheck.Resource :=
       {| Resource.Type' := ServicePermissionResourceType;
          Resource.ID := service;
          Resource.Tenant := Subject.Tenant subject |} |}.

Section Permissions.
Context {W : Type}.

Definition getServicePermissions (client : KesselClient W) (subject : Subject)
    : M W (slice string * bool * error) :=
  let checks := make zeroResourceCheck (length KnownServices) in
  checks ←
    for_range_from 0 KnownServices
      (λ i service checks, set_index checks i (serviceCheck subject service)) checks;
  '(results, err) ← CheckBatch client checks;
  match err with
  | Some e => mret (SliceNil, false, Some e)
  | None =>
      allowedServices ←
        for_range_from 0 (elems_of results) (λ i (allowed : bool) allowedServices,
          if allowed then
            service ← index KnownServices i;
            mret (append allowedServices service)
          else mret allowedServices) (make "" 0);
      if (len allowedServices =? 0)%nat
      then mret (SliceNil, true, None)
      else mret (allowedServices, true, None)
  end.

Definition GetAllowedServices (client : KesselClient W) (subject : Subject)
    : M W (slice string * bool * error) :=
  '(hasOrgAccess, err) ← Check client (orgCheck subject);
  match err with
  | Some e => mret (SliceNil, false, Some e)
  | None =>
      if hasOrgAccess : bool
      then mret (SliceNil, false, None)
      else getServicePermissions client subject
  end.

Definition HasServiceAccess (client : KesselClient W) (subject : Subject) (service : string)
    : M W (bool * error) :=
  '(hasOrgAccess, err) ← Check client (orgCheck subject);
  match err with
  | Some e => mret (false, Some e)
  | None =>
      if hasOrgAccess : bool
      then mret (true, None)
      else Check client (serviceCheck subject service)
  end.

(** *** attribute filters *)

Record AttributeFilter : Type :=
  { Key : string; Operation : string; Values : slice string }.

Definition GetAttributeFilters (client : KesselClient W) (subject : Subject)
    (relation resourceType attributeKey : string) : M W (slice string * error) :=
  mret (Slice [], Some (errorString "attribute filtering not yet implemented in Kessel")).

Definition CheckWithAttributes (client : KesselClient W) (check : ResourceCheck)
    (attributes : gmap string string) : M W (bool * error) :=
  '(allowed, err) ← Check client check;
  match err with
  | Some e => mret (false, Some e)
  | None => if allowed : bool then mret (true, None) else mret (false, None)
  end.

Definition FilterByServicePermission (client : KesselClient W) (subject : Subject)
    (relation resourceType : string) : M W (slice string * bool * error) :=
  mret (SliceNil, false, None).

Definition ApplyServiceFilter (client : KesselClient W) (subject : Subject)
    : M W (slice string * bool * error) :=
  '(services, filtering, err) ←
    FilterByServicePermission client subject RelationRead ResourceTypeRun;
  match err with
  | Some e => mret (SliceNil, false, Some e)
  | None =>
      if negb filtering || (len services =? 0)%nat
      then mret (SliceNil, false, None)
      else mret (services, true, None)
  end.

(** *** helpers *)

Definition ServiceAccountSubject (serviceAccountID orgID : string) : Subject :=
  {| Subject.Type' := SubjectTypeServiceAccount;
     Subject.ID := serviceAccountID;
     Subject.Tenant := orgID |}.

Definition CheckRunAccess (client : KesselClient W) (subject : Subject)
    (runID relation : string) : M W (bool * error) :=
  let check := DispatcherRunCheck subject relation runID in
  Check client check.

Definition CheckRunHostAccess (client : KesselClient W) (subject : Subject)
    (runHostID relation : string) : M W (bool * error) :=
  let check := DispatcherRunHostCheck subject relation runHostID in
  Check client check.

Definition FilterAuthorizedResources (client : KesselClient W) (subject : Subject)
    (relation resourceType : string) (resourceIDs : slice string) : M W (slice string * error) :=
  if (len resourceIDs =? 0)%nat then mret (Slice [], None)
  else
    let checks := make zeroResourceCheck (len resourceIDs) in
    checks ←
      for_range_from 0 (elems_of resourceIDs)
        (λ i id checks, set_index checks i (DispatcherResourceCheck subject relation resourceType id))
        checks;
    '(results, err) ← CheckBatch client checks;
    match err with
    | Some e => mret (SliceNil, Some e)
    | None =>
        authorized ←
          for_range_from 0 (elems_of results) (λ i (allowed : bool) authorized,
            if allowed then
              id ← index (elems_of resourceIDs) i;
              mret (append authorized id)
            else mret authorized) (make "" 0);
        mret (authorized, None)
    end.

End Permissions.

End kessel.

(** ** External packages used by the middleware *)

(** [platform-go-middlewares/identity]: the identity header of a request. *)
Module identityMiddleware.

Module User.
Record t : Type := mk { Username : string }.
End User.

Module Identity.
Record t : Type := mk { OrgID : string; User : User.t }.
End Identity.

Module XRHID.
Record t : Type := mk { Identity : Identity.t }.
End XRHID.
Abbreviation XRHID := XRHID.t.

End identityMiddleware.

Module http.

Definition StatusOK : nat := 200.
Definition StatusCreated : nat := 201.
Definition StatusBadRequest : nat := 400.
Definition StatusUnauthorized : nat := 401.
Definition StatusForbidden : nat := 403.
Definition StatusInternalServerError : nat := 500.
Definition StatusServiceUnavailable : nat := 503.

Definition StatusText (code : nat) : string :=
  if (code =? 400)%nat then "Bad Request"
  else if (code =? 401)%nat then "Unauthorized"
  else if (code =? 403)%nat then "Forbidden"
  else if (code =? 503)%nat then "Service Unavailable"
  else "".

End http.

Module echo.

(** What the code reads from and stores in an [echo.Context]: the identity
    of the request, its path parameters and the value the middleware keeps
    under [kesselPermissionsKey]. *)
Record Context : Type :=
  { RequestIdentity : identityMiddleware.XRHID;
    PathParams : gmap string string;
    KesselPermissions : option Subject }.

Definition Param (c : Context) (name : string) : string :=
  default "" (PathParams c !! name).

Definition HandlerFunc (W : Type) : Type := Context → M W error.

Definition MiddlewareFunc (W : Type) : Type := HandlerFunc W → HandlerFunc W.

(** [echo.NewHTTPError(code, message...)] *)
Definition NewHTTPError (code : nat) (message : list string) : error_value :=
  HTTPError code (match message with m :: _ => m | [] => http.StatusText code end).

(** The route table: each route with the handler and the middleware
    registered for it, in the order in which echo applies them.  The routes
    that echo itself adds to answer unmatched paths are not part of it. *)
Record Route (Mw H : Type) : Type :=
  { Method : string; Path : string; Handler : H; Middleware : list Mw }.
Arguments Method {Mw H} _.
Arguments Path {Mw H} _.
Arguments Handler {Mw H} _.
Arguments Middleware {Mw H} _.

Record Echo (Mw H : Type) : Type := { Routes : list (Route Mw H) }.
Arguments Routes {Mw H} _.

Record Group (Mw : Type) : Type := { Prefix : string; GroupMiddleware : list Mw }.
Arguments Prefix {Mw} _.
Arguments GroupMiddleware {Mw} _.

Definition New {Mw H} : Echo Mw H := {| Routes := [] |}.

Definition Echo_Group {Mw H} (e : Echo Mw H) (prefix : string) : Group Mw :=
  {| Prefix := prefix; GroupMiddleware := [] |}.

Definition Group_Use {Mw} (g : Group Mw) (m : list Mw) : Group Mw :=
  {| Prefix := Prefix g; GroupMiddleware := GroupMiddleware g ++ m |}.

Definition Group_Add {Mw H} (g : Group Mw) (method path : string) (h : H) (m : list Mw)
    (e : Echo Mw H) : Echo Mw H :=
  {| Routes := Routes e ++
       [ {| Method := method; Path := Prefix g +:+ path; Handler := h;
            Middleware := GroupMiddleware g ++ m |} ] |}.

Definition Group_GET {Mw H} (g : Group Mw) (path : string) (h : H) (m : list Mw)
    (e : Echo Mw H) : Echo Mw H :=
  Group_Add g "GET" path h m e.

Definition Group_POST {Mw H} (g : Group Mw) (path : string) (h : H) (m : list Mw)
    (e : Echo Mw H) : Echo Mw H :=
  Group_Add g "POST" path h m e.

(** [applyMiddleware]: the first middleware of the list is the outermost. *)
Definition applyMiddleware {W} (h : HandlerFunc W) (middleware : list (MiddlewareFunc W))
    : HandlerFunc W :=
  foldr (λ m h, m h) h middleware.

End echo.

(** [instrumentation]: counters and log lines, which change the world and
    return nothing. *)
Module instrumentation.

Record t (W : Type) : Type :=
  { RbacError : echo.Context → error_value → W → W;
    RbacRejected : echo.Context → W → W }.
Arguments RbacError {W} _ _ _ _.
Arguments RbacRejected {W} _ _ _.

End instrumentation.

Module utils.

(** [SetRequestContextValue(c, kesselPermissionsKey, subject)] *)
Definition SetRequestContextValue (c : echo.Context) (subject : Subject) : echo.Context :=
  {| echo.RequestIdentity := echo.RequestIdentity c;
     echo.PathParams := echo.PathParams c;
     echo.KesselPermissions := Some subject |}.

End utils.

(** ** package kessel: the helper that reads the request identity *)

Module kessel_identity.

(** [SubjectFromContext(ctx)], on the identity that [GetIdentity(ctx)]
    finds in the context. *)
Definition SubjectFromContext (identity : identityMiddleware.XRHID) : Subject * error :=
  let OrgID := identityMiddleware.Identity.OrgID (identityMiddleware.XRHID.Identity identity) in
  let Username :=
    identityMiddleware.User.Username
      (identityMiddleware.Identity.User (identityMiddleware.XRHID.Identity identity)) in
  if String.eqb OrgID "" then
    ({| Subject.Type' := ""; Subject.ID := ""; Subject.Tenant := "" |},
     Some (errorString "missing org_id in identity"))
  else if String.eqb Username "" then
    ({| Subject.Type' := ""; Subject.ID := ""; Subject.Tenant := "" |},
     Some (errorString "missing username in identity"))
  else
    ({| Subject.Type' := kessel.SubjectTypeUser;
        Subject.ID := Username;
        Subject.Tenant := OrgID |},
     None).

End kessel_identity.

(** ** package middleware *)

Module middleware.

Section Kessel.
Context {W : Type}.
Variable instr : instrumentation.t W.
Variable dial : grpc.Dialer W.

Definition KesselResourceExtractor : Type := echo.Context → M W (Resource * error).

(** [client.Check(ctx, check)] on the interface variable [client], which is
    nil until a client is stored in it. *)
Definition client_Check (client : option (kessel.KesselClient W)) (check : ResourceCheck)
    : M W (bool * error) :=
  match client with
  | Some cl => kessel.Check cl check
  | None => panic nil_dereference
  end.

(** The middleware that [EnforceKesselPermissions] returns, for the client it
    has chosen. *)
Definition enforceWithClient (client : option (kessel.KesselClient W)) (relation : string)
    (resourceExtractor : KesselResourceExtractor) : echo.MiddlewareFunc W :=
  λ next c,
    let identity := echo.RequestIdentity c in
    let OrgID := identityMiddleware.Identity.OrgID (identityMiddleware.XRHID.Identity identity) in
    let Username :=
      identityMiddleware.User.Username
        (identityMiddleware.Identity.User (identityMiddleware.XRHID.Identity identity)) in
    if String.eqb OrgID "" || String.eqb Username ""
    then mret (Some (echo.NewHTTPError http.StatusUnauthorized ["missing identity information"]))
    else
      let subject :=
        {| Subject.Type' := kessel.SubjectTypeUser;
           Subject.ID := Username;
           Subject.Tenant := OrgID |} in
      '(resource, err) ← resourceExtractor c;
      match err with
      | Some _ =>
          mret (Some (echo.NewHTTPError http.StatusBadRequest
                        ["failed to extract resource from request"]))
      | None =>
          let check :=
            {| ResourceCheck.Subject := subject;
               ResourceCheck.Relation := relation;
               ResourceCheck.Resource := resource |} in
          '(allowed, err) ← client_Check client check;
          match err with
          | Some e =>
              modify (instrumentation.RbacError instr c e);;
              mret (Some (echo.NewHTTPError http.StatusServiceUnavailable
                            ["error checking permissions with Kessel"]))
          | None =>
              if negb allowed then
                modify (instrumentation.RbacRejected instr c);;
                mret (Some (echo.NewHTTPError http.StatusForbidden []))
              else
                let c := utils.SetRequestContextValue c subject in
                next c
          end
      end.

Definition EnforceKesselPermissions (cfg : viper.Viper) (relation : string)
    (resourceExtractor : KesselResourceExtractor) : M W (echo.MiddlewareFunc W) :=
  client ←
    (if String.eqb (viper.GetString cfg "kessel.impl") "impl" then
       '(client, err) ← kessel.NewKesselClient dial cfg;
       match err with
       | Some e => panic (Error e)
       | None => mret client
       end
     else mret (Some (kessel.NewMockKesselClient true)));
  mret (enforceWithClient client relation resourceExtractor).

Definition EnforceKesselOrgPermissions (cfg : viper.Viper) (relation resourceType : string)
    : M W (echo.MiddlewareFunc W) :=
  let extractor : KesselResourceExtractor := λ c,
    let identity := echo.RequestIdentity c in
    mret ({| Resource.Type' := resourceType;
             Resource.ID := "*";
             Resource.Tenant :=
               identityMiddleware.Identity.OrgID (identityMiddleware.XRHID.Identity identity) |},
          None) in
  EnforceKesselPermissions cfg relation extractor.

Definition GetKesselSubject (c : echo.Context) : M W Subject :=
  match echo.KesselPermissions c with
  | Some subject => mret subject
  | None => panic "interface conversion: interface {} is nil, not kessel.Subject"
  end.

End Kessel.
Arguments KesselResourceExtractor W : clear implicits.

End middleware.

(** ** package api: route registration *)

Module public.

(** The handlers of [public.Controllers] that the routes name. *)
Inductive Handler : Type :=
| ApiRunsList
| ApiRunsGet
| ApiRunsCreate
| ApiRunsCancel
| ApiRunHostsList
| ApiRunHostsGet.

End public.

Module api.

(** The two authorization systems. *)
Inductive AuthSystem : Type := RBAC | Kessel.

Section Routes.
Context {W : Type}.

(** Registration reaches the route table through the pointer [e] and the
    settings through the pointer [cfg], and it builds the middleware of a
    route while it registers the route.  It therefore runs on a store that
    holds the table and the settings besides the world of the middleware
    constructors: what it has registered or set when a constructor panics
    stays in the store. *)
Record Store : Type :=
  { echo_of : echo.Echo (echo.MiddlewareFunc W) public.Handler;
    viper_of : viper.Viper;
    world_of : W }.

(** [*e] and [*cfg] *)
Definition table : M Store (echo.Echo (echo.MiddlewareFunc W) public.Handler) :=
  λ s, (Returned (echo_of s), s).

Definition settings : M Store viper.Viper := λ s, (Returned (viper_of s), s).

(** A call that changes the route table, one that changes the settings, and
    one that runs outside the two. *)
Definition register
    (f : echo.Echo (echo.MiddlewareFunc W) public.Handler
         → echo.Echo (echo.MiddlewareFunc W) public.Handler) : M Store () :=
  modify (λ s, {| echo_of := f (echo_of s); viper_of := viper_of s; world_of := world_of s |}).

Definition configure (f : viper.Viper → viper.Viper) : M Store () :=
  modify (λ s, {| echo_of := echo_of s; viper_of := f (viper_of s); world_of := world_of s |}).

Definition outside {A} (m : M W A) : M Store A := λ s,
  match m (world_of s) with
  | (r, w) => (r, {| echo_of := echo_of s; viper_of := viper_of s; world_of := w |})
  end.

Variable instr : instrumentation.t W.
Variable dial : grpc.Dialer W.
Variable identity_EnforceIdentity : echo.MiddlewareFunc W.

(** [SetupRoutesWithKessel(e, cfg, controllers)].  The arguments of
    [api.GET] and [api.POST] are evaluated before the route is added: the
    middleware constructor of a route runs, and may dial and panic, before
    that route is in the table. *)
Definition SetupRoutesWithKessel (SetDefault : viper.Setter) : M Store error :=
  configure (kessel.ConfigureDefaults SetDefault);;
  cfg ← settings;
  let runResourceExtractor : middleware.KesselResourceExtractor W := λ c,
    let runID := echo.Param c "run_id" in
    let identity := echo.RequestIdentity c in
    mret ({| Resource.Type' := kessel.ResourceTypeRun;
             Resource.ID := runID;
             Resource.Tenant :=
               identityMiddleware.Identity.OrgID
                 (identityMiddleware.XRHID.Identity identity) |},
          None) in
  let runHostResourceExtractor : middleware.KesselResourceExtractor W := λ c,
    let runHostID := echo.Param c "run_host_id" in
    let identity := echo.RequestIdentity c in
    mret ({| Resource.Type' := kessel.ResourceTypeRunHost;
             Resource.ID := runHostID;
             Resource.Tenant :=
               identityMiddleware.Identity.OrgID
                 (identityMiddleware.XRHID.Identity identity) |},
          None) in
  e ← table;
  let api := echo.Echo_Group e "/api/playbook-dispatcher/v1" in
  let api := echo.Group_Use api [identity_EnforceIdentity] in
  m ← outside (middleware.EnforceKesselOrgPermissions instr dial cfg
                 kessel.RelationRead kessel.ResourceTypeRun);
  register (echo.Group_GET api "/runs" public.ApiRunsList [m]);;
  m ← outside (middleware.EnforceKesselPermissions instr dial cfg
                 kessel.RelationRead runResourceExtractor);
  register (echo.Group_GET api "/runs/:run_id" public.ApiRunsGet [m]);;
  m ← outside (middleware.EnforceKesselOrgPermissions instr dial cfg
                 kessel.RelationWrite kessel.ResourceTypeRun);
  register (echo.Group_POST api "/runs" public.ApiRunsCreate [m]);;
  m ← outside (middleware.EnforceKesselPermissions instr dial cfg
                 kessel.RelationCancel runResourceExtractor);
  register (echo.Group_POST api "/runs/:run_id/cancel" public.ApiRunsCancel [m]);;
  m ← outside (middleware.EnforceKesselPermissions instr dial cfg
                 kessel.RelationRead runResourceExtractor);
  register (echo.Group_GET api "/runs/:run_id/hosts" public.ApiRunHostsList [m]);;
  m ← outside (middleware.EnforceKesselPermissions instr dial cfg
                 kessel.RelationRead runHostResourceExtractor);
  register (echo.Group_GET api "/run_hosts/:run_host_id" public.ApiRunHostsGet [m]);;
  mret None.

(** [SetupRoutesWithBothRBACAndKessel(e, cfg, controllers)].  The branch for
    the legacy RBAC middleware holds a comment only. *)
Definition SetupRoutesWithBothRBACAndKessel : M Store error :=
  cfg ← settings;
  let kesselEnabled := viper.GetBool cfg "kessel.enabled" in
  e ← table;
  let api := echo.Echo_Group e "/api/playbook-dispatcher/v1" in
  let api := echo.Group_Use api [identity_EnforceIdentity] in
  if kesselEnabled then
    let runExtractor : middleware.KesselResourceExtractor W := λ c,
      let runID := echo.Param c "run_id" in
      let identity := echo.RequestIdentity c in
      mret ({| Resource.Type' := kessel.ResourceTypeRun;
               Resource.ID := runID;
               Resource.Tenant :=
                 identityMiddleware.Identity.OrgID
                   (identityMiddleware.XRHID.Identity identity) |},
            None) in
    m ← outside (middleware.EnforceKesselOrgPermissions instr dial cfg
                   kessel.RelationRead kessel.ResourceTypeRun);
    register (echo.Group_GET api "/runs" public.ApiRunsList [m]);;
    m ← outside (middleware.EnforceKesselPermissions instr dial cfg
                   kessel.RelationRead runExtractor);
    register (echo.Group_GET api "/runs/:run_id" public.ApiRunsGet [m]);;
    mret None
  else
    mret None.

(** What echo runs for a route: the middleware of the route, the first of
    them outermost, around the controller that the route names. *)
Definition routeHandler (controllers : public.Handler → echo.HandlerFunc W)
    (r : echo.Route (echo.MiddlewareFunc W) public.Handler) : echo.HandlerFunc W :=
  echo.applyMiddleware (controllers (echo.Handler r)) (echo.Middleware r).

End Routes.
Arguments Store W : clear implicits.

End api.

(** ** package public: controllers that filter by service *)

(** [gorm.DB], as far as the controllers build a statement on it. *)
Module gorm.

Inductive Var : Type :=
| VarString (s : string)
| VarStrings (l : slice string).

Record Clause : Type := { SQL : string; Vars : list Var }.

Record DB : Type :=
  { Statement_Table : string;
    Statement_Joins : list string;
    Statement_Where : list Clause }.

Definition DB_WithContext (db : DB) : DB := db.

Definition DB_Table (db : DB) (name : string) : DB :=
  {| Statement_Table := name;
     Statement_Joins := Statement_Joins db;
     Statement_Where := Statement_Where db |}.

Definition DB_Joins (db : DB) (query : string) : DB :=
  {| Statement_Table := Statement_Table db;
     Statement_Joins := Statement_Joins db ++ [query];
     Statement_Where := Statement_Where db |}.

Definition DB_Where (db : DB) (query : string) (args : list Var) : DB :=
  {| Statement_Table := Statement_Table db;
     Statement_Joins := Statement_Joins db;
     Statement_Where := Statement_Where db ++ [ {| SQL := query; Vars := args |} ] |}.

End gorm.

(** The values that the controllers hand to [ctx.JSON]. *)
Module json.

#[warnings="-register-all"] Inductive Value : Type :=
| Array (elems : list Value)
| Object (fields : list (string * Value))
| Number (n : Z)
| String (s : string).

Inductive Body (Row : Type) : Type :=
| Literal (v : Value)
| Formatted (rows : slice Row).
Arguments Literal {Row} _.
Arguments Formatted {Row} _.

End json.

Module controllersWithKessel.

Section Controllers.
Context {W Row : Type}.

(** The fields of the controllers. *)
Variable database : gorm.DB.
Variable kesselClient : kessel.KesselClient W.

(** [queryBuilder.Find(&rows)] with the error of its result, and the two
    ways in which the controllers write a response. *)
Variable Find : gorm.DB → M W (slice Row * error).
Variable ctx_JSON : nat → json.Body Row → M W error.
Variable ctx_NoContent : nat → M W error.

Definition formatRunsResponse (runs : slice Row) : json.Body Row := json.Formatted runs.

Definition formatRunHostsResponse (hosts : slice Row) : json.Body Row := json.Formatted hosts.

Definition ApiRunsListWithServiceFiltering (ctx : echo.Context) : M W error :=
  let identity := echo.RequestIdentity ctx in
  let db := gorm.DB_WithContext database in
  let subject :=
    {| Subject.Type' := kessel.SubjectTypeUser;
       Subject.ID :=
         identityMiddleware.User.Username
           (identityMiddleware.Identity.User (identityMiddleware.XRHID.Identity identity));
       Subject.Tenant :=
         identityMiddleware.Identity.OrgID (identityMiddleware.XRHID.Identity identity) |} in
  let queryBuilder :=
    gorm.DB_Where (gorm.DB_Table db "runs") "org_id = ?"
      [gorm.VarString
         (identityMiddleware.Identity.OrgID (identityMiddleware.XRHID.Identity identity))] in
  '(allowedServices, filterRequired, err) ← kessel.GetAllowedServices kesselClient subject;
  match err with
  | Some _ =>
      mret (Some (echo.NewHTTPError http.StatusServiceUnavailable
                    ["error checking service permissions"]))
  | None =>
      let rest := λ queryBuilder,
        '(dbRuns, dbError) ← Find queryBuilder;
        match dbError with
        | Some _ => ctx_NoContent http.StatusInternalServerError
        | None => ctx_JSON http.StatusOK (formatRunsResponse dbRuns)
        end in
      if filterRequired : bool then
        if (len allowedServices =? 0)%nat then
          ctx_JSON http.StatusOK
            (json.Literal (json.Object
               [ ("data", json.Array []);
                 ("meta", json.Object [("count", json.Number 0)]);
                 ("links", json.Object []) ]))
        else
          rest (gorm.DB_Where queryBuilder "service IN ?" [gorm.VarStrings allowedServices])
      else rest queryBuilder
  end.

Definition ApiRunHostsListWithServiceFiltering (ctx : echo.Context) : M W error :=
  let identity := echo.RequestIdentity ctx in
  let subject :=
    {| Subject.Type' := kessel.SubjectTypeUser;
       Subject.ID :=
         identityMiddleware.User.Username
           (identityMiddleware.Identity.User (identityMiddleware.XRHID.Identity identity));
       Subject.Tenant :=
         identityMiddleware.Identity.OrgID (identityMiddleware.XRHID.Identity identity) |} in
  let queryBuilder :=
    gorm.DB_Where
      (gorm.DB_Joins (gorm.DB_Table (gorm.DB_WithContext database) "run_hosts")
         "INNER JOIN runs on runs.id = run_hosts.run_id")
      "runs.org_id = ?"
      [gorm.VarString
         (identityMiddleware.Identity.OrgID (identityMiddleware.XRHID.Identity identity))] in
  '(allowedServices, filterRequired, err) ← kessel.GetAllowedServices kesselClient subject;
  match err with
  | Some _ =>
      mret (Some (echo.NewHTTPError http.StatusServiceUnavailable
                    ["error checking service permissions"]))
  | None =>
      let rest := λ queryBuilder,
        '(dbRunHosts, dbError) ← Find queryBuilder;
        match dbError with
        | Some _ => ctx_NoContent http.StatusInternalServerError
        | None => ctx_JSON http.StatusOK (formatRunHostsResponse dbRunHosts)
        end in
      if filterRequired : bool then
        if (len allowedServices =? 0)%nat then
          ctx_JSON http.StatusOK
            (json.Literal (json.Object
               [ ("data", json.Array []);
                 ("meta", json.Object [("count", json.Number 0)]);
                 ("links", json.Object []) ]))
        else
          rest (gorm.DB_Where queryBuilder "runs.service IN ?"
                  [gorm.VarStrings allowedServices])
      else rest queryBuilder
  end.

Definition ApiRunsCreateWithServiceCheck (ctx : echo.Context) (service : string) : M W error :=
  let identity := echo.RequestIdentity ctx in
  let subject :=
    {| Subject.Type' := kessel.SubjectTypeUser;
       Subject.ID :=
         identityMiddleware.User.Username
           (identityMiddleware.Identity.User (identityMiddleware.XRHID.Identity identity));
       Subject.Tenant :=
         identityMiddleware.Identity.OrgID (identityMiddleware.XRHID.Identity identity) |} in
  '(hasAccess, err) ← kessel.HasServiceAccess kesselClient subject service;
  match err with
  | Some _ =>
      mret (Some (echo.NewHTTPError http.StatusServiceUnavailable
                    ["error checking service permissions"]))
  | None =>
      if negb hasAccess then
        mret (Some (echo.NewHTTPError http.StatusForbidden
                      ["no access to service: " +:+ service]))
      else
        ctx_JSON http.StatusCreated
          (json.Literal (json.Object [("status", json.String "created")]))
  end.

End Controllers.

End controllersWithKessel.

(** ** package private: the connection status of hosts *)

(** [inventory.HostDetails]: the fields that the controller reads.  A
    pointer to a string is an option. *)
Module inventory.

Record HostDetails : Type :=
  { ID : string;
    SatelliteInstanceID : option string;
    SatelliteOrgID : option string;
    SatelliteVersion : option string;
    RHCClientID : option string }.

End inventory.

Module connectors.

(** The interface [CloudConnectorClient], as far as the controller calls
    it: [GetConnectionStatus(ctx, orgID, recipient)]. *)
Record CloudConnectorClient (W ConnectionStatus : Type) : Type :=
  { GetConnectionStatus : string → string → M W (ConnectionStatus * error) }.
Arguments GetConnectionStatus {W ConnectionStatus} _ _ _.

End connectors.

Module private.

Definition DirectConnect := "directConnect".

Record RecipientWithConnectionInfo (UUID : Type) : Type :=
  { OrgId : string;
    Recipient : UUID;
    RecipientType : string;
    SatId : string;
    SatOrgId : string;
    Status : string;
    Systems : slice string }.
Arguments OrgId {UUID} _.
Arguments Recipient {UUID} _.
Arguments RecipientType {UUID} _.
Arguments SatId {UUID} _.
Arguments SatOrgId {UUID} _.
Arguments Status {UUID} _.
Arguments Systems {UUID} _.

Record rhcSatellite : Type :=
  { SatelliteInstanceID : string;
    SatelliteOrgID : string;
    SatelliteVersion : string;
    Hosts : slice string;
    SourceID : string;
    RhcClientID : option string;
    SourceAvailabilityStatus : option string }.

(** [*p] *)
Definition deref {W A} (p : option A) : M W A :=
  match p with
  | Some x => mret x
  | None => panic nil_dereference
  end.

Section Controllers.
Context {W UUID ConnectionStatus : Type} `{EqDecision ConnectionStatus}.

(** [uuid.Parse] and the zero UUID; [connectors.Connected]; the logger and
    the response writer of the echo context. *)
Variable uuid_Parse : string → UUID * error.
Variable uuid_Nil : UUID.
Variable Connected : ConnectionStatus.
Variable log_Error : error_value → W → W.
Variable ctx_NoContent : nat → M W error.

(** The body of the loop of [sortHostsByRecipient]; the loop state holds
    the three slices it appends to. *)
Definition sortHostsByRecipient_body
    : nat → inventory.HostDetails
      → slice inventory.HostDetails * slice inventory.HostDetails * slice inventory.HostDetails
      → M W (slice inventory.HostDetails * slice inventory.HostDetails
             * slice inventory.HostDetails) :=
  λ _ host '(satelliteConnectedHosts, directConnectedHosts, hostsNotConnected),
    match inventory.SatelliteInstanceID host, inventory.RHCClientID host with
    | Some _, _ =>
        mret (append satelliteConnectedHosts host, directConnectedHosts, hostsNotConnected)
    | None, Some _ =>
        mret (satelliteConnectedHosts, append directConnectedHosts host, hostsNotConnected)
    | None, None =>
        mret (satelliteConnectedHosts, directConnectedHosts, append hostsNotConnected host)
    end.

Definition sortHostsByRecipient (details : slice inventory.HostDetails)
    : M W (slice inventory.HostDetails * slice inventory.HostDetails
           * slice inventory.HostDetails) :=
  for_range_from 0 (elems_of details) sortHostsByRecipient_body (SliceNil, SliceNil, SliceNil).

Definition formatConnectionResponse (satID satOrgID rhcClientID : option string)
    (orgID : string) (hosts : slice string) (recipientType status : string)
    : M W (RecipientWithConnectionInfo UUID) :=
  let formatedHosts := make "" (len hosts) in
  let formatedSatID := match satID with Some s => s | None => "" end in
  let formatedSatOrgID := match satOrgID with Some s => s | None => "" end in
  let formatedRHCClientID :=
    match rhcClientID with Some s => (uuid_Parse s).1 | None => uuid_Nil end in
  formatedHosts ←
    for_range_from 0 (elems_of hosts)
      (λ i host formatedHosts, set_index formatedHosts i host) formatedHosts;
  mret {| OrgId := orgID;
          Recipient := formatedRHCClientID;
          RecipientType := recipientType;
          SatId := formatedSatID;
          SatOrgId := formatedSatOrgID;
          Status := status;
          Systems := formatedHosts |}.

(** The body of the loop of [getDirectConnectStatus]; the loop state is
    [responses]. *)
Definition getDirectConnectStatus_body
    (client : connectors.CloudConnectorClient W ConnectionStatus) (orgId : string)
    : nat → inventory.HostDetails → slice (RecipientWithConnectionInfo UUID)
      → M W (Flow (slice (RecipientWithConnectionInfo UUID))
               (slice (RecipientWithConnectionInfo UUID) * error)) :=
  λ _ host responses,
    recipient ← deref (inventory.RHCClientID host);
    '(status, err) ← connectors.GetConnectionStatus client orgId recipient;
    match err with
    | Some e =>
        modify (log_Error e);;
        r ← ctx_NoContent http.StatusInternalServerError;
        mret (Return (SliceNil, r))
    | None =>
        let connectionStatus :=
          if bool_decide (status = Connected) then "connected" else "disconnected" in
        response ←
          formatConnectionResponse None None (inventory.RHCClientID host) orgId
            (Slice [inventory.ID host]) DirectConnect connectionStatus;
        mret (Continue (append responses response))
    end.

Definition getDirectConnectStatus
    (client : connectors.CloudConnectorClient W ConnectionStatus) (orgId : string)
    (hostDetails : slice inventory.HostDetails)
    : M W (slice (RecipientWithConnectionInfo UUID) * error) :=
  f ← for_range_return_from 0 (elems_of hostDetails)
        (getDirectConnectStatus_body client orgId) (Slice []);
  match f with
  | Return r => mret r
  | Continue responses => mret (responses, None)
  end.

(** The body of the loop of [groupHostsBySatellite]; the loop state is the
    map. *)
Definition groupHostsBySatellite_body
    : nat → inventory.HostDetails → gmap string rhcSatellite → M W (gmap string rhcSatellite) :=
  λ _ host hostsGroupedBySatellite,
    instance ← deref (inventory.SatelliteInstanceID host);
    org ← deref (inventory.SatelliteOrgID host);
    let satInstanceAndOrg := instance +:+ org in
    match hostsGroupedBySatellite !! satInstanceAndOrg with
    | Some satellite =>
        mret (<[satInstanceAndOrg :=
                  {| SatelliteInstanceID := SatelliteInstanceID satellite;
                     SatelliteOrgID := SatelliteOrgID satellite;
                     SatelliteVersion := SatelliteVersion satellite;
                     Hosts := append (Hosts satellite) (inventory.ID host);
                     SourceID := SourceID satellite;
                     RhcClientID := RhcClientID satellite;
                     SourceAvailabilityStatus := SourceAvailabilityStatus satellite |}]>
                hostsGroupedBySatellite)
    | None =>
        let satellite :=
          {| SatelliteInstanceID := instance;
             SatelliteOrgID := org;
             SatelliteVersion :=
               match inventory.SatelliteVersion host with Some v => v | None => "" end;
             Hosts := Slice [inventory.ID host];
             SourceID := "";
             RhcClientID := None;
             SourceAvailabilityStatus := None |} in
        mret (<[satInstanceAndOrg := satellite]> hostsGroupedBySatellite)
    end.

Definition groupHostsBySatellite (hostDetails : slice inventory.HostDetails)
    : M W (gmap string rhcSatellite) :=
  for_range_from 0 (elems_of hostDetails) groupHostsBySatellite_body ∅.

Definition getRHCStatus (hostDetails : slice inventory.HostDetails) (orgID : string)
    : M W (RecipientWithConnectionInfo UUID) :=
  let hostIDs := make "" (len hostDetails) in
  hostIDs ←
    for_range_from 0 (elems_of hostDetails)
      (λ i host hostIDs, set_index hostIDs i (inventory.ID host)) hostIDs;
  formatConnectionResponse None None None orgID hostIDs "none" "rhc_not_configured".

End Controllers.

End private.

(** ** Vocabulary of the statements *)

(** The checks that [getServicePermissions] sends: one per catalog entry,
    in catalog order. *)
Definition serviceChecks (subject : Subject) : slice ResourceCheck :=
  Slice (map (kessel.serviceCheck subject) kessel.KnownServices).

(** The catalog entries whose result is allow. *)
Fixpoint allowedOf (catalog : list string) (results : list bool) : list string :=
  match catalog, results with
  | service :: catalog', allowed :: results' =>
      if allowed then service :: allowedOf catalog' results' else allowedOf catalog' results'
  | _, _ => []
  end.

(** The allowed services as [getServicePermissions] hands them out: nil when
    there are none. *)
Definition allowedSlice (allowed : list string) : slice string :=
  match allowed with
  | [] => SliceNil
  | _ => Slice allowed
  end.

Definition returns {W A} (r : Outcome A * W) : Prop := ∃ a w, r = (Returned a, w).

Definition returnedServices {W} (r : Outcome (slice string * bool * error) * W) : list string :=
  match r with
  | (Returned (services, _, _), _) => elems_of services
  | (Panicked _, _) => []
  end.

Definition returnedIDs {W} (r : Outcome (slice string * error) * W) : list string :=
  match r with
  | (Returned (ids, _), _) => elems_of ids
  | (Panicked _, _) => []
  end.

(** The stub answers the requests [reqs] one after the other, each with a
    response and no error; [allowed] are the answers, read as the client
    reads them. *)
Inductive stubAnswers {W} (stub : checkv1.KesselCheckServiceClient W)
    : list (option checkv1.CheckRequest) → W → list bool → W → Prop :=
| stubAnswers_nil w : stubAnswers stub [] w [] w
| stubAnswers_cons req reqs w resp w1 allowed w2 :
    checkv1.Check stub req w = (Returned (Some resp, None), w1) →
    stubAnswers stub reqs w1 allowed w2 →
    stubAnswers stub (req :: reqs) w
      (checkv1.CheckResponse_Allowed_eqb (checkv1.CheckResponse.Allowed resp)
         checkv1.CheckResponse_ALLOWED_TRUE :: allowed) w2.

(** The loop of [clientImpl.CheckBatch], as the function writes it. *)
Definition batchBody {W} (c : kessel.clientImpl W)
    : nat → option checkv1.CheckRequest → slice bool
      → M W (Flow (slice bool) (slice bool * error)) :=
  λ i item results,
    '(resp, err) ← checkv1.Check (kessel.checkClient c) item;
    match err with
    | Some e =>
        mret (Return (SliceNil, Some (Errorf_w
          ("kessel batch check failed at index " +:+ pretty i +:+ ": ") e)))
    | None =>
        allowed ← kessel.responseAllowed resp;
        results ← set_index results i allowed;
        mret (Continue results)
    end.

(** The client answers every check by [decision], alone or in a batch,
    without error and without changing the world: the answers of a batch
    are those of the single checks, in order. *)
Definition decides {W} (client : kessel.KesselClient W) (decision : ResourceCheck → bool) : Prop :=
  (∀ check w, kessel.Check client check w = (Returned (decision check, None), w)) ∧
  (∀ checks w,
     kessel.CheckBatch client checks w
     = (Returned (Slice (map decision (elems_of checks)), None), w)).

(** The transport answers every request by [reply], without error and
    without changing the world. *)
Definition replies {W} (stub : checkv1.KesselCheckServiceClient W)
    (reply : option checkv1.CheckRequest → checkv1.CheckResponse) : Prop :=
  ∀ req w, checkv1.Check stub req w = (Returned (Some (reply req), None), w).

(** How [clientImpl] reads a response. *)
Definition isAllowed (resp : checkv1.CheckResponse) : bool :=
  checkv1.CheckResponse_Allowed_eqb (checkv1.CheckResponse.Allowed resp)
    checkv1.CheckResponse_ALLOWED_TRUE.

(** The extractors that the route registration makes: the run named in the
    path, the run host named in the path and, inside
    [EnforceKesselOrgPermissions], every resource of a type; each in the org
    of the request. *)
Definition runResource {W} : middleware.KesselResourceExtractor W := λ c,
  mret ({| Resource.Type' := kessel.ResourceTypeRun;
           Resource.ID := echo.Param c "run_id";
           Resource.Tenant :=
             identityMiddleware.Identity.OrgID
               (identityMiddleware.XRHID.Identity (echo.RequestIdentity c)) |},
        None).

Definition runHostResource {W} : middleware.KesselResourceExtractor W := λ c,
  mret ({| Resource.Type' := kessel.ResourceTypeRunHost;
           Resource.ID := echo.Param c "run_host_id";
           Resource.Tenant :=
             identityMiddleware.Identity.OrgID
               (identityMiddleware.XRHID.Identity (echo.RequestIdentity c)) |},
        None).

Definition orgResource {W} (resourceType : string) : middleware.KesselResourceExtractor W := λ c,
  mret ({| Resource.Type' := resourceType;
           Resource.ID := "*";
           Resource.Tenant :=
             identityMiddleware.Identity.OrgID
               (identityMiddleware.XRHID.Identity (echo.RequestIdentity c)) |},
        None).

(** A route of the public API behind the identity middleware and one more
    middleware. *)
Definition guardedRoute {W} (identity : echo.MiddlewareFunc W) (method path : string)
    (handler : public.Handler) (guard : echo.MiddlewareFunc W)
    : echo.Route (echo.MiddlewareFunc W) public.Handler :=
  {| echo.Method := method;
     echo.Path := "/api/playbook-dispatcher/v1" +:+ path;
     echo.Handler := handler;
     echo.Middleware := [identity; guard] |}.

(** The two routes of the migration and the six routes of the full
    registration, each with the client that its middleware checks with. *)
Definition migrationRoutes {W} (instr : instrumentation.t W) (identity : echo.MiddlewareFunc W)
    (client1 client2 : option (kessel.KesselClient W))
    : list (echo.Route (echo.MiddlewareFunc W) public.Handler) :=
  [ guardedRoute identity "GET" "/runs" public.ApiRunsList
      (middleware.enforceWithClient instr client1 "read" (orgResource "playbook-dispatcher/run"));
    guardedRoute identity "GET" "/runs/:run_id" public.ApiRunsGet
      (middleware.enforceWithClient instr client2 "read" runResource) ].

Definition kesselRoutes {W} (instr : instrumentation.t W) (identity : echo.MiddlewareFunc W)
    (client1 client2 client3 client4 client5 client6 : option (kessel.KesselClient W))
    : list (echo.Route (echo.MiddlewareFunc W) public.Handler) :=
  [ guardedRoute identity "GET" "/runs" public.ApiRunsList
      (middleware.enforceWithClient instr client1 "read" (orgResource "playbook-dispatcher/run"));
    guardedRoute identity "GET" "/runs/:run_id" public.ApiRunsGet
      (middleware.enforceWithClient instr client2 "read" runResource);
    guardedRoute identity "POST" "/runs" public.ApiRunsCreate
      (middleware.enforceWithClient instr client3 "write" (orgResource "playbook-dispatcher/run"));
    guardedRoute identity "POST" "/runs/:run_id/cancel" public.ApiRunsCancel
      (middleware.enforceWithClient instr client4 "cancel" runResource);
    guardedRoute identity "GET" "/runs/:run_id/hosts" public.ApiRunHostsList
      (middleware.enforceWithClient instr client5 "read" runResource);
    guardedRoute identity "GET" "/run_hosts/:run_host_id" public.ApiRunHostsGet
      (middleware.enforceWithClient instr client6 "read" runHostResource) ].

(** The store after registration has added [routes] and left the world
    [w]. *)
Definition registered {W} (s : api.Store W)
    (routes : list (echo.Route (echo.MiddlewareFunc W) public.Handler)) (w : W) : api.Store W :=
  {| api.echo_of := {| echo.Routes := echo.Routes (api.echo_of s) ++ routes |};
     api.viper_of := api.viper_of s;
     api.world_of := w |}.

(** The dial that [NewKesselClient] makes for a configuration, the error it
    makes of a dial error, and the client it makes of a connection. *)
Definition kesselAddress (cfg : viper.Viper) : string :=
  viper.GetString cfg "kessel.hostname" +:+ ":" +:+ pretty (viper.GetInt cfg "kessel.port").

Definition connect {W} (dial : grpc.Dialer W) (cfg : viper.Viper)
    : M W (option (grpc.ClientConn W) * error) :=
  dial (kesselAddress cfg)
    ((if viper.GetBool cfg "kessel.insecure" then [grpc.WithTransportCredentials_insecure] else [])
     ++ [grpc.WithTimeout (time.wrap64 (viper.GetDuration cfg "kessel.timeout" * time.Second))]).

Definition connectError (cfg : viper.Viper) (e : error_value) : error_value :=
  Errorf_w ("failed to connect to Kessel at " +:+ kesselAddress cfg +:+ ": ") e.

Definition grpcClient {W} (conn : option (grpc.ClientConn W)) : option (kessel.KesselClient W) :=
  Some (kessel.clientImpl_KesselClient
          {| kessel.checkClient := kessel.NewKesselCheckServiceClient conn;
             kessel.conn := conn |}).

Definition allowAllMock {W} : option (kessel.KesselClient W) :=
  Some (kessel.NewMockKesselClient true).

(** The store with other settings. *)
Definition withSettings {W} (s : api.Store W) (cfg : viper.Viper) : api.Store W :=
  {| api.echo_of := api.echo_of s; api.viper_of := cfg; api.world_of := api.world_of s |}.


Definition OrgIDOf (c : echo.Context) : string :=
  identityMiddleware.Identity.OrgID (identityMiddleware.XRHID.Identity (echo.RequestIdentity c)).

Definition UsernameOf (c : echo.Context) : string :=
  identityMiddleware.User.Username
    (identityMiddleware.Identity.User (identityMiddleware.XRHID.Identity (echo.RequestIdentity c))).

(** The subject that the middleware and the controllers make of a request. *)
Definition userOf (c : echo.Context) : Subject :=
  {| Subject.Type' := kessel.SubjectTypeUser; Subject.ID := UsernameOf c;
     Subject.Tenant := OrgIDOf c |}.

(** A slice that was appended to: nil as long as nothing was appended. *)
Definition appended {A} (l : list A) : slice A :=
  match l with
  | [] => SliceNil
  | _ => Slice l
  end.

(** How [sortHostsByRecipient] tells the hosts apart. *)
Definition viaSatellite (host : inventory.HostDetails) : bool :=
  bool_decide (inventory.SatelliteInstanceID host ≠ None).

Definition viaRHC (host : inventory.HostDetails) : bool :=
  bool_decide (inventory.SatelliteInstanceID host = None ∧ inventory.RHCClientID host ≠ None).

Definition unconnected (host : inventory.HostDetails) : bool :=
  bool_decide (inventory.SatelliteInstanceID host = None ∧ inventory.RHCClientID host = None).

(** The key under which [groupHostsBySatellite] files a host. *)
Definition satelliteKey (host : inventory.HostDetails) : string :=
  default "" (inventory.SatelliteInstanceID host) +:+ default "" (inventory.SatelliteOrgID host).

(** The response for a directly connected host whose RHC client has the
    status [status]. *)
Definition directResponse {UUID ConnectionStatus} `{EqDecision ConnectionStatus}
    (uuid_Parse : string → UUID * error) (uuid_Nil : UUID) (Connected : ConnectionStatus)
    (statusOf : string → ConnectionStatus) (orgId : string) (host : inventory.HostDetails)
    : private.RecipientWithConnectionInfo UUID :=
  {| private.OrgId := orgId;
     private.Recipient :=
       match inventory.RHCClientID host with
       | Some s => (uuid_Parse s).1
       | None => uuid_Nil
       end;
     private.RecipientType := "directConnect";
     private.SatId := "";
     private.SatOrgId := "";
     private.Status :=
       if bool_decide (statusOf (default "" (inventory.RHCClientID host)) = Connected)
       then "connected" else "disconnected";
     private.Systems := Slice [inventory.ID host] |}.

(** The cloud connector reports [statusOf] for every recipient, without
    error and without changing the world. *)
Definition reports {W ConnectionStatus}
    (client : connectors.CloudConnectorClient W ConnectionStatus) (orgId : string)
    (statusOf : string → ConnectionStatus) : Prop :=
  ∀ recipient w,
    connectors.GetConnectionStatus client orgId recipient w
    = (Returned (statusOf recipient, None), w).

(** The group of the hosts filed under [key]: it is named after the first
    of them and lists them all, in order. *)
Definition groupOf (hosts : list inventory.HostDetails) (key : string)
    : option private.rhcSatellite :=
  match filter (λ h, satelliteKey h = key) hosts with
  | [] => None
  | first :: others =>
      Some {| private.SatelliteInstanceID := default "" (inventory.SatelliteInstanceID first);
              private.SatelliteOrgID := default "" (inventory.SatelliteOrgID first);
              private.SatelliteVersion := default "" (inventory.SatelliteVersion first);
              private.Hosts := Slice (map inventory.ID (first :: others));
              private.SourceID := "";
              private.RhcClientID := None;
              private.SourceAvailabilityStatus := None |}
  end.

(** The services of the catalog that [decision] lets [subject] read. *)
Definition readable (decision : ResourceCheck → bool) (subject : Subject) : list string :=
  filter (λ s, decision (kessel.serviceCheck subject s) = true) kessel.KnownServices.

(** The page that the list controllers answer with when no service is
    allowed. *)
Definition emptyPage : json.Value :=
  json.Object
    [ ("data", json.Array []);
      ("meta", json.Object [("count", json.Number 0)]);
      ("links", json.Object []) ].

(** ** Concrete clients and requests *)

Module Examples.

Definition jdoe : Subject :=
  {| Subject.Type' := kessel.SubjectTypeUser; Subject.ID := "jdoe"; Subject.Tenant := "org-123" |}.

(** A Kessel service that holds reader tuples for exactly the service ids in
    [granted] and nothing else; in particular no org-level tuple. *)
Definition grants (granted : list string) (check : ResourceCheck) : bool :=
  String.eqb (Resource.Type' (ResourceCheck.Resource check)) kessel.ServicePermissionResourceType
  && String.eqb (ResourceCheck.Relation check) kessel.ServicePermissionRelationReader
  && bool_decide (Resource.ID (ResourceCheck.Resource check) ∈ granted).

Definition grantingClient (granted : list string) : kessel.KesselClient () :=
  {| kessel.Check := λ check, mret (grants granted check, None);
     kessel.CheckBatch := λ checks, mret (Slice (map (grants granted) (elems_of checks)), None);
     kessel.ListResources := λ _ _ _, mret (Slice [], None) |}.

(** A transport that answers allow for [remediations], fails for
    [config-manager] and answers deny for every other resource. *)
Definition unavailable : error_value := errorString "rpc error: code = Unavailable".

Definition flakyStub : checkv1.KesselCheckServiceClient () :=
  {| checkv1.Check := λ req,
       let id := from_option
         (λ r, checkv1.ObjectReference.Id (checkv1.CheckRequest.Resource r)) "" req in
       if String.eqb id "remediations" then
         mret (Some {| checkv1.CheckResponse.Allowed := checkv1.CheckResponse_ALLOWED_TRUE |}, None)
       else if String.eqb id "config-manager" then mret (None, Some unavailable)
       else
         mret (Some {| checkv1.CheckResponse.Allowed := checkv1.CheckResponse_ALLOWED_FALSE |}, None) |}.

Definition flakyClient : kessel.KesselClient () :=
  kessel.clientImpl_KesselClient {| kessel.checkClient := flakyStub; kessel.conn := None |}.

(** A transport that answers every request, allowing [remediations] only. *)
Definition steadyStub : checkv1.KesselCheckServiceClient () :=
  {| checkv1.Check := λ req,
       let id := from_option
         (λ r, checkv1.ObjectReference.Id (checkv1.CheckRequest.Resource r)) "" req in
       if String.eqb id "remediations" then
         mret (Some {| checkv1.CheckResponse.Allowed := checkv1.CheckResponse_ALLOWED_TRUE |}, None)
       else
         mret (Some {| checkv1.CheckResponse.Allowed := checkv1.CheckResponse_ALLOWED_FALSE |}, None) |}.

Definition steadyClient : kessel.KesselClient () :=
  kessel.clientImpl_KesselClient {| kessel.checkClient := steadyStub; kessel.conn := None |}.

(** A client that breaks the contract of [CheckBatch]: it answers allow
    once more than it was asked. *)
Definition overlongClient : kessel.KesselClient () :=
  {| kessel.Check := λ _, mret (false, None);
     kessel.CheckBatch := λ checks, mret (Slice (replicate (S (len checks)) true), None);
     kessel.ListResources := λ _ _ _, mret (Slice [], None) |}.

(** A client whose checks fail. *)
Definition failingClient : kessel.KesselClient () :=
  {| kessel.Check := λ _, mret (false, Some unavailable);
     kessel.CheckBatch := λ _, mret (SliceNil, Some unavailable);
     kessel.ListResources := λ _ _ _, mret (SliceNil, Some unavailable) |}.

(** Metrics that leave the world as it is. *)
Definition silent : instrumentation.t () :=
  {| instrumentation.RbacError := λ _ _ w, w; instrumentation.RbacRejected := λ _ w, w |}.

Definition request (orgID username : string) (params : list (string * string)) : echo.Context :=
  {| echo.RequestIdentity :=
       {| identityMiddleware.XRHID.Identity :=
            {| identityMiddleware.Identity.OrgID := orgID;
               identityMiddleware.Identity.User :=
                 {| identityMiddleware.User.Username := username |} |} |};
     echo.PathParams := list_to_map params;
     echo.KesselPermissions := None |}.

(** A handler that must not run: it panics when it is invoked. *)
Definition forbiddenHandler : echo.HandlerFunc () := λ _, panic "handler invoked".

Definition runExtractor : middleware.KesselResourceExtractor () := λ c,
  mret ({| Resource.Type' := kessel.ResourceTypeRun;
           Resource.ID := echo.Param c "run_id";
           Resource.Tenant :=
             identityMiddleware.Identity.OrgID
               (identityMiddleware.XRHID.Identity (echo.RequestIdentity c)) |},
        None).

Definition config (enabled : bool) (impl : string) : viper.Viper :=
  {| viper.GetString := λ key, if String.eqb key "kessel.impl" then impl else "";
     viper.GetInt := λ _, 0%Z;
     viper.GetBool := λ key, if String.eqb key "kessel.enabled" then enabled else false;
     viper.GetDuration := λ _, 0%Z |}.

End Examples.

(** ** Further concrete clients, transports and requests *)

Module Samples.

(** The answers of [Examples.steadyStub], as a function of the request. *)
Definition steadyReply (req : option checkv1.CheckRequest) : checkv1.CheckResponse :=
  if String.eqb
       (from_option (λ r, checkv1.ObjectReference.Id (checkv1.CheckRequest.Resource r)) "" req)
       "remediations"
  then {| checkv1.CheckResponse.Allowed := checkv1.CheckResponse_ALLOWED_TRUE |}
  else {| checkv1.CheckResponse.Allowed := checkv1.CheckResponse_ALLOWED_FALSE |}.

(** [jdoe] under another tenant. *)
Definition jdoeElsewhere : Subject :=
  {| Subject.Type' := kessel.SubjectTypeUser; Subject.ID := "jdoe"; Subject.Tenant := "org-999" |}.

(** A dial that is refused. *)
Definition refused : error_value := errorString "connection refused".

Definition refusingDial : grpc.Dialer () := λ _ _, mret (None, Some refused).

(** A dial that connects to [Examples.steadyStub]. *)
Definition steadyConn : grpc.ClientConn () :=
  {| grpc.Invoke := checkv1.Check Examples.steadyStub |}.

Definition openDial : grpc.Dialer () := λ _ _, mret (Some steadyConn, None).

(** An identity middleware that lets every request pass, controllers that
    answer without error, metrics that leave the world as it is, and
    [SetDefault] on a configuration in which every key is set. *)
Definition passIdentity {W} : echo.MiddlewareFunc W := λ next, next.

Definition okControllers {W} : public.Handler → echo.HandlerFunc W := λ _ _, mret None.

Definition noMetrics {W} : instrumentation.t W :=
  {| instrumentation.RbacError := λ _ _ w, w; instrumentation.RbacRejected := λ _ w, w |}.

Definition keepSettings : viper.Setter := λ _ _ cfg, cfg.



(** A server whose world is the list of the authorization systems that were
    consulted, in order.  The Kessel service notes each request it receives
    and allows it. *)
Definition notingConn : grpc.ClientConn (list api.AuthSystem) :=
  {| grpc.Invoke := λ _,
       modify (λ consulted, consulted ++ [api.Kessel]);;
       mret (Some {| checkv1.CheckResponse.Allowed := checkv1.CheckResponse_ALLOWED_TRUE |},
             None) |}.

Definition notingDial : grpc.Dialer (list api.AuthSystem) := λ _ _, mret (Some notingConn, None).

(** A server with no route, the settings [cfg] and nothing consulted. *)
Definition fresh {W} (cfg : viper.Viper) (w : W) : api.Store W :=
  {| api.echo_of := echo.New; api.viper_of := cfg; api.world_of := w |}.

(** Hosts as the inventory describes them, a UUID parser that keeps the
    text, a cloud connector in which only [rhc-1] is connected and one that
    cannot tell about [rhc-down], and a context that logs nothing and writes
    its responses without error. *)
Definition host (id : string) (instance org rhc : option string) : inventory.HostDetails :=
  {| inventory.ID := id;
     inventory.SatelliteInstanceID := instance;
     inventory.SatelliteOrgID := org;
     inventory.SatelliteVersion := None;
     inventory.RHCClientID := rhc |}.

Definition parse : string → string * error := λ s, (s, None).

Definition onlyFirst (recipient : string) : bool := String.eqb recipient "rhc-1".

Definition steadyConnector : connectors.CloudConnectorClient () bool :=
  {| connectors.GetConnectionStatus := λ _ recipient, mret (onlyFirst recipient, None) |}.

Definition moodyConnector : connectors.CloudConnectorClient () bool :=
  {| connectors.GetConnectionStatus := λ _ recipient,
       if String.eqb recipient "rhc-down" then mret (false, Some refused)
       else mret (onlyFirst recipient, None) |}.

Definition noLog : error_value → () → () := λ _ w, w.

Definition noContent : nat → M () error := λ _, mret None.

(** A client whose checks fail, over any world. *)
Definition brokenClient {W} : kessel.KesselClient W :=
  {| kessel.Check := λ _, mret (false, Some Examples.unavailable);
     kessel.CheckBatch := λ _, mret (SliceNil, Some Examples.unavailable);
     kessel.ListResources := λ _ _ _, mret (SliceNil, Some Examples.unavailable) |}.

(** Controllers over a world that keeps the status codes written so far and
    the statements sent to the database. *)
Record trace : Type := { written : list nat; queried : list gorm.DB }.

Definition quiet : trace := {| written := []; queried := [] |}.

Definition emptyDatabase : gorm.DB :=
  {| gorm.Statement_Table := ""; gorm.Statement_Joins := []; gorm.Statement_Where := [] |}.

Definition findNothing : gorm.DB → M trace (slice string * error) := λ q,
  modify (λ t, {| written := written t; queried := queried t ++ [q] |});;
  mret (Slice [], None).

Definition writeJSON : nat → json.Body string → M trace error := λ code _,
  modify (λ t, {| written := written t ++ [code]; queried := queried t |});;
  mret None.

Definition writeNoContent : nat → M trace error := λ code,
  modify (λ t, {| written := written t ++ [code]; queried := queried t |});;
  mret None.

End Samples.

(** ** The claims as the specification words them, where the code differs *)

Module Claimed.

(** A resolver reports deny-all for the subject: filtering required, no
    service allowed, no error. *)
Definition reportsDenyAll {W} (r : Outcome (slice string * bool * error) * W) : Prop :=
  ∃ services w, r = (Returned (services, true, None), w) ∧ elems_of services = [].

(** Both resolvers report deny-all whenever the org-level check and every
    per-service check of the subject deny. *)
Definition zero_access_is_reported : Prop :=
  ∀ (subject : Subject) (w : ()),
    let client := kessel.NewMockKesselClient false in
    reportsDenyAll (kessel.GetAllowedServices client subject w) ∧
    reportsDenyAll (kessel.ApplyServiceFilter client subject w).

(** A batch with one succeeding check resolves without a top-level error and
    keeps the allowed services. *)
Definition partial_failure_is_tolerated : Prop :=
  ∀ (stub : checkv1.KesselCheckServiceClient ()) (subject : Subject) (w : ()) req resp w1,
    req ∈ map kessel.checkRequest (elems_of (serviceChecks subject)) →
    checkv1.Check stub req w = (Returned (Some resp, None), w1) →
    ∃ services w',
      kessel.getServicePermissions
        (kessel.clientImpl_KesselClient {| kessel.checkClient := stub; kessel.conn := None |})
        subject w
      = (Returned (services, true, None), w').

(** The attribute-filter resolution never returns an error. *)
Definition attribute_filters_never_fail : Prop :=
  ∀ W (client : kessel.KesselClient W) subject relation resourceType attributeKey w,
    ∃ values w',
      kessel.GetAttributeFilters client subject relation resourceType attributeKey w
      = (Returned (values, None), w').

(** A grant for either spelling of a service gives the same decision. *)
Definition spellings_are_identified : Prop :=
  ∀ (subject : Subject) (w : ()),
    kessel.getServicePermissions (Examples.grantingClient ["config_manager"]) subject w
    = kessel.getServicePermissions (Examples.grantingClient ["config-manager"]) subject w.

(** Some configuration registers a route on which both systems are
    consulted for a request. *)
Definition both_systems_run : Prop :=
  ∃ (cfg : viper.Viper) (err : error) (s : api.Store (list api.AuthSystem))
    (r : echo.Route (echo.MiddlewareFunc (list api.AuthSystem)) public.Handler)
    (c : echo.Context) (answer : Outcome error) (consulted : list api.AuthSystem),
    api.SetupRoutesWithBothRBACAndKessel Samples.noMetrics Samples.notingDial
      Samples.passIdentity (Samples.fresh cfg []) = (Returned err, s) ∧
    r ∈ echo.Routes (api.echo_of s) ∧
    api.routeHandler Samples.okControllers r c (api.world_of s) = (answer, consulted) ∧
    api.RBAC ∈ consulted ∧ api.Kessel ∈ consulted.

End Claimed.


(** ** Go runtime lemmas *)

Section Runtime.
Context {W : Type}.

Lemma bind_returned {A B} (m : M W A) (f : A → M W B) w a w' :
  m w = (Returned a, w') → (m ≫= f) w = f a w'.
Proof. intros H. unfold mbind, M_bind. by rewrite H. Qed.

Lemma bind_ret {A B} (a : A) (f : A → M W B) w : (mret a ≫= f) w = f a w.
Proof. reflexivity. Qed.

Lemma index_lookup {A} (l : list A) i x (w : W) :
  l !! i = Some x → index l i w = (Returned x, w).
Proof. intros H. unfold index. by rewrite H. Qed.

End Runtime.

(** Runs the computation at the head of a bind whose result [H] states. *)
Ltac run_bind H := erewrite bind_returned by exact H; cbn beta iota.

(** A slice made with [make] and assigned at every index by a range loop
    holds the assigned values: no assignment is out of range. *)
Lemma assign_loop {W A B} (f : nat → A → B) (zero : B) (l : list A) (pre : list B) (w : W) :
  for_range_from (length pre) l (λ i x s, set_index s i (f i x))
    (Slice (pre ++ replicate (length l) zero)) w
  = (Returned (Slice (pre ++ imap (λ i, f (length pre + i)) l)), w).
Proof.
  revert pre. induction l as [|x l IH]; intros pre; [done|].
  cbn [for_range_from length replicate].
  erewrite bind_returned; last first.
  { unfold set_index, len. cbn [elems_of].
    rewrite decide_True by (rewrite length_app; simpl; lia).
    rewrite insert_app_r_alt by lia. rewrite Nat.sub_diag. reflexivity. }
  cbn [insert list_insert].
  replace (pre ++ f (length pre) x :: replicate (length l) zero)
    with ((pre ++ [f (length pre) x]) ++ replicate (length l) zero)
    by (by rewrite <- app_assoc).
  replace (S (length pre)) with (length (pre ++ [f (length pre) x]))
    by (rewrite length_app; simpl; lia).
  rewrite IH. rewrite <- app_assoc. simpl. rewrite Nat.add_0_r.
  rewrite (imap_ext (λ i, f (length (pre ++ [f (length pre) x]) + i))
             ((λ i, f (length pre + i)) ∘ S) l); [done|].
  intros i y _. simpl. f_equal. rewrite length_app. simpl. lia.
Qed.

Lemma make_assign {W A B} (f : A → B) (zero : B) (l : list A) (w : W) :
  for_range_from 0 l (λ i x s, set_index s i (f x)) (make zero (length l)) w
  = (Returned (Slice (map f l)), w).
Proof.
  pose proof (assign_loop (λ _, f) zero l [] w) as H. simpl in H.
  unfold make. rewrite H. clear H.
  replace (imap (λ _ : nat, f) l) with (map f l); [done|].
  induction l as [|x l IH]; simpl; [done|]. f_equal. exact IH.
Qed.

(** ** The loops of package kessel *)

Section Loops.
Context {W : Type}.

(** The loop that keeps the entries of [ids] whose result is allow.  When it
    returns, it has appended a subsequence of the entries from index [i] on,
    namely those selected by the results, and has not touched the world. *)
Lemma collect_returned (ids : list string) (results : list bool) :
  ∀ i (acc r : slice string) (w w' : W),
    for_range_from i results (λ i (allowed : bool) acc,
      if allowed then id ← index ids i; mret (append acc id) else mret acc) acc w
    = (Returned r, w') →
    w' = w ∧ r = (if decide (allowedOf (drop i ids) results = []) then acc
                  else Slice (elems_of acc ++ allowedOf (drop i ids) results)).
Proof.
  induction results as [|allowed results IH]; intros i acc r w w' Hrun; simpl in Hrun.
  - inversion Hrun; subst. split; [done|].
    by destruct (drop i ids).
  - destruct allowed.
    + destruct (ids !! i) as [id|] eqn:Hid.
      * rewrite (bind_returned _ _ w (append acc id) w) in Hrun
          by (by rewrite (bind_returned _ _ w id w) by (by apply index_lookup)).
        apply IH in Hrun as [-> ->]. split; [done|].
        rewrite (drop_S _ _ _ Hid). simpl.
        case_decide as Hnil.
        -- by rewrite Hnil.
        -- by rewrite <- app_assoc.
      * unfold index in Hrun. rewrite Hid in Hrun. cbv in Hrun. by inversion Hrun.
    + rewrite bind_ret in Hrun. apply IH in Hrun as [-> ->]. split; [done|].
      destruct (ids !! i) as [id|] eqn:Hid.
      * by rewrite (drop_S _ _ _ Hid).
      * apply lookup_ge_None in Hid.
        rewrite !drop_ge by lia. reflexivity.
Qed.

(** With no more results than entries the loop returns. *)
Lemma collect_returns (ids : list string) (results : list bool) :
  ∀ i (acc : slice string) (w : W),
    i + length results ≤ length ids →
    returns (for_range_from i results (λ i (allowed : bool) acc,
      if allowed then id ← index ids i; mret (append acc id) else mret acc) acc w).
Proof.
  induction results as [|allowed results IH]; intros i acc w Hlen; simpl in *.
  - by eexists _, _.
  - destruct allowed.
    + destruct (lookup_lt_is_Some_2 ids i) as [id Hid]; [lia|].
      rewrite (bind_returned _ _ w (append acc id) w)
        by (by rewrite (bind_returned _ _ w id w) by (by apply index_lookup)).
      apply IH. lia.
    + rewrite bind_ret. apply IH. lia.
Qed.

(** Results that are all deny leave the collected list as it is, whatever
    their number. *)
Lemma collect_all_deny (ids : list string) (results : list bool) :
  (∀ allowed, allowed ∈ results → allowed = false) →
  ∀ i (acc : slice string) (w : W),
    for_range_from i results (λ i (allowed : bool) acc,
      if allowed then id ← index ids i; mret (append acc id) else mret acc) acc w
    = (Returned acc, w).
Proof.
  induction results as [|allowed results IH]; intros Hdeny i acc w; [done|].
  rewrite (Hdeny allowed) by left. cbn [for_range_from]. rewrite bind_ret.
  apply IH. intros b Hb. apply Hdeny. by right.
Qed.

Lemma allowedOf_sublist (catalog : list string) (results : list bool) :
  allowedOf catalog results `sublist_of` catalog.
Proof.
  revert results. induction catalog as [|s catalog IH]; intros [|[] results]; simpl;
    try apply sublist_nil_l.
  - by apply sublist_skip.
  - by apply sublist_cons.
Qed.

End Loops.

(** ** The clients of the repository *)

Section ClientLemmas.
Context {W : Type}.

(** The mock answers a batch with one result per check. *)
Lemma mock_CheckBatch (allowAll : bool) (checks : slice ResourceCheck) (w : W) :
  kessel.CheckBatch (kessel.NewMockKesselClient allowAll) checks w
  = (Returned (Slice (replicate (len checks) allowAll), None), w).
Proof.
  simpl. unfold kessel.mockClient_CheckBatch, len. simpl.
  pose proof (make_assign (λ _ : bool, allowAll) false
                (replicate (length (elems_of checks)) false) w) as H.
  rewrite length_replicate in H. erewrite bind_returned by exact H.
  clear H. unfold mret, M_ret.
  replace (map (λ _ : bool, allowAll) (replicate (length (elems_of checks)) false))
    with (replicate (length (elems_of checks)) allowAll); [done|].
  generalize (length (elems_of checks)). intros n.
  induction n; simpl; congruence.
Qed.

Lemma clientImpl_CheckBatch_loop (c : kessel.clientImpl W) (checks : slice ResourceCheck) (w : W) :
  kessel.CheckBatch (kessel.clientImpl_KesselClient c) checks w
  = (f ← for_range_return_from 0 (map kessel.checkRequest (elems_of checks)) (batchBody c)
         (Slice (replicate (length (elems_of checks)) false));
     match f with
     | Return r => mret r
     | Continue results => mret (results, None)
     end) w.
Proof.
  simpl. unfold kessel.clientImpl_CheckBatch, len.
  by erewrite bind_returned by apply make_assign.
Qed.

(** While the stub answers, the loop fills the results in order. *)
Lemma batch_loop_answers (c : kessel.clientImpl W) reqs w allowed w' :
  stubAnswers (kessel.checkClient c) reqs w allowed w' →
  ∀ (pre : list bool) (rest : nat),
    for_range_return_from (length pre) reqs (batchBody c)
      (Slice (pre ++ replicate (length reqs + rest) false)) w
    = (Returned (Continue (Slice (pre ++ allowed ++ replicate rest false))), w').
Proof.
  induction 1 as [w|req reqs w resp w1 allowed w2 Hreq _ IH]; intros pre rest.
  - reflexivity.
  - cbn [for_range_return_from length Nat.add replicate].
    erewrite bind_returned; last first.
    { unfold batchBody. erewrite bind_returned by exact Hreq. cbn beta iota.
      cbn [kessel.responseAllowed]. rewrite bind_ret.
      unfold set_index, len. cbn [elems_of].
      rewrite decide_True by (rewrite length_app; simpl; lia).
      rewrite insert_app_r_alt by lia. rewrite Nat.sub_diag. reflexivity. }
    cbn [insert list_insert].
    specialize (IH (pre ++ [checkv1.CheckResponse_Allowed_eqb
                              (checkv1.CheckResponse.Allowed resp)
                              checkv1.CheckResponse_ALLOWED_TRUE]) rest).
    rewrite length_app, Nat.add_1_r, <- !app_assoc in IH. exact IH.
Qed.

Lemma for_range_return_app {A St R} (body : nat → A → St → M W (Flow St R)) (l1 l2 : list A) :
  ∀ i s w,
    for_range_return_from i (l1 ++ l2) body s w
    = (f ← for_range_return_from i l1 body s;
       match f with
       | Continue s' => for_range_return_from (i + length l1) l2 body s'
       | Return r => mret (Return r)
       end) w.
Proof.
  induction l1 as [|x l1 IH]; intros i s w; simpl.
  - by rewrite Nat.add_0_r.
  - unfold mbind, M_bind. destruct (body i x s w) as [[[s'|r]|v] w1]; try reflexivity.
    rewrite IH. unfold mbind, M_bind. by rewrite Nat.add_succ_r.
Qed.

(** All requests answered: the batch returns the answers and no error. *)
Lemma clientImpl_CheckBatch_answers (c : kessel.clientImpl W) checks w allowed w' :
  stubAnswers (kessel.checkClient c) (map kessel.checkRequest (elems_of checks)) w allowed w' →
  kessel.CheckBatch (kessel.clientImpl_KesselClient c) checks w
  = (Returned (Slice allowed, None), w').
Proof.
  intros H. rewrite clientImpl_CheckBatch_loop.
  pose proof (batch_loop_answers c _ _ _ _ H [] 0) as Hloop.
  rewrite length_map, Nat.add_0_r, app_nil_r in Hloop. simpl in Hloop.
  by erewrite bind_returned by exact Hloop.
Qed.

(** The first request that the stub fails ends the batch: no results, and the
    stub's error wrapped with the index of the failed check. *)
Lemma clientImpl_CheckBatch_fails (c : kessel.clientImpl W) checks before req after
    w allowed w1 resp e w2 :
  map kessel.checkRequest (elems_of checks) = before ++ req :: after →
  stubAnswers (kessel.checkClient c) before w allowed w1 →
  checkv1.Check (kessel.checkClient c) req w1 = (Returned (resp, Some e), w2) →
  kessel.CheckBatch (kessel.clientImpl_KesselClient c) checks w
  = (Returned (SliceNil, Some (Errorf_w
       ("kessel batch check failed at index " +:+ pretty (length before) +:+ ": ") e)), w2).
Proof.
  intros Hreqs Hbefore Hfail. rewrite clientImpl_CheckBatch_loop.
  assert (length (elems_of checks) = length before + S (length after)) as ->.
  { rewrite <- (length_map kessel.checkRequest), Hreqs, length_app. reflexivity. }
  rewrite Hreqs.
  erewrite bind_returned; last first.
  { rewrite for_range_return_app.
    erewrite bind_returned by exact (batch_loop_answers c _ _ _ _ Hbefore [] (S (length after))).
    cbn [for_range_return_from].
    erewrite bind_returned; last first.
    { unfold batchBody. erewrite bind_returned by exact Hfail. reflexivity. }
    reflexivity. }
  reflexivity.
Qed.

End ClientLemmas.

(** ** Service permissions *)

Section ServicePermissions.
Context {W : Type}.
Implicit Types (client : kessel.KesselClient W) (subject : Subject) (w : W).

(** [getServicePermissions] sends one batch: the check of every catalog
    entry, in catalog order. *)
Lemma getServicePermissions_batch client subject w :
  kessel.getServicePermissions client subject w
  = ('(results, err) ← kessel.CheckBatch client (serviceChecks subject);
     match err with
     | Some e => mret (SliceNil, false, Some e)
     | None =>
         allowedServices ←
           for_range_from 0 (elems_of results) (λ i (allowed : bool) allowedServices,
             if allowed then
               service ← index kessel.KnownServices i;
               mret (append allowedServices service)
             else mret allowedServices) (make "" 0);
         if (len allowedServices =? 0)%nat
         then mret (SliceNil, true, None)
         else mret (allowedServices, true, None)
     end) w.
Proof.
  unfold kessel.getServicePermissions, serviceChecks.
  by erewrite bind_returned by apply make_assign.
Qed.

Lemma getServicePermissions_error client subject w results e w' :
  kessel.CheckBatch client (serviceChecks subject) w = (Returned (results, Some e), w') →
  kessel.getServicePermissions client subject w = (Returned (SliceNil, false, Some e), w').
Proof.
  intros H. rewrite getServicePermissions_batch. by erewrite bind_returned by exact H.
Qed.

(** What the function returns, when it returns: the error of the batch, or
    the catalog entries that the batch allows. *)
Lemma getServicePermissions_returned client subject w services filter err w' :
  kessel.getServicePermissions client subject w = (Returned (services, filter, err), w') →
  (∃ results e,
      kessel.CheckBatch client (serviceChecks subject) w = (Returned (results, Some e), w') ∧
      services = SliceNil ∧ filter = false ∧ err = Some e) ∨
  (∃ results,
      kessel.CheckBatch client (serviceChecks subject) w = (Returned (results, None), w') ∧
      services = allowedSlice (allowedOf kessel.KnownServices (elems_of results)) ∧
      filter = true ∧ err = None).
Proof.
  rewrite getServicePermissions_batch. unfold mbind at 1, M_bind at 1.
  destruct (kessel.CheckBatch client (serviceChecks subject) w) as [[[results [e|]]|v] w1];
    [| |done].
  - intros [= <- <- <- <-]. left. by exists results, e.
  - unfold mbind, M_bind.
    destruct (for_range_from 0 (elems_of results) _ _ w1) as [[r|v] w2] eqn:Hloop; [|done].
    apply collect_returned in Hloop as [-> ->]. rewrite drop_0. cbn [make replicate elems_of app].
    intros Hret. right. exists results.
    destruct (allowedOf kessel.KnownServices (elems_of results)) as [|s allowed].
    + rewrite !decide_True in Hret by done. cbv in Hret. by simplify_eq.
    + rewrite !decide_False in Hret by done. cbv [len elems_of length Nat.eqb] in Hret.
      cbv in Hret. by simplify_eq.
Qed.

Lemma getServicePermissions_results client subject w results w' :
  kessel.CheckBatch client (serviceChecks subject) w = (Returned (results, None), w') →
  length (elems_of results) ≤ length kessel.KnownServices →
  kessel.getServicePermissions client subject w
  = (Returned (allowedSlice (allowedOf kessel.KnownServices (elems_of results)), true, None), w').
Proof.
  intros Hbatch Hlen.
  destruct (collect_returns kessel.KnownServices (elems_of results) 0 (make "" 0) w')
    as (allowedServices & w2 & Hloop); [done|].
  destruct (kessel.getServicePermissions client subject w) as [[[[s f] e]|v] w3] eqn:Hrun.
  - apply getServicePermissions_returned in Hrun
      as [(? & ? & Hb & _)|(results' & Hb & -> & -> & ->)]; rewrite Hbatch in Hb; by simplify_eq.
  - rewrite getServicePermissions_batch in Hrun.
    erewrite bind_returned in Hrun by exact Hbatch. cbn beta iota in Hrun.
    erewrite bind_returned in Hrun by exact Hloop.
    by destruct (len _ =? 0)%nat.
Qed.

Lemma GetAllowedServices_org client subject w hasOrgAccess w1 :
  kessel.Check client (kessel.orgCheck subject) w = (Returned (hasOrgAccess, None), w1) →
  kessel.GetAllowedServices client subject w
  = if hasOrgAccess then (Returned (SliceNil, false, None), w1)
    else kessel.getServicePermissions client subject w1.
Proof.
  intros H. unfold kessel.GetAllowedServices. run_bind H.
  by destruct hasOrgAccess.
Qed.

Lemma GetAllowedServices_returned client subject w services filter err w' :
  kessel.GetAllowedServices client subject w = (Returned (services, filter, err), w') →
  services = SliceNil ∨
  ∃ w1, kessel.getServicePermissions client subject w1 = (Returned (services, filter, err), w').
Proof.
  unfold kessel.GetAllowedServices, mbind at 1, M_bind at 1.
  destruct (kessel.Check client (kessel.orgCheck subject) w) as [[[[] [e|]]|v] w1]; cbn.
  1,2,3: intros [= <- <- <- <-]; by left.
  - intros H. right. by exists w1.
  - done.
Qed.

End ServicePermissions.

(** ** Claims about the service-permission resolution *)

(** C9: every check built by the helper constructors carries the subject it
    was given and stays inside that subject's tenant: the tenant of the
    resource is the tenant of the subject, for every subject, relation,
    resource type and resource id. *)
Theorem helper_checks_stay_in_tenant (subject : Subject) (relation resourceType resourceID : string) :
  let same_tenant (c : ResourceCheck) :=
    ResourceCheck.Subject c = subject ∧
    Resource.Tenant (ResourceCheck.Resource c) = Subject.Tenant (ResourceCheck.Subject c) in
  same_tenant (kessel.DispatcherResourceCheck subject relation resourceType resourceID) ∧
  same_tenant (kessel.DispatcherRunCheck subject relation resourceID) ∧
  same_tenant (kessel.DispatcherRunHostCheck subject relation resourceID).
Proof. cbv zeta. repeat split. Qed.

(** C1, as the specification words it, fails: for a subject whose org-level
    check and per-service checks all deny (the deny-all mock client),
    [GetAllowedServices] reports filtering with no service, but
    [ApplyServiceFilter] reports that no filtering is required, which is the
    very result it gives for a subject whose checks all allow. *)
Lemma ApplyServiceFilter_collapses_zero_access :
  let deny := kessel.NewMockKesselClient false in
  let allow := kessel.NewMockKesselClient true in
  kessel.Check deny (kessel.orgCheck Examples.jdoe) () = (Returned (false, None), ()) ∧
  kessel.CheckBatch deny (serviceChecks Examples.jdoe) ()
    = (Returned (Slice (replicate 8 false), None), ()) ∧
  kessel.GetAllowedServices deny Examples.jdoe () = (Returned (SliceNil, true, None), ()) ∧
  kessel.ApplyServiceFilter deny Examples.jdoe () = (Returned (SliceNil, false, None), ()) ∧
  kessel.ApplyServiceFilter deny Examples.jdoe () = kessel.ApplyServiceFilter allow Examples.jdoe () ∧
  ¬ Claimed.zero_access_is_reported.
Proof.
  cbv zeta. split_and!; try reflexivity.
  intros H. destruct (H Examples.jdoe ()) as [_ (services & w & Heq & _)].
  by inversion Heq.
Qed.

(** C1, amended: [GetAllowedServices] keeps zero access apart from
    unrestricted access.  When the org-level check denies and the batch
    denies every service, it reports that filtering is required with no
    allowed service (a nil list), and this differs from what it reports for
    a subject whose org-level check allows.  [ApplyServiceFilter] never
    reports filtering: for every client and subject it answers that no
    filtering is required, without asking the client. *)
Theorem zero_access_kept_apart_by_GetAllowedServices {W} (client : kessel.KesselClient W)
    (subject : Subject) (w w1 w2 : W) (results : slice bool) :
  kessel.Check client (kessel.orgCheck subject) w = (Returned (false, None), w1) →
  kessel.CheckBatch client (serviceChecks subject) w1 = (Returned (results, None), w2) →
  (∀ allowed, allowed ∈ elems_of results → allowed = false) →
  kessel.GetAllowedServices client subject w = (Returned (SliceNil, true, None), w2) ∧
  (∀ w0 w0', kessel.Check client (kessel.orgCheck subject) w0 = (Returned (true, None), w0') →
     kessel.GetAllowedServices client subject w0 = (Returned (SliceNil, false, None), w0') ∧
     fst (kessel.GetAllowedServices client subject w0) ≠ fst (kessel.GetAllowedServices client subject w)) ∧
  kessel.ApplyServiceFilter client subject = mret (SliceNil, false, None).
Proof.
  intros Horg Hbatch Hdeny.
  assert (kessel.GetAllowedServices client subject w = (Returned (SliceNil, true, None), w2)) as Hzero.
  { rewrite (GetAllowedServices_org _ _ _ _ _ Horg), getServicePermissions_batch.
    run_bind Hbatch.
    by erewrite bind_returned by (by apply collect_all_deny). }
  split_and!; [done| |done].
  intros w0 w0' Hallow. rewrite (GetAllowedServices_org _ _ _ _ _ Hallow), Hzero. by split.
Qed.

Lemma zero_access_kept_apart_by_GetAllowedServices_witness :
  kessel.GetAllowedServices (kessel.NewMockKesselClient false) Examples.jdoe ()
  = (Returned (SliceNil, true, None), ()).
Proof.
  refine (proj1 (zero_access_kept_apart_by_GetAllowedServices
    (kessel.NewMockKesselClient false) Examples.jdoe () () () (Slice (replicate 8 false)) _ _ _)).
  - reflexivity.
  - reflexivity.
  - intros allowed Hin. apply elem_of_replicate in Hin. tauto.
Defined.



(** C6: whatever the client answers, the services that the resolution hands
    out are catalog entries, in catalog order: the allowed list of
    [getServicePermissions] and of [GetAllowedServices] is a subsequence,
    hence a subset, of [KnownServices], and a value outside the catalog is
    never in it.  (A client that answers a batch with more results than
    checks and an allow past the catalog makes the Go code panic on
    [KnownServices[i]]; no list is handed out then.)  The resolution does
    return with the mock client of the repository: the whole catalog when it
    allows, no service when it denies. *)
Theorem allowed_services_within_catalog {W} (client : kessel.KesselClient W) (subject : Subject)
    (w : W) :
  returnedServices (kessel.getServicePermissions client subject w) `sublist_of` kessel.KnownServices ∧
  returnedServices (kessel.getServicePermissions client subject w) ⊆ kessel.KnownServices ∧
  returnedServices (kessel.GetAllowedServices client subject w) `sublist_of` kessel.KnownServices ∧
  returnedServices (kessel.GetAllowedServices client subject w) ⊆ kessel.KnownServices ∧
  (∀ allowAll,
     kessel.getServicePermissions (kessel.NewMockKesselClient allowAll) subject w
     = (Returned (if allowAll then Slice kessel.KnownServices else SliceNil, true, None), w)).
Proof.
  assert (∀ w0, returnedServices (kessel.getServicePermissions client subject w0)
                  `sublist_of` kessel.KnownServices) as Hsub.
  { intros w0.
    destruct (kessel.getServicePermissions client subject w0) as [[[[s f] e]|v] w1] eqn:Hrun;
      [|apply sublist_nil_l].
    apply getServicePermissions_returned in Hrun
      as [(_ & _ & _ & -> & _)|(results & _ & -> & _)]; [apply sublist_nil_l|].
    pose proof (allowedOf_sublist kessel.KnownServices (elems_of results)) as Hall.
    unfold allowedSlice, returnedServices.
    by destruct (allowedOf kessel.KnownServices (elems_of results)). }
  assert (returnedServices (kessel.GetAllowedServices client subject w)
            `sublist_of` kessel.KnownServices) as Hsub'.
  { destruct (kessel.GetAllowedServices client subject w) as [[[[s f] e]|v] w1] eqn:Hrun;
      [|apply sublist_nil_l].
    apply GetAllowedServices_returned in Hrun as [->|[w0 Hrun]]; [apply sublist_nil_l|].
    specialize (Hsub w0). by rewrite Hrun in Hsub. }
  split_and!; auto using sublist_subseteq.
  intros allowAll.
  rewrite (getServicePermissions_results _ _ _ _ _ (mock_CheckBatch allowAll _ w)).
  - by destruct allowAll.
  - simpl. rewrite ?length_replicate. lia.
Qed.

(** The panic of the parenthesis above, on a client that answers nine
    results to eight checks. *)
Example overlong_batch_panics :
  kessel.getServicePermissions Examples.overlongClient Examples.jdoe ()
    = (Panicked "runtime error: index out of range [8] with length 8", ()) ∧
  kessel.FilterAuthorizedResources Examples.overlongClient Examples.jdoe kessel.RelationRead
      kessel.ResourceTypeRun (Slice ["run-1"; "run-2"]) ()
    = (Panicked "runtime error: index out of range [2] with length 2", ()).
Proof. split; by vm_compute. Qed.

Lemma stubAnswers_length {W} (stub : checkv1.KesselCheckServiceClient W) reqs w allowed w' :
  stubAnswers stub reqs w allowed w' → length allowed = length reqs.
Proof. induction 1; simpl; congruence. Qed.

Lemma stubAnswers_step {W} (stub : checkv1.KesselCheckServiceClient W) req reqs w resp w1
    (answer : bool) allowed w2 :
  checkv1.Check stub req w = (Returned (Some resp, None), w1) →
  answer = checkv1.CheckResponse_Allowed_eqb (checkv1.CheckResponse.Allowed resp)
             checkv1.CheckResponse_ALLOWED_TRUE →
  stubAnswers stub reqs w1 allowed w2 →
  stubAnswers stub (req :: reqs) w (answer :: allowed) w2.
Proof. intros Hreq -> Hrest. by econstructor. Qed.

(** C2, as the specification words it, fails: with a transport that allows
    [remediations], fails for [config-manager] and denies the rest, one
    check has succeeded, yet the batch stops at index 1 and the resolution
    returns that error, no service and no filtering flag. *)
Lemma one_failing_check_fails_resolution :
  checkv1.Check Examples.flakyStub
      (kessel.checkRequest (kessel.serviceCheck Examples.jdoe "remediations")) ()
    = (Returned (Some {| checkv1.CheckResponse.Allowed := checkv1.CheckResponse_ALLOWED_TRUE |},
                 None), ()) ∧
  kessel.getServicePermissions Examples.flakyClient Examples.jdoe ()
    = (Returned (SliceNil, false,
         Some (wrapError "kessel batch check failed at index 1: rpc error: code = Unavailable"
                 Examples.unavailable)), ()) ∧
  ¬ Claimed.partial_failure_is_tolerated.
Proof.
  split_and!; [reflexivity|by vm_compute|].
  intros H.
  destruct (H Examples.flakyStub Examples.jdoe ()
              (kessel.checkRequest (kessel.serviceCheck Examples.jdoe "remediations"))
              {| checkv1.CheckResponse.Allowed := checkv1.CheckResponse_ALLOWED_TRUE |} ())
    as (services & w' & Heq).
  - simpl. left.
  - reflexivity.
  - vm_compute in Heq. by inversion Heq.
Qed.

(** C2, amended: the batch of the gRPC client is all or nothing.  If the
    transport answers the checks before some check and fails on that one,
    the batch stops there and the resolution returns the transport's error,
    wrapped with the index of the failed check, together with no service
    and no filtering flag: the services already allowed are not kept.  Only
    if the transport answers every check does the resolution succeed, and
    then it allows exactly the catalog entries whose answer is allow. *)
Theorem batch_is_all_or_nothing {W} (c : kessel.clientImpl W) (subject : Subject) (w : W) :
  (∀ before req after allowed w1 resp e w2,
     map kessel.checkRequest (elems_of (serviceChecks subject)) = before ++ req :: after →
     stubAnswers (kessel.checkClient c) before w allowed w1 →
     checkv1.Check (kessel.checkClient c) req w1 = (Returned (resp, Some e), w2) →
     kessel.getServicePermissions (kessel.clientImpl_KesselClient c) subject w
     = (Returned (SliceNil, false,
          Some (Errorf_w ("kessel batch check failed at index " +:+ pretty (length before) +:+ ": ")
                  e)), w2)) ∧
  (∀ allowed w',
     stubAnswers (kessel.checkClient c)
       (map kessel.checkRequest (elems_of (serviceChecks subject))) w allowed w' →
     kessel.getServicePermissions (kessel.clientImpl_KesselClient c) subject w
     = (Returned (allowedSlice (allowedOf kessel.KnownServices allowed), true, None), w')).
Proof.
  split.
  - intros before req after allowed w1 resp e w2 Hreqs Hbefore Hfail.
    eapply getServicePermissions_error.
    by eapply clientImpl_CheckBatch_fails.
  - intros allowed w' Hall.
    rewrite (getServicePermissions_results _ _ _ (Slice allowed) w').
    + reflexivity.
    + by apply clientImpl_CheckBatch_answers.
    + simpl. rewrite (stubAnswers_length _ _ _ _ _ Hall). simpl. lia.
Qed.

Lemma batch_is_all_or_nothing_witness :
  kessel.getServicePermissions Examples.flakyClient Examples.jdoe ()
    = (Returned (SliceNil, false,
         Some (Errorf_w "kessel batch check failed at index 1: " Examples.unavailable)), ()) ∧
  kessel.getServicePermissions Examples.steadyClient Examples.jdoe ()
    = (Returned (Slice ["remediations"], true, None), ()).
Proof.
  split.
  - refine (proj1 (batch_is_all_or_nothing
      {| kessel.checkClient := Examples.flakyStub; kessel.conn := None |} Examples.jdoe ())
      [kessel.checkRequest (kessel.serviceCheck Examples.jdoe "remediations")]
      (kessel.checkRequest (kessel.serviceCheck Examples.jdoe "config-manager"))
      _ [true] () None Examples.unavailable () eq_refl _ eq_refl).
    eapply stubAnswers_step; [reflexivity|reflexivity|constructor].
  - refine (proj2 (batch_is_all_or_nothing
      {| kessel.checkClient := Examples.steadyStub; kessel.conn := None |} Examples.jdoe ())
      [true; false; false; false; false; false; false; false] () _).
    repeat (eapply stubAnswers_step; [reflexivity|reflexivity|]). constructor.
Defined.

(** C3, as the specification words it, fails: the attribute-filter
    resolution of the package returns an error, here for the allow-all mock
    client. *)
Lemma GetAttributeFilters_returns_an_error :
  kessel.GetAttributeFilters (kessel.NewMockKesselClient true) Examples.jdoe
      kessel.RelationRead kessel.ResourceTypeRun "service" ()
    = (Returned (Slice [], Some (errorString "attribute filtering not yet implemented in Kessel")),
       ()) ∧
  ¬ Claimed.attribute_filters_never_fail.
Proof.
  split; [reflexivity|].
  intros H.
  destruct (H unit (kessel.NewMockKesselClient true) Examples.jdoe
              kessel.RelationRead kessel.ResourceTypeRun "service" ()) as (values & w' & Heq).
  by inversion Heq.
Qed.

(** C3, amended: [GetAttributeFilters] is a placeholder.  For every client,
    subject, relation, resource type and attribute key it returns an empty
    list together with the error "attribute filtering not yet implemented
    in Kessel"; it does not ask the client and does not panic. *)
Theorem GetAttributeFilters_always_errors {W} (client : kessel.KesselClient W) (subject : Subject)
    (relation resourceType attributeKey : string) (w : W) :
  ∃ e,
    kessel.GetAttributeFilters client subject relation resourceType attributeKey w
      = (Returned (Slice [], Some e), w) ∧
    Error e = "attribute filtering not yet implemented in Kessel" ∧
    ∀ other : kessel.KesselClient W,
      kessel.GetAttributeFilters other subject relation resourceType attributeKey
      = kessel.GetAttributeFilters client subject relation resourceType attributeKey.
Proof.
  exists (errorString "attribute filtering not yet implemented in Kessel").
  split_and!.
  - reflexivity.
  - reflexivity.
  - intros other. reflexivity.
Qed.

(** C5, as the specification words it, fails: a grant for [config-manager]
    allows that catalog entry, while the same grant spelled
    [config_manager] allows nothing; and a subject granted
    [config-manager] has no access when asked about [config_manager]. *)
Lemma spellings_are_not_identified :
  kessel.getServicePermissions (Examples.grantingClient ["config-manager"]) Examples.jdoe ()
    = (Returned (Slice ["config-manager"], true, None), ()) ∧
  kessel.getServicePermissions (Examples.grantingClient ["config_manager"]) Examples.jdoe ()
    = (Returned (SliceNil, true, None), ()) ∧
  kessel.HasServiceAccess (Examples.grantingClient ["config-manager"]) Examples.jdoe
      "config-manager" () = (Returned (true, None), ()) ∧
  kessel.HasServiceAccess (Examples.grantingClient ["config-manager"]) Examples.jdoe
      "config_manager" () = (Returned (false, None), ()) ∧
  ¬ Claimed.spellings_are_identified.
Proof.
  split_and!; try by vm_compute.
  intros H. specialize (H Examples.jdoe ()). vm_compute in H. by inversion H.
Qed.

(** C5, amended: service identifiers are used as they are written; nothing
    normalizes case or separators.  The check for a service carries the
    identifier unchanged as its resource id, so two different spellings
    give two different checks, and a subject granted one spelling has
    access under that spelling and not under the other.  The catalog holds
    the hyphenated [config-manager] and not [config_manager]. *)
Theorem service_identifiers_are_verbatim (subject : Subject) (service other : string) (w : ()) :
  service ≠ other →
  Resource.ID (ResourceCheck.Resource (kessel.serviceCheck subject service)) = service ∧
  kessel.serviceCheck subject service ≠ kessel.serviceCheck subject other ∧
  kessel.HasServiceAccess (Examples.grantingClient [service]) subject service w
    = (Returned (true, None), w) ∧
  kessel.HasServiceAccess (Examples.grantingClient [service]) subject other w
    = (Returned (false, None), w) ∧
  "config-manager" ∈ kessel.KnownServices ∧
  "config_manager" ∉ kessel.KnownServices.
Proof.
  intros Hne.
  assert (∀ s, kessel.HasServiceAccess (Examples.grantingClient [service]) subject s w
               = (Returned (bool_decide (s ∈ [service]), None), w)) as Haccess.
  { intros s. reflexivity. }
  split_and!.
  - reflexivity.
  - intros Heq. by inversion Heq.
  - rewrite Haccess. rewrite bool_decide_eq_true_2; [done|]. by left.
  - rewrite Haccess. rewrite bool_decide_eq_false_2; [done|].
    intros Hin. apply list_elem_of_singleton in Hin. by subst.
  - by vm_compute; right; left.
  - intros Hin. by repeat (apply elem_of_cons in Hin as [Hin|Hin]; [inversion Hin|]);
      apply elem_of_nil in Hin.
Qed.

Lemma service_identifiers_are_verbatim_witness :
  kessel.HasServiceAccess (Examples.grantingClient ["config-manager"]) Examples.jdoe
    "config_manager" () = (Returned (false, None), ()).
Proof.
  refine (proj1 (proj2 (proj2 (proj2 (service_identifiers_are_verbatim
    Examples.jdoe "config-manager" "config_manager" () _))))).
  intros H. inversion H.
Defined.

(** ** Filtering a list of resources *)

Section FilterAuthorized.
Context {W : Type}.
Implicit Types (client : kessel.KesselClient W) (subject : Subject) (w : W).

Lemma FilterAuthorizedResources_batch client subject relation resourceType resourceIDs w :
  elems_of resourceIDs ≠ [] →
  kessel.FilterAuthorizedResources client subject relation resourceType resourceIDs w
  = ('(results, err) ←
       kessel.CheckBatch client
         (Slice (map (kessel.DispatcherResourceCheck subject relation resourceType)
                   (elems_of resourceIDs)));
     match err with
     | Some e => mret (SliceNil, Some e)
     | None =>
         authorized ←
           for_range_from 0 (elems_of results) (λ i (allowed : bool) authorized,
             if allowed then
               id ← index (elems_of resourceIDs) i;
               mret (append authorized id)
             else mret authorized) (make "" 0);
         mret (authorized, None)
     end) w.
Proof.
  intros Hne. unfold kessel.FilterAuthorizedResources, len.
  assert ((length (elems_of resourceIDs) =? 0) = false) as ->.
  { apply Nat.eqb_neq. by destruct (elems_of resourceIDs). }
  by erewrite bind_returned by apply make_assign.
Qed.

(** What the function returns, when it returns, is a subsequence of its
    input. *)
Lemma FilterAuthorizedResources_returned client subject relation resourceType resourceIDs
    w authorized err w' :
  kessel.FilterAuthorizedResources client subject relation resourceType resourceIDs w
    = (Returned (authorized, err), w') →
  elems_of authorized `sublist_of` elems_of resourceIDs.
Proof.
  destruct (decide (elems_of resourceIDs = [])) as [Hnil|Hne].
  - unfold kessel.FilterAuthorizedResources, len. rewrite Hnil. by intros [= <- <- <-].
  - rewrite FilterAuthorizedResources_batch by done. unfold mbind at 1, M_bind at 1.
    destruct (kessel.CheckBatch client _ w) as [[[results [e|]]|v] w1]; [| |done].
    + intros [= <- <- <-]. apply sublist_nil_l.
    + unfold mbind, M_bind.
      destruct (for_range_from 0 (elems_of results) _ _ w1) as [[r|v] w2] eqn:Hloop; [|done].
      apply collect_returned in Hloop as [-> ->]. rewrite drop_0.
      intros [= <- <- <-].
      case_decide; [apply sublist_nil_l|]. apply allowedOf_sublist.
Qed.

Lemma allowedOf_replicate (ids : list string) (allowAll : bool) :
  allowedOf ids (replicate (length ids) allowAll) = if allowAll then ids else [].
Proof. induction ids as [|id ids IH]; destruct allowAll; simpl in *; congruence. Qed.

Lemma FilterAuthorizedResources_mock (allowAll : bool) subject relation resourceType
    resourceIDs w :
  kessel.FilterAuthorizedResources (kessel.NewMockKesselClient allowAll) subject relation
    resourceType resourceIDs w
  = (Returned (Slice (if allowAll then elems_of resourceIDs else []), None), w).
Proof.
  destruct (decide (elems_of resourceIDs = [])) as [Hnil|Hne].
  - unfold kessel.FilterAuthorizedResources, len. rewrite Hnil. by destruct allowAll.
  - rewrite FilterAuthorizedResources_batch by done.
    erewrite bind_returned by apply mock_CheckBatch. cbn beta iota.
    unfold len. cbn [elems_of]. rewrite length_map.
    destruct (collect_returns (elems_of resourceIDs)
                (replicate (length (elems_of resourceIDs)) allowAll) 0 (make "" 0) w)
      as (authorized & w2 & Hloop); [by rewrite length_replicate|].
    erewrite bind_returned by exact Hloop.
    apply collect_returned in Hloop as [-> ->].
    rewrite drop_0, allowedOf_replicate.
    destruct allowAll; by case_decide.
Qed.

End FilterAuthorized.

(** C10: [FilterAuthorizedResources] returns a subsequence of its input.
    Whatever the client answers, the list it returns holds identifiers of
    the input only, in their input order, each position of the input kept at
    most once (it returns no list when an overlong answer of the client
    makes it panic).  For an empty input, nil or allocated, it returns an
    allocated empty list and no error for every client, so the client is not
    asked.  With the mock client of the repository it returns the input when
    the mock allows and an empty list when it denies. *)
Theorem FilterAuthorizedResources_subsequence {W} (client : kessel.KesselClient W)
    (subject : Subject) (relation resourceType : string) (resourceIDs : slice string) (w : W) :
  returnedIDs (kessel.FilterAuthorizedResources client subject relation resourceType resourceIDs w)
    `sublist_of` elems_of resourceIDs ∧
  kessel.FilterAuthorizedResources client subject relation resourceType SliceNil
    = mret (Slice [], None) ∧
  kessel.FilterAuthorizedResources client subject relation resourceType (Slice [])
    = mret (Slice [], None) ∧
  (∀ allowAll,
     kessel.FilterAuthorizedResources (kessel.NewMockKesselClient allowAll) subject relation
       resourceType resourceIDs w
     = (Returned (Slice (if allowAll then elems_of resourceIDs else []), None), w)).
Proof.
  split_and!; [|reflexivity|reflexivity|intros; apply FilterAuthorizedResources_mock].
  destruct (kessel.FilterAuthorizedResources client subject relation resourceType resourceIDs w)
    as [[[authorized err]|v] w'] eqn:Hrun; [|apply sublist_nil_l].
  by eapply FilterAuthorizedResources_returned.
Qed.

(** ** The authorization middleware *)

(** C7: the middleware fails closed.  For a request with an identity whose
    resource is extracted, if the check returns an error the request is
    answered with 503, and if it returns not-allowed the request is answered
    with 403; in both cases the answer is the same for every protected
    handler and the world is the one the check and the metrics left, so the
    handler is not invoked.  The handler runs only after a check that returned
    allow without an error.  [CheckWithAttributes] likewise answers allow
    only for a check that returned allow without an error, and hands an
    error on with a deny. *)
Theorem middleware_fails_closed {W} (instr : instrumentation.t W)
    (client : option (kessel.KesselClient W)) (relation : string)
    (resourceExtractor : middleware.KesselResourceExtractor W) (c : echo.Context)
    (w w1 w2 : W) (resource : Resource) (allowed : bool) (err : error) :
  let OrgID :=
    identityMiddleware.Identity.OrgID (identityMiddleware.XRHID.Identity (echo.RequestIdentity c)) in
  let Username :=
    identityMiddleware.User.Username
      (identityMiddleware.Identity.User
         (identityMiddleware.XRHID.Identity (echo.RequestIdentity c))) in
  let subject :=
    {| Subject.Type' := kessel.SubjectTypeUser; Subject.ID := Username; Subject.Tenant := OrgID |} in
  let check :=
    {| ResourceCheck.Subject := subject;
       ResourceCheck.Relation := relation;
       ResourceCheck.Resource := resource |} in
  OrgID ≠ "" →
  Username ≠ "" →
  resourceExtractor c w = (Returned (resource, None), w1) →
  middleware.client_Check client check w1 = (Returned (allowed, err), w2) →
  (∀ next : echo.HandlerFunc W,
     middleware.enforceWithClient instr client relation resourceExtractor next c w
     = match err with
       | Some e =>
           (Returned (Some (HTTPError 503 "error checking permissions with Kessel")),
            instrumentation.RbacError instr c e w2)
       | None =>
           if allowed then next (utils.SetRequestContextValue c subject) w2
           else (Returned (Some (HTTPError 403 "Forbidden")),
                 instrumentation.RbacRejected instr c w2)
       end) ∧
  (∀ (cl : kessel.KesselClient W) attributes,
     kessel.Check cl check w1 = (Returned (allowed, err), w2) →
     kessel.CheckWithAttributes cl check attributes w1
     = (Returned (match err with Some _ => false | None => allowed end, err), w2)).
Proof.
  intros OrgID Username subject check Horg Huser Hextract Hcheck. split.
  - intros next. unfold middleware.enforceWithClient.
    fold OrgID Username.
    apply String.eqb_neq in Horg, Huser. rewrite Horg, Huser. cbn [orb].
    run_bind Hextract.
    fold subject. fold check.
    run_bind Hcheck.
    destruct err as [e|]; [reflexivity|]. by destruct allowed.
  - intros cl attributes Hcl. unfold kessel.CheckWithAttributes.
    erewrite bind_returned by exact Hcl. destruct err; [done|]. by destruct allowed.
Qed.

Lemma middleware_fails_closed_witness :
  middleware.enforceWithClient Examples.silent (Some Examples.failingClient) kessel.RelationRead
      Examples.runExtractor Examples.forbiddenHandler
      (Examples.request "org-123" "jdoe" [("run_id", "42")]) ()
    = (Returned (Some (HTTPError 503 "error checking permissions with Kessel")), ()) ∧
  middleware.enforceWithClient Examples.silent (Some (kessel.NewMockKesselClient false))
      kessel.RelationRead Examples.runExtractor Examples.forbiddenHandler
      (Examples.request "org-123" "jdoe" [("run_id", "42")]) ()
    = (Returned (Some (HTTPError 403 "Forbidden")), ()).
Proof.
  split.
  - refine (proj1 (middleware_fails_closed Examples.silent (Some Examples.failingClient)
      kessel.RelationRead Examples.runExtractor
      (Examples.request "org-123" "jdoe" [("run_id", "42")]) () () ()
      {| Resource.Type' := kessel.ResourceTypeRun; Resource.ID := "42";
         Resource.Tenant := "org-123" |}
      false (Some Examples.unavailable) _ _ eq_refl eq_refl) Examples.forbiddenHandler);
      intros H; inversion H.
  - refine (proj1 (middleware_fails_closed Examples.silent
      (Some (kessel.NewMockKesselClient false))
      kessel.RelationRead Examples.runExtractor
      (Examples.request "org-123" "jdoe" [("run_id", "42")]) () () ()
      {| Resource.Type' := kessel.ResourceTypeRun; Resource.ID := "42";
         Resource.Tenant := "org-123" |}
      false None _ _ eq_refl eq_refl) Examples.forbiddenHandler);
      intros H; inversion H.
Defined.

(** ** Route registration for the migration *)

(** Brings two descriptions of a route table to the same form. *)
Ltac same_table :=
  unfold registered, withSettings, echo.Group_GET, echo.Group_POST, echo.Group_Add,
    echo.Group_Use, echo.Echo_Group, guardedRoute;
  cbn [echo.Routes echo.Prefix echo.GroupMiddleware api.echo_of api.viper_of api.world_of app];
  rewrite <- ?app_assoc; cbn [app].

Section Registration.
Context {W : Type}.
Variable instr : instrumentation.t W.
Variable dial : grpc.Dialer W.
Variable identity : echo.MiddlewareFunc W.
Implicit Types (s : api.Store W) (cfg : viper.Viper) (w : W).

(** Registering a route: its middleware is built first, outside the store;
    when that panics, the table is as it was. *)
Lemma guard_step {A} (ctor : M W (echo.MiddlewareFunc W))
    (f : echo.MiddlewareFunc W → echo.Echo (echo.MiddlewareFunc W) public.Handler
         → echo.Echo (echo.MiddlewareFunc W) public.Handler)
    (k : M (api.Store W) A) s :
  (m ← api.outside ctor; api.register (f m);; k) s
  = match ctor (api.world_of s) with
    | (Returned m, w) =>
        k {| api.echo_of := f m (api.echo_of s); api.viper_of := api.viper_of s;
             api.world_of := w |}
    | (Panicked v, w) =>
        (Panicked v, {| api.echo_of := api.echo_of s; api.viper_of := api.viper_of s;
                        api.world_of := w |})
    end.
Proof.
  unfold mbind, M_bind, api.outside, api.register, modify.
  by destruct (ctor (api.world_of s)) as [[m|v] w].
Qed.

Lemma registered_nil s w :
  {| api.echo_of := api.echo_of s; api.viper_of := api.viper_of s; api.world_of := w |}
  = registered s [] w.
Proof. destruct s as [[routes] cfg w0]. unfold registered. cbn. by rewrite app_nil_r. Qed.

(** The middleware constructors, by the client they choose. *)
Lemma EnforceKesselPermissions_mock cfg (relation : string)
    (resourceExtractor : middleware.KesselResourceExtractor W) w :
  viper.GetString cfg "kessel.impl" ≠ "impl" →
  middleware.EnforceKesselPermissions instr dial cfg relation resourceExtractor w
  = (Returned (middleware.enforceWithClient instr allowAllMock relation resourceExtractor), w).
Proof.
  intros Himpl. apply String.eqb_neq in Himpl.
  unfold middleware.EnforceKesselPermissions. by rewrite Himpl.
Qed.

Lemma EnforceKesselPermissions_connect cfg (relation : string)
    (resourceExtractor : middleware.KesselResourceExtractor W) w :
  viper.GetString cfg "kessel.impl" = "impl" →
  middleware.EnforceKesselPermissions instr dial cfg relation resourceExtractor w
  = match connect dial cfg w with
    | (Returned (conn, Some e), w1) => (Panicked (Error (connectError cfg e)), w1)
    | (Returned (conn, None), w1) =>
        (Returned (middleware.enforceWithClient instr (grpcClient conn) relation
                     resourceExtractor), w1)
    | (Panicked v, w1) => (Panicked v, w1)
    end.
Proof.
  intros Himpl. unfold middleware.EnforceKesselPermissions. rewrite Himpl.
  cbn [String.eqb Ascii.eqb Bool.eqb]. unfold kessel.NewKesselClient, connect, kesselAddress.
  unfold mbind, M_bind.
  destruct (viper.GetBool cfg "kessel.insecure"); cbn [app];
    match goal with |- context [dial ?a ?o w] =>
      by destruct (dial a o w) as [[[conn [e|]]|v] w1] end.
Qed.

Lemma EnforceKesselPermissions_returned cfg (relation : string)
    (resourceExtractor : middleware.KesselResourceExtractor W) w mw w' :
  middleware.EnforceKesselPermissions instr dial cfg relation resourceExtractor w
    = (Returned mw, w') →
  ∃ client, mw = middleware.enforceWithClient instr client relation resourceExtractor.
Proof.
  destruct (decide (viper.GetString cfg "kessel.impl" = "impl")) as [Himpl|Himpl].
  - rewrite (EnforceKesselPermissions_connect _ _ _ _ Himpl).
    destruct (connect dial cfg w) as [[[conn [e|]]|v] w1]; intros [= <- <-]; eauto.
  - rewrite (EnforceKesselPermissions_mock _ _ _ _ Himpl). intros [= <- <-]. eauto.
Qed.

(** The migration registration, case by case. *)
Lemma migration_disabled s :
  viper.GetBool (api.viper_of s) "kessel.enabled" = false →
  api.SetupRoutesWithBothRBACAndKessel instr dial identity s = (Returned None, s).
Proof.
  intros Henabled. unfold api.SetupRoutesWithBothRBACAndKessel.
  unfold mbind at 1, M_bind at 1. cbn [api.settings]. by rewrite Henabled.
Qed.

Lemma migration_enabled s :
  viper.GetBool (api.viper_of s) "kessel.enabled" = true →
  api.SetupRoutesWithBothRBACAndKessel instr dial identity s
  = match middleware.EnforceKesselPermissions instr dial (api.viper_of s) "read"
            (orgResource "playbook-dispatcher/run") (api.world_of s) with
    | (Panicked v, w1) => (Panicked v, registered s [] w1)
    | (Returned m1, w1) =>
        match middleware.EnforceKesselPermissions instr dial (api.viper_of s) "read"
                runResource w1 with
        | (Panicked v, w2) =>
            (Panicked v,
             registered s [guardedRoute identity "GET" "/runs" public.ApiRunsList m1] w2)
        | (Returned m2, w2) =>
            (Returned None,
             registered s [guardedRoute identity "GET" "/runs" public.ApiRunsList m1;
                           guardedRoute identity "GET" "/runs/:run_id" public.ApiRunsGet m2] w2)
        end
    end.
Proof.
  intros Henabled. unfold api.SetupRoutesWithBothRBACAndKessel.
  unfold mbind at 1, M_bind at 1. cbn [api.settings]. rewrite Henabled.
  unfold mbind at 1, M_bind at 1. cbn [api.table].
  rewrite guard_step.
  change (middleware.EnforceKesselOrgPermissions instr dial (api.viper_of s)
            kessel.RelationRead kessel.ResourceTypeRun (api.world_of s))
    with (middleware.EnforceKesselPermissions instr dial (api.viper_of s) "read"
            (orgResource "playbook-dispatcher/run") (api.world_of s)).
  destruct (middleware.EnforceKesselPermissions instr dial (api.viper_of s) "read"
              (orgResource "playbook-dispatcher/run") (api.world_of s)) as [[m1|v] w1];
    [|by rewrite registered_nil].
  rewrite guard_step. cbn [api.world_of api.viper_of api.echo_of].
  change (middleware.EnforceKesselPermissions instr dial (api.viper_of s) kessel.RelationRead _ w1)
    with (middleware.EnforceKesselPermissions instr dial (api.viper_of s) "read" runResource w1).
  destruct (middleware.EnforceKesselPermissions instr dial (api.viper_of s) "read"
              runResource w1) as [[m2|v] w2].
  - by same_table.
  - by same_table.
Qed.

End Registration.

(** On the server that notes the systems consulted, a Kessel middleware of
    the registration consults Kessel at most, whatever the request. *)
Lemma noting_guard_consults_Kessel_only (client : option (kessel.KesselClient (list api.AuthSystem)))
    (relation : string)
    (resourceExtractor : middleware.KesselResourceExtractor (list api.AuthSystem))
    (handler : public.Handler) (c : echo.Context) answer consulted :
  client = allowAllMock ∨ client = grpcClient (Some Samples.notingConn) →
  (∀ c w, ∃ resource, resourceExtractor c w = (Returned (resource, None), w)) →
  Samples.passIdentity
    (middleware.enforceWithClient Samples.noMetrics client relation resourceExtractor
       (Samples.okControllers handler)) c [] = (answer, consulted) →
  api.RBAC ∉ consulted.
Proof.
  intros Hclient Hextract. unfold Samples.passIdentity, middleware.enforceWithClient.
  destruct (String.eqb _ "" || String.eqb _ "").
  - intros [= _ <-]. by intros ?%elem_of_nil.
  - destruct (Hextract c []) as (resource & Hresource). run_bind Hresource.
    destruct Hclient as [->| ->]; cbn.
    + intros [= _ <-]. by intros ?%elem_of_nil.
    + intros [= _ <-]. by intros [=]%list_elem_of_singleton.
Qed.

(** C8, as the specification words it, fails: no configuration registers a
    route on which both systems are consulted.  On a server that notes
    every consultation, with [kessel.enabled] and the gRPC client, a request
    to either route consults Kessel once and nothing else; without
    [kessel.enabled] no route is registered, the RBAC registration being
    commented out. *)
Lemma both_systems_never_run :
  (∃ s,
     api.SetupRoutesWithBothRBACAndKessel Samples.noMetrics Samples.notingDial
       Samples.passIdentity (Samples.fresh (Examples.config true "impl") []) = (Returned None, s) ∧
     map (λ r, api.routeHandler Samples.okControllers r
                 (Examples.request "org-123" "jdoe" [("run_id", "42")]) (api.world_of s))
       (echo.Routes (api.echo_of s))
     = [ (Returned None, [api.Kessel]); (Returned None, [api.Kessel]) ]) ∧
  api.SetupRoutesWithBothRBACAndKessel Samples.noMetrics Samples.notingDial
    Samples.passIdentity (Samples.fresh (Examples.config false "impl") [])
  = (Returned None, Samples.fresh (Examples.config false "impl") []) ∧
  ¬ Claimed.both_systems_run.
Proof.
  split_and!.
  - exists (registered (Samples.fresh (Examples.config true "impl") [])
              (migrationRoutes Samples.noMetrics Samples.passIdentity
                 (grpcClient (Some Samples.notingConn)) (grpcClient (Some Samples.notingConn)))
              []).
    split; reflexivity.
  - reflexivity.
  - intros (cfg & err & s & r & c & answer & consulted & Hsetup & Hr & Hrun & Hrbac & _).
    destruct (viper.GetBool cfg "kessel.enabled") eqn:Henabled.
    + rewrite migration_enabled in Hsetup by done.
      assert (∃ client1 client2,
        (client1 = allowAllMock ∨ client1 = grpcClient (Some Samples.notingConn)) ∧
        (client2 = allowAllMock ∨ client2 = grpcClient (Some Samples.notingConn)) ∧
        s = registered (Samples.fresh cfg [])
              (migrationRoutes Samples.noMetrics Samples.passIdentity client1 client2) [])
        as (client1 & client2 & Hclient1 & Hclient2 & ->).
      { cbn [api.viper_of api.world_of Samples.fresh] in Hsetup.
        destruct (decide (viper.GetString cfg "kessel.impl" = "impl")) as [Himpl|Himpl].
        - assert (∀ w, connect Samples.notingDial cfg w
                       = (Returned (Some Samples.notingConn, None), w)) as Hdial by done.
          rewrite EnforceKesselPermissions_connect, Hdial in Hsetup by done.
          cbn beta iota in Hsetup.
          rewrite EnforceKesselPermissions_connect, Hdial in Hsetup by done.
          injection Hsetup as _ <-. eexists _, _. split_and!; [by right|by right|done].
        - rewrite EnforceKesselPermissions_mock in Hsetup by done.
          rewrite EnforceKesselPermissions_mock in Hsetup by done.
          injection Hsetup as _ <-. eexists _, _. split_and!; [by left|by left|done]. }
      cbn in Hr. apply elem_of_cons in Hr as [->|Hr];
        [|apply list_elem_of_singleton in Hr as ->];
        (eapply noting_guard_consults_Kessel_only; [| |exact Hrun|exact Hrbac]);
        first [exact Hclient1|exact Hclient2|by eexists].
    + rewrite migration_disabled in Hsetup by done. injection Hsetup as _ <-.
      by apply elem_of_nil in Hr.
Qed.

(** C8, amended: the registration selects one system by configuration and
    never consults two.  Without [kessel.enabled] it registers no route,
    builds no middleware and returns no error: the RBAC registration is a
    comment.  With [kessel.enabled] it builds one Kessel middleware per
    route while it registers.  Unless [kessel.impl] is "impl" these check
    with the allow-all mock, and it returns no error with the list and the
    get route of runs registered.  With "impl" it dials Kessel for each
    route: a dial error makes it panic with the connect error, leaving in
    the table the routes it had built before, and when both dials succeed
    the two routes check over those connections.  What echo runs for a
    registered route is the identity middleware and then the Kessel
    middleware of the route around the controller, and nothing else. *)
Theorem registration_selects_one_system {W} (instr : instrumentation.t W) (dial : grpc.Dialer W)
    (identity : echo.MiddlewareFunc W) (s : api.Store W) :
  let cfg := api.viper_of s in
  let setup := api.SetupRoutesWithBothRBACAndKessel instr dial identity s in
  (viper.GetBool cfg "kessel.enabled" = false → setup = (Returned None, s)) ∧
  (viper.GetBool cfg "kessel.enabled" = true →
   (viper.GetString cfg "kessel.impl" ≠ "impl" →
    setup = (Returned None,
             registered s (migrationRoutes instr identity allowAllMock allowAllMock)
               (api.world_of s))) ∧
   (viper.GetString cfg "kessel.impl" = "impl" →
    ∀ conn1 err1 w1,
      connect dial cfg (api.world_of s) = (Returned (conn1, err1), w1) →
      match err1 with
      | Some e => setup = (Panicked (Error (connectError cfg e)), registered s [] w1)
      | None =>
          ∀ conn2 err2 w2,
            connect dial cfg w1 = (Returned (conn2, err2), w2) →
            setup
            = match err2 with
              | Some e =>
                  (Panicked (Error (connectError cfg e)),
                   registered s
                     [guardedRoute identity "GET" "/runs" public.ApiRunsList
                        (middleware.enforceWithClient instr (grpcClient conn1) "read"
                           (orgResource "playbook-dispatcher/run"))] w2)
              | None =>
                  (Returned None,
                   registered s
                     (migrationRoutes instr identity (grpcClient conn1) (grpcClient conn2)) w2)
              end
      end)) ∧
  ∀ controllers client1 client2,
    map (api.routeHandler controllers) (migrationRoutes instr identity client1 client2)
    = [ identity (middleware.enforceWithClient instr client1 "read"
                    (orgResource "playbook-dispatcher/run") (controllers public.ApiRunsList));
        identity (middleware.enforceWithClient instr client2 "read" runResource
                    (controllers public.ApiRunsGet)) ].
Proof.
  cbv zeta. split_and!.
  - apply migration_disabled.
  - intros Henabled. rewrite (migration_enabled _ _ _ _ Henabled). split.
    + intros Himpl. rewrite EnforceKesselPermissions_mock by done.
      by rewrite EnforceKesselPermissions_mock by done.
    + intros Himpl conn1 err1 w1 Hdial1. rewrite EnforceKesselPermissions_connect by done.
      rewrite Hdial1. destruct err1 as [e|]; [done|].
      intros conn2 err2 w2 Hdial2. rewrite EnforceKesselPermissions_connect by done.
      rewrite Hdial2. by destruct err2.
  - reflexivity.
Qed.

Lemma registration_selects_one_system_witness :
  api.SetupRoutesWithBothRBACAndKessel Examples.silent Samples.refusingDial
    Samples.passIdentity (Samples.fresh (Examples.config true "mock") ())
  = (Returned None,
     registered (Samples.fresh (Examples.config true "mock") ())
       (migrationRoutes Examples.silent Samples.passIdentity allowAllMock allowAllMock) ()).
Proof.
  refine (proj1 (proj1 (proj2 (registration_selects_one_system Examples.silent
    Samples.refusingDial Samples.passIdentity (Samples.fresh (Examples.config true "mock") ())))
    eq_refl) _).
  intros H. inversion H.
Defined.


(** * Further properties of the code *)

(** ** The gRPC client *)

Section GrpcClient.
Context {W : Type}.
Implicit Types (c : kessel.clientImpl W) (check : ResourceCheck) (w : W).

(** What [clientImpl.Check] makes of each reply of the transport. *)
Lemma clientImpl_Check_reply c check w resp err w1 :
  checkv1.Check (kessel.checkClient c) (kessel.checkRequest check) w = (Returned (resp, err), w1) →
  kessel.Check (kessel.clientImpl_KesselClient c) check w
  = match err, resp with
    | Some e, _ => (Returned (false, Some (Errorf_w "kessel check failed: " e)), w1)
    | None, Some r => (Returned (isAllowed r, None), w1)
    | None, None => (Panicked nil_dereference, w1)
    end.
Proof.
  intros H. simpl. unfold kessel.clientImpl_Check. run_bind H.
  destruct err as [e|]; [done|]. by destruct resp.
Qed.

(** X1: [clientImpl.Check] answers allow only when the transport answered
    ALLOWED_TRUE without an error, and it never answers allow together with
    an error: an error always comes with deny, wraps the transport's error
    and starts with "kessel check failed: ". *)
Theorem clientImpl_Check_allows_only_on_ALLOWED_TRUE c check w allowed err w' :
  kessel.Check (kessel.clientImpl_KesselClient c) check w = (Returned (allowed, err), w') →
  (allowed = true →
     err = None ∧
     checkv1.Check (kessel.checkClient c) (kessel.checkRequest check) w
     = (Returned (Some {| checkv1.CheckResponse.Allowed := checkv1.CheckResponse_ALLOWED_TRUE |},
                  None), w')) ∧
  (∀ e, err = Some e →
     allowed = false ∧
     ∃ cause resp,
       checkv1.Check (kessel.checkClient c) (kessel.checkRequest check) w
         = (Returned (resp, Some cause), w') ∧
       e = wrapError ("kessel check failed: " +:+ Error cause) cause).
Proof.
  destruct (checkv1.Check (kessel.checkClient c) (kessel.checkRequest check) w)
    as [[[resp err0]|v] w1] eqn:Hstub.
  - rewrite (clientImpl_Check_reply _ _ _ _ _ _ Hstub).
    destruct err0 as [cause|]; [|destruct resp as [[a]|]].
    + intros [= <- <- <-]. split; [done|]. intros e [= <-]. split; [done|]. by exists cause, resp.
    + intros [= <- <- <-]. split; [|done]. intros Ha. split; [done|]. by destruct a.
    + done.
  - simpl. unfold kessel.clientImpl_Check, mbind, M_bind. by rewrite Hstub.
Qed.


Lemma bind_head {A B} (m m' : M W A) (f : A → M W B) w :
  m w = m' w → (m ≫= f) w = (m' ≫= f) w.
Proof. intros H. unfold mbind, M_bind. by rewrite H. Qed.

(** Two batches that make the same requests get the same answer. *)
Lemma clientImpl_CheckBatch_requests c (checks checks' : slice ResourceCheck) w :
  map kessel.checkRequest (elems_of checks) = map kessel.checkRequest (elems_of checks') →
  kessel.CheckBatch (kessel.clientImpl_KesselClient c) checks w
  = kessel.CheckBatch (kessel.clientImpl_KesselClient c) checks' w.
Proof.
  intros Hreqs. rewrite !clientImpl_CheckBatch_loop, Hreqs.
  by rewrite <- (length_map kessel.checkRequest (elems_of checks)), Hreqs, length_map.
Qed.

(** X2: the check message has no field for a tenant.  It is made of the
    type and id of the subject, the relation and the type and id of the
    resource, and of nothing else: two checks give the same message exactly
    when they agree on these five.  So for two subjects with the same type
    and id in different tenants the messages of the run checks, the run
    host checks and the service-permission checks are the same, and in one
    call context, whose metadata is what [addRequestMetadata] copies, the
    client gets the same answers for them; the org-level check differs,
    because it names the tenant as the id of its resource. *)
Theorem check_messages_carry_no_tenant_field c (subject subject' : Subject) :
  Subject.Type' subject = Subject.Type' subject' →
  Subject.ID subject = Subject.ID subject' →
  (∀ check check',
     kessel.checkRequest check = kessel.checkRequest check' ↔
     Subject.Type' (ResourceCheck.Subject check) = Subject.Type' (ResourceCheck.Subject check') ∧
     Subject.ID (ResourceCheck.Subject check) = Subject.ID (ResourceCheck.Subject check') ∧
     ResourceCheck.Relation check = ResourceCheck.Relation check' ∧
     Resource.Type' (ResourceCheck.Resource check) = Resource.Type' (ResourceCheck.Resource check') ∧
     Resource.ID (ResourceCheck.Resource check) = Resource.ID (ResourceCheck.Resource check')) ∧
  (∀ relation resourceType resourceID,
     kessel.checkRequest (kessel.DispatcherResourceCheck subject relation resourceType resourceID)
     = kessel.checkRequest (kessel.DispatcherResourceCheck subject' relation resourceType resourceID)) ∧
  map kessel.checkRequest (elems_of (serviceChecks subject))
    = map kessel.checkRequest (elems_of (serviceChecks subject')) ∧
  (kessel.checkRequest (kessel.orgCheck subject) = kessel.checkRequest (kessel.orgCheck subject') ↔
   Subject.Tenant subject = Subject.Tenant subject') ∧
  (∀ relation resourceType resourceID w,
     kessel.Check (kessel.clientImpl_KesselClient c)
       (kessel.DispatcherResourceCheck subject relation resourceType resourceID) w
     = kessel.Check (kessel.clientImpl_KesselClient c)
         (kessel.DispatcherResourceCheck subject' relation resourceType resourceID) w) ∧
  (∀ w, kessel.getServicePermissions (kessel.clientImpl_KesselClient c) subject w
        = kessel.getServicePermissions (kessel.clientImpl_KesselClient c) subject' w) ∧
  (∀ relation resourceType resourceIDs w,
     kessel.FilterAuthorizedResources (kessel.clientImpl_KesselClient c) subject relation
       resourceType resourceIDs w
     = kessel.FilterAuthorizedResources (kessel.clientImpl_KesselClient c) subject' relation
         resourceType resourceIDs w).
Proof.
  intros Htype Hid.
  assert (∀ check check',
     kessel.checkRequest check = kessel.checkRequest check' ↔
     Subject.Type' (ResourceCheck.Subject check) = Subject.Type' (ResourceCheck.Subject check') ∧
     Subject.ID (ResourceCheck.Subject check) = Subject.ID (ResourceCheck.Subject check') ∧
     ResourceCheck.Relation check = ResourceCheck.Relation check' ∧
     Resource.Type' (ResourceCheck.Resource check) = Resource.Type' (ResourceCheck.Resource check') ∧
     Resource.ID (ResourceCheck.Resource check) = Resource.ID (ResourceCheck.Resource check'))
    as Hmessage.
  { intros check check'. unfold kessel.checkRequest. split.
    - by intros [= -> -> -> -> ->].
    - by intros (-> & -> & -> & -> & ->). }
  assert (∀ relation resourceType resourceID,
    kessel.checkRequest (kessel.DispatcherResourceCheck subject relation resourceType resourceID)
    = kessel.checkRequest (kessel.DispatcherResourceCheck subject' relation resourceType resourceID))
    as Hreq.
  { intros. by apply Hmessage. }
  assert (map kessel.checkRequest (elems_of (serviceChecks subject))
          = map kessel.checkRequest (elems_of (serviceChecks subject'))) as Hservices.
  { unfold serviceChecks. cbn [elems_of]. rewrite <- !list_fmap_compose.
    apply list_fmap_ext. intros i service _. by apply Hmessage. }
  split_and!; [done|done|done| | | |].
  - rewrite Hmessage. cbn. split; [by intros (_ & _ & _ & _ & ?)|by intros ->].
  - intros relation resourceType resourceID w. simpl. unfold kessel.clientImpl_Check.
    by rewrite Hreq.
  - intros w. rewrite !getServicePermissions_batch. apply bind_head.
    by apply clientImpl_CheckBatch_requests.
  - intros relation resourceType resourceIDs w.
    destruct (decide (elems_of resourceIDs = [])) as [Hnil|Hne].
    + unfold kessel.FilterAuthorizedResources, len. by rewrite Hnil.
    + rewrite !FilterAuthorizedResources_batch by done. apply bind_head.
      apply clientImpl_CheckBatch_requests.
      * cbn [elems_of]. rewrite <- !list_fmap_compose.
        apply list_fmap_ext. intros i id _. apply Hreq.
Qed.

(** The loop of [CheckBatch] keeps the length of the results it fills, and
    leaves early only with a nil result and a wrapped error. *)
Lemma batch_loop_shape c (reqs : list (option checkv1.CheckRequest)) :
  ∀ i (l : list bool) w f w',
    i + length reqs ≤ length l →
    for_range_return_from i reqs (batchBody c) (Slice l) w = (Returned f, w') →
    match f with
    | Continue s => ∃ l', s = Slice l' ∧ length l' = length l
    | Return (r, err) =>
        r = SliceNil ∧
        ∃ j cause, i ≤ j < i + length reqs ∧
          err = Some (Errorf_w ("kessel batch check failed at index " +:+ pretty j +:+ ": ") cause)
    end.
Proof.
  induction reqs as [|req reqs IH]; intros i l w f w' Hlen; cbn [for_range_return_from].
  - intros [= <- <-]. by exists l.
  - cbn [length] in Hlen. unfold mbind at 1, M_bind at 1.
    destruct (batchBody c i req (Slice l) w) as [[[s|[r err]]|v] w1] eqn:Hbody; [| |done].
    + revert Hbody. unfold batchBody, mbind at 1, M_bind at 1.
      destruct (checkv1.Check (kessel.checkClient c) req w) as [[[resp [e|]]|v] w2]; [done| |done].
      destruct resp as [resp|]; [|done]. cbn [kessel.responseAllowed]. rewrite bind_ret.
      unfold set_index, len. cbn [elems_of]. rewrite decide_True by lia. rewrite bind_ret.
      intros [= <- <-] Hrest.
      apply IH in Hrest; [|rewrite length_insert; lia].
      destruct f as [s|[r err]].
      * destruct Hrest as (l' & -> & Hl'). exists l'. by rewrite Hl', length_insert.
      * destruct Hrest as (-> & j & cause & Hj & ->). split; [done|].
        exists j, cause. split; [simpl; lia|done].
    + revert Hbody. unfold batchBody, mbind at 1, M_bind at 1.
      destruct (checkv1.Check (kessel.checkClient c) req w) as [[[resp [e|]]|v] w2]; [| |done].
      * intros [= <- <- <-] [= <- <-]. split; [done|]. exists i, e. split; [simpl; lia|done].
      * destruct resp as [resp|]; [|done]. cbn [kessel.responseAllowed]. rewrite bind_ret.
        unfold set_index, len. cbn [elems_of]. by rewrite decide_True by lia.
Qed.

(** A batch that returns without error returns one result per check. *)
Lemma clientImpl_CheckBatch_results c (checks : slice ResourceCheck) w results w' :
  kessel.CheckBatch (kessel.clientImpl_KesselClient c) checks w = (Returned (results, None), w') →
  ∃ l, results = Slice l ∧ length l = len checks.
Proof.
  rewrite clientImpl_CheckBatch_loop. unfold mbind, M_bind.
  destruct (for_range_return_from 0 _ (batchBody c) _ w) as [[f|v] w1] eqn:Hloop; [|done].
  apply batch_loop_shape in Hloop; [|by rewrite length_map, length_replicate].
  destruct f as [s|[r e]].
  - intros [= <- <-]. destruct Hloop as (l & -> & Hl). exists l.
    by rewrite Hl, length_replicate.
  - intros [= -> -> _]. by destruct Hloop as (_ & j & cause & _ & ?).
Qed.

(** X3: whatever the transport does, a batch of the gRPC client that
    returns has one of two shapes: no error and one result per check, in an
    allocated list, or an error and a nil list, the error being the
    transport's error wrapped with the index of a check of the batch.  So
    an empty batch that returns gives an allocated empty list and no
    error. *)
Theorem clientImpl_CheckBatch_shape c (checks : slice ResourceCheck) w results err w' :
  kessel.CheckBatch (kessel.clientImpl_KesselClient c) checks w = (Returned (results, err), w') →
  match err with
  | None => ∃ l, results = Slice l ∧ length l = len checks
  | Some e =>
      results = SliceNil ∧
      ∃ i cause, i < len checks ∧
        e = Errorf_w ("kessel batch check failed at index " +:+ pretty i +:+ ": ") cause
  end.
Proof.
  rewrite clientImpl_CheckBatch_loop. unfold mbind, M_bind.
  destruct (for_range_return_from 0 _ (batchBody c) _ w) as [[f|v] w1] eqn:Hloop; [|done].
  apply batch_loop_shape in Hloop; [|by rewrite length_map, length_replicate].
  destruct f as [s|[r e]].
  - intros [= <- <- <-]. destruct Hloop as (l & -> & Hl). exists l.
    by rewrite Hl, length_replicate.
  - intros [= <- <- <-]. destruct Hloop as (-> & j & cause & Hj & ->). split; [done|].
    exists j, cause. rewrite length_map in Hj. split; [unfold len; lia|done].
Qed.

(** X4: with the gRPC client the callers of [CheckBatch] do not run past the
    end of their lists: whenever the batch returns, [getServicePermissions]
    and [FilterAuthorizedResources] return as well. *)
Theorem callers_of_clientImpl_stay_in_range c (subject : Subject)
    (relation resourceType : string) (resourceIDs : slice string) w :
  (returns (kessel.CheckBatch (kessel.clientImpl_KesselClient c) (serviceChecks subject) w) →
   returns (kessel.getServicePermissions (kessel.clientImpl_KesselClient c) subject w)) ∧
  (returns (kessel.CheckBatch (kessel.clientImpl_KesselClient c)
              (Slice (map (kessel.DispatcherResourceCheck subject relation resourceType)
                        (elems_of resourceIDs))) w) →
   returns (kessel.FilterAuthorizedResources (kessel.clientImpl_KesselClient c) subject relation
              resourceType resourceIDs w)).
Proof.
  split.
  - intros ([results [e|]] & w' & Hbatch).
    + eexists _, _. by eapply getServicePermissions_error.
    + pose proof (clientImpl_CheckBatch_results _ _ _ _ _ Hbatch) as (l & -> & Hl).
      eexists _, _. eapply getServicePermissions_results; [done|].
      cbn [elems_of]. rewrite Hl. unfold len, serviceChecks. cbn [elems_of].
      by rewrite length_map.
  - intros ([results [e|]] & w' & Hbatch).
    all: destruct (decide (elems_of resourceIDs = [])) as [Hnil|Hne];
      [unfold kessel.FilterAuthorizedResources, len; rewrite Hnil; by eexists _, _|].
    all: rewrite FilterAuthorizedResources_batch by done; run_bind Hbatch.
    + by eexists _, _.
    + pose proof (clientImpl_CheckBatch_results _ _ _ _ _ Hbatch) as (l & -> & Hl).
      unfold len in Hl. cbn [elems_of] in Hl. rewrite length_map in Hl.
      destruct (collect_returns (elems_of resourceIDs) l 0 (make "" 0) w') as (a & w2 & Hloop);
        [simpl; lia|].
      cbn [elems_of]. run_bind Hloop. by eexists _, _.
Qed.

Lemma replies_stubAnswers (stub : checkv1.KesselCheckServiceClient W) reply reqs w :
  replies stub reply → stubAnswers stub reqs w (map (λ req, isAllowed (reply req)) reqs) w.
Proof.
  intros Hreply. induction reqs as [|req reqs IH]; [constructor|].
  cbn [map]. eapply stubAnswers_step; [apply Hreply|done|exact IH].
Qed.

(** X5: over a transport whose answer depends on the request only and is
    never an error, a batch of the gRPC client returns what the single
    checks return, in the order of the checks: both read ALLOWED_TRUE as
    allow and everything else as deny. *)
Theorem clientImpl_batch_agrees_with_single_checks c reply :
  replies (kessel.checkClient c) reply →
  decides (kessel.clientImpl_KesselClient c) (λ check, isAllowed (reply (kessel.checkRequest check))).
Proof.
  intros Hreply. split.
  - intros check w. by rewrite (clientImpl_Check_reply _ _ _ _ _ _ (Hreply _ w)).
  - intros checks w.
    rewrite (clientImpl_CheckBatch_answers c checks w _ w (replies_stubAnswers _ _ _ _ Hreply)).
    by rewrite <- list_fmap_compose.
Qed.

End GrpcClient.

Lemma clientImpl_Check_allows_only_on_ALLOWED_TRUE_witness :
  checkv1.Check Examples.steadyStub
    (kessel.checkRequest (kessel.serviceCheck Examples.jdoe "remediations")) ()
  = (Returned (Some {| checkv1.CheckResponse.Allowed := checkv1.CheckResponse_ALLOWED_TRUE |},
               None), ()).
Proof.
  refine (proj2 (proj1 (clientImpl_Check_allows_only_on_ALLOWED_TRUE
    {| kessel.checkClient := Examples.steadyStub; kessel.conn := None |}
    (kessel.serviceCheck Examples.jdoe "remediations") () true None () eq_refl) eq_refl)).
Defined.

Lemma check_messages_carry_no_tenant_field_witness :
  map kessel.checkRequest (elems_of (serviceChecks Examples.jdoe))
    = map kessel.checkRequest (elems_of (serviceChecks Samples.jdoeElsewhere)) ∧
  (kessel.checkRequest (kessel.orgCheck Examples.jdoe)
     = kessel.checkRequest (kessel.orgCheck Samples.jdoeElsewhere) ↔
   Subject.Tenant Examples.jdoe = Subject.Tenant Samples.jdoeElsewhere).
Proof.
  pose proof (check_messages_carry_no_tenant_field
    {| kessel.checkClient := Examples.steadyStub; kessel.conn := None |} Examples.jdoe
    Samples.jdoeElsewhere eq_refl eq_refl) as (_ & _ & Hservices & Horg & _).
  exact (conj Hservices Horg).
Defined.

Lemma clientImpl_CheckBatch_shape_witness :
  ∃ l, Slice [true; false; false; false; false; false; false; false] = Slice l ∧
       length l = len (serviceChecks Examples.jdoe).
Proof.
  exact (clientImpl_CheckBatch_shape
    {| kessel.checkClient := Examples.steadyStub; kessel.conn := None |}
    (serviceChecks Examples.jdoe) ()
    (Slice [true; false; false; false; false; false; false; false]) None () eq_refl).
Defined.

Lemma callers_of_clientImpl_stay_in_range_witness :
  returns (kessel.getServicePermissions Examples.flakyClient Examples.jdoe ()).
Proof.
  refine (proj1 (callers_of_clientImpl_stay_in_range
    {| kessel.checkClient := Examples.flakyStub; kessel.conn := None |} Examples.jdoe
    kessel.RelationRead kessel.ResourceTypeRun SliceNil ()) _).
  eexists _, _. vm_compute. reflexivity.
Defined.

Lemma clientImpl_batch_agrees_with_single_checks_witness :
  decides Examples.steadyClient
    (λ check, isAllowed (Samples.steadyReply (kessel.checkRequest check))).
Proof.
  refine (clientImpl_batch_agrees_with_single_checks
    {| kessel.checkClient := Examples.steadyStub; kessel.conn := None |} Samples.steadyReply _).
  intros req w. simpl. unfold Samples.steadyReply.
  by destruct (String.eqb _ "remediations").
Defined.

(** ** Clients that answer consistently *)

Section Decided.
Context {W : Type}.
Implicit Types (client : kessel.KesselClient W) (subject : Subject) (w : W).

Lemma mock_decides (allowAll : bool) :
  decides (kessel.NewMockKesselClient (W:=W) allowAll) (λ _, allowAll).
Proof.
  split; [done|]. intros checks w. rewrite mock_CheckBatch. do 3 f_equal.
  unfold len. induction (elems_of checks); simpl; congruence.
Qed.

(** X6: the mock client answers a batch as it answers single checks: one
    result per check, each the configured answer, never an error, and the
    world stays as it is; [ListResources] names the wildcard when the mock
    allows and nothing when it denies. *)
Theorem mock_answers_consistently (allowAll : bool) (subject : Subject)
    (relation resourceType : string) w :
  decides (kessel.NewMockKesselClient (W:=W) allowAll) (λ _, allowAll) ∧
  (∀ checks : slice ResourceCheck,
     kessel.CheckBatch (kessel.NewMockKesselClient allowAll) checks w
     = (Returned (Slice (replicate (len checks) allowAll), None), w)) ∧
  kessel.ListResources (kessel.NewMockKesselClient allowAll) subject relation resourceType w
    = (Returned (Slice (if allowAll then ["*"] else []), None), w).
Proof.
  split_and!.
  - apply mock_decides.
  - intros checks. apply mock_CheckBatch.
  - simpl. unfold kessel.mockClient_ListResources. by destruct allowAll.
Qed.

(** The allowed entries of a catalog whose results are the decisions on its
    own entries. *)
Lemma allowedOf_decisions {A} (f : A → string) (decision : A → bool) (l : list A) :
  allowedOf (map f l) (map decision l) = map f (filter (λ x, decision x = true) l).
Proof.
  induction l as [|x l IH]; [done|]. cbn [map allowedOf].
  rewrite filter_cons. destruct (decision x) eqn:Hx.
  - rewrite decide_True by done. cbn [map]. by rewrite IH.
  - rewrite decide_False by done. exact IH.
Qed.

Lemma allowedOf_catalog (decision : string → bool) (catalog : list string) :
  allowedOf catalog (map decision catalog) = filter (λ s, decision s = true) catalog.
Proof.
  pose proof (allowedOf_decisions id decision catalog) as H.
  by rewrite !list_fmap_id in H.
Qed.

(** With a consistent client the service permissions are the catalog
    entries whose check is allowed, in catalog order. *)
Lemma getServicePermissions_decided client decision subject w :
  decides client decision →
  kessel.getServicePermissions client subject w
  = (Returned (allowedSlice (filter (λ s, decision (kessel.serviceCheck subject s) = true)
                               kessel.KnownServices), true, None), w).
Proof.
  intros [_ Hbatch].
  rewrite (getServicePermissions_results client subject w _ w (Hbatch _ w)).
  - unfold serviceChecks. cbn [elems_of]. rewrite <- list_fmap_compose.
    by rewrite (allowedOf_catalog (decision ∘ kessel.serviceCheck subject)).
  - unfold serviceChecks. cbn [elems_of]. by rewrite !length_map.
Qed.

Lemma GetAllowedServices_decided client decision subject w :
  decides client decision →
  kessel.GetAllowedServices client subject w
  = if decision (kessel.orgCheck subject) then (Returned (SliceNil, false, None), w)
    else (Returned (allowedSlice (filter (λ s, decision (kessel.serviceCheck subject s) = true)
                                    kessel.KnownServices), true, None), w).
Proof.
  intros Hdec. rewrite (GetAllowedServices_org client subject w _ w (proj1 Hdec _ w)).
  destruct (decision (kessel.orgCheck subject)); [done|].
  by apply getServicePermissions_decided.
Qed.

Lemma HasServiceAccess_decided client decision subject service w :
  decides client decision →
  kessel.HasServiceAccess client subject service w
  = (Returned (decision (kessel.orgCheck subject) || decision (kessel.serviceCheck subject service),
               None), w).
Proof.
  intros [Hcheck _]. unfold kessel.HasServiceAccess. run_bind (Hcheck (kessel.orgCheck subject) w).
  destruct (decision (kessel.orgCheck subject)); [done|]. apply Hcheck.
Qed.

Lemma elem_of_allowedSlice (s : string) (l : list string) : s ∈ elems_of (allowedSlice l) ↔ s ∈ l.
Proof. by destruct l. Qed.

(** X7: the two ways of asking agree on the catalog.  With a client that
    answers consistently, [HasServiceAccess] grants a catalog service
    exactly when [GetAllowedServices] either requires no filtering or
    lists that service. *)
Theorem HasServiceAccess_agrees_with_GetAllowedServices client decision subject service w :
  decides client decision →
  service ∈ kessel.KnownServices →
  kessel.HasServiceAccess client subject service w = (Returned (true, None), w) ↔
  ∃ services filterRequired,
    kessel.GetAllowedServices client subject w = (Returned (services, filterRequired, None), w) ∧
    (filterRequired = false ∨ service ∈ elems_of services).
Proof.
  intros Hdec Hin.
  rewrite (HasServiceAccess_decided _ _ _ _ _ Hdec), (GetAllowedServices_decided _ _ _ _ Hdec).
  destruct (decision (kessel.orgCheck subject)); cbn [orb].
  - split; [|done]. intros _. exists SliceNil, false. split; [done|by left].
  - split.
    + intros [= Hs]. eexists _, true. split; [done|]. right.
      apply elem_of_allowedSlice, list_elem_of_filter. by split.
    + intros (services & filterRequired & [= <- <-] & [?|Hs]); [done|].
      apply elem_of_allowedSlice, list_elem_of_filter in Hs as [-> _]. done.
Qed.

End Decided.

(** X8: [HasServiceAccess] does not look at the catalog.  A subject granted
    a service that is not in [KnownServices] has access to it when asked
    about that service, while [GetAllowedServices] reports the same subject
    as having no service at all. *)
Theorem HasServiceAccess_ignores_the_catalog (subject : Subject) (service : string) (u : ()) :
  service ∉ kessel.KnownServices →
  kessel.HasServiceAccess (Examples.grantingClient [service]) subject service u
    = (Returned (true, None), u) ∧
  kessel.GetAllowedServices (Examples.grantingClient [service]) subject u
    = (Returned (SliceNil, true, None), u).
Proof.
  intros Hout.
  assert (decides (Examples.grantingClient [service]) (Examples.grants [service])) as Hdec
    by done.
  rewrite (HasServiceAccess_decided _ _ _ _ _ Hdec), (GetAllowedServices_decided _ _ _ _ Hdec).
  split.
  - do 3 f_equal. apply orb_true_iff. right. unfold Examples.grants. cbn.
    rewrite bool_decide_eq_true_2; [done|by left].
  - replace (Examples.grants [service] (kessel.orgCheck subject)) with false by done.
    destruct (filter _ kessel.KnownServices) as [|s l] eqn:Hfilter; [done|].
    exfalso. assert (s ∈ s :: l) as Hs by left. rewrite <- Hfilter in Hs.
    apply list_elem_of_filter in Hs as [Hgrant Hs]. apply Hout.
    unfold Examples.grants in Hgrant. cbn in Hgrant.
    apply bool_decide_eq_true_1, list_elem_of_singleton in Hgrant. by subst.
Qed.

Lemma HasServiceAccess_agrees_with_GetAllowedServices_witness :
  kessel.HasServiceAccess (Examples.grantingClient ["advisor"]) Examples.jdoe "advisor" ()
    = (Returned (true, None), ()).
Proof.
  refine (proj2 (HasServiceAccess_agrees_with_GetAllowedServices
    (Examples.grantingClient ["advisor"]) (Examples.grants ["advisor"]) Examples.jdoe "advisor" ()
    _ _) _).
  - split; reflexivity.
  - vm_compute. do 3 right. left.
  - exists (Slice ["advisor"]), true. split; [reflexivity|]. right. left.
Defined.

Lemma HasServiceAccess_ignores_the_catalog_witness :
  kessel.GetAllowedServices (Examples.grantingClient ["tasks"]) Examples.jdoe ()
    = (Returned (SliceNil, true, None), ()).
Proof.
  refine (proj2 (HasServiceAccess_ignores_the_catalog Examples.jdoe "tasks" () _)).
  intros Hin. by repeat (apply elem_of_cons in Hin as [Hin|Hin]; [inversion Hin|]);
    apply elem_of_nil in Hin.
Defined.


(** ** Errors of the service-permission resolution *)

Section ResolutionErrors.
Context {W : Type}.
Implicit Types (client : kessel.KesselClient W) (subject : Subject) (w : W).

(** X9: an error of [GetAllowedServices] never comes with a decision.
    Whenever it returns an error, the service list is nil and the filtering
    flag is false, and the error is the one the client gave to the
    org-level check or to the batch; when the org-level check fails, the
    batch is not sent, even if that check said allow besides its error. *)
Theorem GetAllowedServices_error_carries_no_decision client subject w services filterRequired e w' :
  kessel.GetAllowedServices client subject w = (Returned (services, filterRequired, Some e), w') →
  services = SliceNil ∧ filterRequired = false ∧
  ((∃ hasOrgAccess,
      kessel.Check client (kessel.orgCheck subject) w = (Returned (hasOrgAccess, Some e), w') ∧
      ∀ batch list,
        kessel.GetAllowedServices
          {| kessel.Check := kessel.Check client; kessel.CheckBatch := batch;
             kessel.ListResources := list |} subject w
        = (Returned (SliceNil, false, Some e), w')) ∨
   (∃ w1 results,
      kessel.Check client (kessel.orgCheck subject) w = (Returned (false, None), w1) ∧
      kessel.CheckBatch client (serviceChecks subject) w1 = (Returned (results, Some e), w'))).
Proof.
  unfold kessel.GetAllowedServices at 1, mbind at 1, M_bind at 1.
  destruct (kessel.Check client (kessel.orgCheck subject) w) as [[[b [e0|]]|v] w1] eqn:Horg;
    [| |done].
  - intros [= <- <- <- <-]. split_and!; [done|done|]. left. exists b. split; [done|].
    intros batch list. unfold kessel.GetAllowedServices. cbn [kessel.Check].
    by run_bind Horg.
  - destruct b; [done|]. intros Hrun.
    apply getServicePermissions_returned in Hrun
      as [(results & e' & Hbatch & -> & -> & [= ->])|(_ & _ & _ & _ & [=])].
    split_and!; [done|done|]. right. by exists w1, results.
Qed.

End ResolutionErrors.

Lemma GetAllowedServices_error_carries_no_decision_witness :
  SliceNil = @SliceNil string ∧ false = false.
Proof.
  pose proof (GetAllowedServices_error_carries_no_decision Examples.failingClient Examples.jdoe ()
    SliceNil false Examples.unavailable () eq_refl) as (H1 & H2 & _).
  exact (conj H1 H2).
Defined.

(** ** Filtering with a consistent client *)

Section FilterDecided.
Context {W : Type}.
Implicit Types (client : kessel.KesselClient W) (subject : Subject) (w : W).

Lemma allowedOf_filter (decision : string → bool) (ids : list string) :
  allowedOf ids (map decision ids) = filter (λ id, decision id = true) ids.
Proof. apply allowedOf_catalog. Qed.

(** With a consistent client the authorized resources are the input
    identifiers whose check is allowed, in input order. *)
Lemma FilterAuthorizedResources_decided client decision subject relation resourceType
    (resourceIDs : slice string) w :
  decides client decision →
  kessel.FilterAuthorizedResources client subject relation resourceType resourceIDs w
  = (Returned
       (Slice (filter (λ id, decision (kessel.DispatcherResourceCheck subject relation
                                         resourceType id) = true)
                 (elems_of resourceIDs)), None), w).
Proof.
  intros [_ Hbatch].
  destruct (decide (elems_of resourceIDs = [])) as [Hnil|Hne].
  - unfold kessel.FilterAuthorizedResources, len. by rewrite Hnil.
  - rewrite FilterAuthorizedResources_batch by done. run_bind (Hbatch
      (Slice (map (kessel.DispatcherResourceCheck subject relation resourceType)
                (elems_of resourceIDs))) w).
    cbn [elems_of]. rewrite <- list_fmap_compose.
    destruct (collect_returns (elems_of resourceIDs)
                (map (decision ∘ kessel.DispatcherResourceCheck subject relation resourceType)
                   (elems_of resourceIDs)) 0 (make "" 0) w)
      as (authorized & w2 & Hloop); [by rewrite length_map|].
    run_bind Hloop. apply collect_returned in Hloop as [-> ->].
    rewrite drop_0.
    rewrite (allowedOf_filter
      (decision ∘ kessel.DispatcherResourceCheck subject relation resourceType)).
    unfold compose. case_decide as Hnone; [by rewrite Hnone|done].
Qed.

(** X10: with a client that answers consistently, filtering a list of runs
    keeps exactly the runs that [CheckRunAccess] grants one by one. *)
Theorem FilterAuthorizedResources_agrees_with_CheckRunAccess client decision subject relation
    (runIDs : slice string) (runID : string) w :
  decides client decision →
  runID ∈ returnedIDs
            (kessel.FilterAuthorizedResources client subject relation kessel.ResourceTypeRun
               runIDs w)
  ↔ runID ∈ elems_of runIDs ∧
    kessel.CheckRunAccess client subject runID relation w = (Returned (true, None), w).
Proof.
  intros Hdec. rewrite (FilterAuthorizedResources_decided _ _ _ _ _ _ _ Hdec).
  unfold kessel.CheckRunAccess. rewrite (proj1 Hdec). cbn [returnedIDs elems_of].
  rewrite list_elem_of_filter. unfold kessel.DispatcherRunCheck.
  split.
  - intros [Hallow Hin]. split; [done|]. by rewrite Hallow.
  - intros [Hin [= Hallow]]. by split.
Qed.

(** X11: with a client that answers consistently, filtering is idempotent:
    filtering the authorized list again returns it unchanged. *)
Theorem FilterAuthorizedResources_idempotent client decision subject relation resourceType
    (resourceIDs authorized : slice string) w :
  decides client decision →
  kessel.FilterAuthorizedResources client subject relation resourceType resourceIDs w
    = (Returned (authorized, None), w) →
  kessel.FilterAuthorizedResources client subject relation resourceType authorized w
    = (Returned (authorized, None), w).
Proof.
  intros Hdec. rewrite !(FilterAuthorizedResources_decided _ _ _ _ _ _ _ Hdec).
  intros [= <-]. cbn [elems_of].
  rewrite list_filter_filter.
  erewrite list_filter_iff; [reflexivity|]. intros id. simpl. tauto.
Qed.

(** X12: when the batch fails, [FilterAuthorizedResources] hands on the
    client's error with a nil list, whatever results came with the error;
    it never returns an error for an empty input. *)
Theorem FilterAuthorizedResources_error client subject relation resourceType
    (resourceIDs authorized : slice string) w e w' :
  kessel.FilterAuthorizedResources client subject relation resourceType resourceIDs w
    = (Returned (authorized, Some e), w') →
  authorized = SliceNil ∧ elems_of resourceIDs ≠ [] ∧
  ∃ results,
    kessel.CheckBatch client
      (Slice (map (kessel.DispatcherResourceCheck subject relation resourceType)
                (elems_of resourceIDs))) w
    = (Returned (results, Some e), w').
Proof.
  destruct (decide (elems_of resourceIDs = [])) as [Hnil|Hne].
  - unfold kessel.FilterAuthorizedResources, len. by rewrite Hnil.
  - rewrite FilterAuthorizedResources_batch by done. unfold mbind at 1, M_bind at 1.
    destruct (kessel.CheckBatch client _ w) as [[[results [e0|]]|v] w1]; [| |done].
    + intros [= <- <- <-]. split_and!; [done|done|]. by exists results.
    + unfold mbind, M_bind. by destruct (for_range_from 0 _ _ _ w1) as [[r|v] w2].
Qed.

End FilterDecided.

Lemma FilterAuthorizedResources_agrees_with_CheckRunAccess_witness :
  "run-1" ∈ returnedIDs
    (kessel.FilterAuthorizedResources (kessel.NewMockKesselClient true) Examples.jdoe
       kessel.RelationRead kessel.ResourceTypeRun (Slice ["run-1"; "run-2"]) ()).
Proof.
  refine (proj2 (FilterAuthorizedResources_agrees_with_CheckRunAccess
    (kessel.NewMockKesselClient true) (λ _, true) Examples.jdoe kessel.RelationRead
    (Slice ["run-1"; "run-2"]) "run-1" () (mock_decides true)) _).
  split; [left|reflexivity].
Defined.

Lemma FilterAuthorizedResources_idempotent_witness :
  kessel.FilterAuthorizedResources (Examples.grantingClient ["advisor"]) Examples.jdoe
    kessel.ServicePermissionRelationReader kessel.ServicePermissionResourceType
    (Slice ["advisor"]) ()
  = (Returned (Slice ["advisor"], None), ()).
Proof.
  refine (FilterAuthorizedResources_idempotent (Examples.grantingClient ["advisor"])
    (Examples.grants ["advisor"]) Examples.jdoe kessel.ServicePermissionRelationReader
    kessel.ServicePermissionResourceType (Slice ["drift"; "advisor"]) (Slice ["advisor"]) ()
    _ eq_refl).
  split; reflexivity.
Defined.

Lemma FilterAuthorizedResources_error_witness :
  SliceNil = @SliceNil string.
Proof.
  exact (proj1 (FilterAuthorizedResources_error Examples.failingClient Examples.jdoe
    kessel.RelationRead kessel.ResourceTypeRun (Slice ["run-1"]) SliceNil ()
    Examples.unavailable () eq_refl)).
Defined.

(** ** Creating the client *)

Section ClientCreation.
Context {W : Type}.
Implicit Types (dial : grpc.Dialer W) (cfg : viper.Viper) (w : W).

(** The address and the options that [NewKesselClient] dials with. *)
Lemma NewKesselClient_dial dial cfg w :
  kessel.NewKesselClient dial cfg w
  = ('(conn, err) ←
       dial (viper.GetString cfg "kessel.hostname" +:+ ":" +:+ pretty (viper.GetInt cfg "kessel.port"))
         ((if viper.GetBool cfg "kessel.insecure"
           then [grpc.WithTransportCredentials_insecure] else []) ++
          [grpc.WithTimeout
             (time.wrap64 (viper.GetDuration cfg "kessel.timeout" * time.Second))]);
     match err with
     | Some e =>
         mret (None, Some (Errorf_w
           ("failed to connect to Kessel at " +:+
            (viper.GetString cfg "kessel.hostname" +:+ ":" +:+
             pretty (viper.GetInt cfg "kessel.port")) +:+ ": ") e))
     | None =>
         mret (Some (kessel.clientImpl_KesselClient
                       {| kessel.checkClient := kessel.NewKesselCheckServiceClient conn;
                          kessel.conn := conn |}), None)
     end) w.
Proof. unfold kessel.NewKesselClient. by destruct (viper.GetBool cfg "kessel.insecure"). Qed.

(** [int64] arithmetic: a product inside the range is exact, and one that
    passes the largest value by less than the range comes out negative. *)
Lemma wrap64_exact (z : Z) :
  (-9223372036854775808 ≤ z < 9223372036854775808)%Z → time.wrap64 z = z.
Proof.
  intros Hz. unfold time.wrap64.
  change (2 ^ 63)%Z with 9223372036854775808%Z. change (2 ^ 64)%Z with 18446744073709551616%Z.
  rewrite Z.mod_small by lia. lia.
Qed.

Lemma wrap64_over (z : Z) :
  (9223372036854775808 ≤ z < 18446744073709551616)%Z →
  time.wrap64 z = (z - 18446744073709551616)%Z.
Proof.
  intros Hz. unfold time.wrap64.
  change (2 ^ 63)%Z with 9223372036854775808%Z. change (2 ^ 64)%Z with 18446744073709551616%Z.
  rewrite <- (Z.mod_add _ (-1)) by lia. rewrite Z.mod_small by lia. lia.
Qed.

(** X13: [NewKesselClient] dials once, the address "host:port" of the
    settings, with the insecure credentials only when [kessel.insecure] is
    set, and returns a client exactly when the dial gives no error.  A dial
    error comes back wrapped with the address and without a client; else the
    client sends its checks over the connection that the dial returned, and
    a client made of a nil connection panics at its first check.  The
    timeout it dials with is [kessel.timeout], read as a duration, times one
    second: a setting of up to 9223372036 nanoseconds gives that many
    seconds, and from there up to 18446744073 the product passes the largest
    duration and the timeout is negative. *)
Theorem NewKesselClient_client_or_error dial cfg w conn err w1 :
  connect dial cfg w = (Returned (conn, err), w1) →
  kessel.NewKesselClient dial cfg w
  = match err with
    | Some e => (Returned (None, Some (connectError cfg e)), w1)
    | None => (Returned (grpcClient conn, None), w1)
    end ∧
  (∀ check w0,
     kessel.Check
       (kessel.clientImpl_KesselClient
          {| kessel.checkClient := kessel.NewKesselCheckServiceClient conn;
             kessel.conn := conn |}) check w0
     = match conn with
       | Some cc =>
           ('(resp, err) ← grpc.Invoke cc (kessel.checkRequest check);
            match err with
            | Some e => mret (false, Some (Errorf_w "kessel check failed: " e))
            | None => allowed ← kessel.responseAllowed resp; mret (allowed, None)
            end) w0
       | None => (Panicked nil_dereference, w0)
       end) ∧
  let timeout := viper.GetDuration cfg "kessel.timeout" in
  ((0 ≤ timeout ≤ 9223372036)%Z →
   connect dial cfg
   = dial (kesselAddress cfg)
       ((if viper.GetBool cfg "kessel.insecure"
         then [grpc.WithTransportCredentials_insecure] else [])
        ++ [grpc.WithTimeout (timeout * 1000000000)])) ∧
  ((9223372037 ≤ timeout ≤ 18446744073)%Z →
   (time.wrap64 (timeout * time.Second) < 0)%Z).
Proof.
  intros Hdial. cbv zeta. split_and!.
  - rewrite NewKesselClient_dial. unfold connect, kesselAddress in Hdial.
    run_bind Hdial. by destruct err.
  - intros check w0. by destruct conn.
  - intros Hsmall. unfold connect, time.Second. by rewrite wrap64_exact by lia.
  - intros Hlarge. unfold time.Second. rewrite wrap64_over by lia. lia.
Qed.

(** X14: the two places that choose a client read [kessel.impl]
    differently.  [NewKesselClientFromConfig] takes the mock for "mock" and
    dials otherwise; the middleware dials for "impl" and takes the mock
    otherwise.  They agree for "mock" and "impl"; for any other value the
    first dials while the middleware enforces with the allow-all mock and
    never dials. *)
Theorem client_selection_by_impl (instr : instrumentation.t W) dial cfg (relation : string)
    (resourceExtractor : middleware.KesselResourceExtractor W) :
  let impl := viper.GetString cfg "kessel.impl" in
  let mock := kessel.NewMockKesselClient (W:=W) true in
  (impl = "mock" →
     kessel.NewKesselClientFromConfig dial cfg = mret (Some mock, None) ∧
     middleware.EnforceKesselPermissions instr dial cfg relation resourceExtractor
       = mret (middleware.enforceWithClient instr (Some mock) relation resourceExtractor)) ∧
  (impl ≠ "mock" → kessel.NewKesselClientFromConfig dial cfg = kessel.NewKesselClient dial cfg) ∧
  (impl ≠ "impl" →
     middleware.EnforceKesselPermissions instr dial cfg relation resourceExtractor
       = mret (middleware.enforceWithClient instr (Some mock) relation resourceExtractor)) ∧
  (impl = "impl" →
     ∀ w, middleware.EnforceKesselPermissions instr dial cfg relation resourceExtractor w
          = ('(client, err) ← kessel.NewKesselClient dial cfg;
             match err with
             | Some e => panic (Error e)
             | None =>
                 mret (middleware.enforceWithClient instr client relation resourceExtractor)
             end) w).
Proof.
  cbv zeta. unfold kessel.NewKesselClientFromConfig, middleware.EnforceKesselPermissions.
  split_and!.
  - intros ->. by split.
  - intros Hne. apply String.eqb_neq in Hne. by rewrite Hne.
  - intros Hne. apply String.eqb_neq in Hne. by rewrite Hne.
  - intros -> w. cbn [String.eqb Ascii.eqb Bool.eqb]. unfold mbind, M_bind.
    destruct (kessel.NewKesselClient dial cfg w) as [[[client [e|]]|v] w1]; reflexivity.
Qed.

(** X15: the middleware fails fast.  With [kessel.impl] set to "impl", a
    dial error makes [EnforceKesselPermissions] panic with the wrapped
    connect error, so no middleware is built; when the dial succeeds, the
    middleware checks through the gRPC client over that connection. *)
Theorem EnforceKesselPermissions_fails_fast (instr : instrumentation.t W) dial cfg
    (relation : string) (resourceExtractor : middleware.KesselResourceExtractor W)
    (w w1 : W) (conn : option (grpc.ClientConn W)) (err : error) :
  viper.GetString cfg "kessel.impl" = "impl" →
  dial (viper.GetString cfg "kessel.hostname" +:+ ":" +:+ pretty (viper.GetInt cfg "kessel.port"))
    ((if viper.GetBool cfg "kessel.insecure" then [grpc.WithTransportCredentials_insecure] else [])
     ++ [grpc.WithTimeout (time.wrap64 (viper.GetDuration cfg "kessel.timeout" * time.Second))]) w
    = (Returned (conn, err), w1) →
  middleware.EnforceKesselPermissions instr dial cfg relation resourceExtractor w
  = match err with
    | Some e =>
        (Panicked (Error (Errorf_w
           ("failed to connect to Kessel at " +:+
            (viper.GetString cfg "kessel.hostname" +:+ ":" +:+
             pretty (viper.GetInt cfg "kessel.port")) +:+ ": ") e)), w1)
    | None =>
        (Returned (middleware.enforceWithClient instr
           (Some (kessel.clientImpl_KesselClient
                    {| kessel.checkClient := kessel.NewKesselCheckServiceClient conn;
                       kessel.conn := conn |})) relation resourceExtractor), w1)
    end.
Proof.
  intros Himpl Hdial. unfold middleware.EnforceKesselPermissions. rewrite Himpl.
  cbn [String.eqb Ascii.eqb Bool.eqb]. unfold mbind at 1, M_bind at 1.
  unfold mbind at 1, M_bind at 1. rewrite NewKesselClient_dial.
  run_bind Hdial. by destruct err.
Qed.

End ClientCreation.

Lemma NewKesselClient_client_or_error_witness :
  kessel.NewKesselClient Samples.refusingDial (Examples.config true "impl") ()
  = (Returned (None, Some (connectError (Examples.config true "impl") Samples.refused)), ()).
Proof.
  exact (proj1 (NewKesselClient_client_or_error Samples.refusingDial
    (Examples.config true "impl") () None (Some Samples.refused) () eq_refl)).
Defined.

Lemma client_selection_by_impl_witness :
  kessel.NewKesselClientFromConfig Samples.refusingDial (Examples.config true "")
    = kessel.NewKesselClient Samples.refusingDial (Examples.config true "") ∧
  middleware.EnforceKesselPermissions Examples.silent Samples.refusingDial
      (Examples.config true "") kessel.RelationRead Examples.runExtractor
    = mret (middleware.enforceWithClient Examples.silent (Some (kessel.NewMockKesselClient true))
              kessel.RelationRead Examples.runExtractor).
Proof.
  pose proof (client_selection_by_impl Examples.silent Samples.refusingDial
    (Examples.config true "") kessel.RelationRead Examples.runExtractor) as (_ & H1 & H2 & _).
  split; [apply H1|apply H2]; intros H; inversion H.
Defined.

Lemma EnforceKesselPermissions_fails_fast_witness :
  middleware.EnforceKesselPermissions Examples.silent Samples.refusingDial
      (Examples.config true "impl") kessel.RelationRead Examples.runExtractor ()
  = (Panicked "failed to connect to Kessel at :0: connection refused", ()).
Proof.
  exact (EnforceKesselPermissions_fails_fast Examples.silent Samples.refusingDial
    (Examples.config true "impl") kessel.RelationRead Examples.runExtractor () () None
    (Some Samples.refused) eq_refl eq_refl).
Defined.

(** ** The middleware before and after the check *)

Section MiddlewareEdges.
Context {W : Type}.
Implicit Types (instr : instrumentation.t W) (client : option (kessel.KesselClient W))
  (resourceExtractor : middleware.KesselResourceExtractor W) (next : echo.HandlerFunc W)
  (c : echo.Context) (w : W).

(** X16: [SubjectFromContext] fails exactly for an identity without org id
    or without username, naming the org id first when both are missing, and
    then returns the zero subject; otherwise it returns the user subject of
    that org.  The middleware draws the same line: it answers 401 exactly
    when [SubjectFromContext] fails, and otherwise checks and hands on the
    subject that [SubjectFromContext] returns. *)
Theorem SubjectFromContext_matches_middleware instr client (relation : string)
    resourceExtractor next c w :
  let OrgID :=
    identityMiddleware.Identity.OrgID (identityMiddleware.XRHID.Identity (echo.RequestIdentity c)) in
  let Username :=
    identityMiddleware.User.Username
      (identityMiddleware.Identity.User
         (identityMiddleware.XRHID.Identity (echo.RequestIdentity c))) in
  match kessel_identity.SubjectFromContext (echo.RequestIdentity c) with
  | (subject, Some e) =>
      subject = {| Subject.Type' := ""; Subject.ID := ""; Subject.Tenant := "" |} ∧
      (OrgID = "" ∧ e = errorString "missing org_id in identity" ∨
       OrgID ≠ "" ∧ Username = "" ∧ e = errorString "missing username in identity") ∧
      middleware.enforceWithClient instr client relation resourceExtractor next c w
        = (Returned (Some (HTTPError 401 "missing identity information")), w)
  | (subject, None) =>
      OrgID ≠ "" ∧ Username ≠ "" ∧
      subject = {| Subject.Type' := "user"; Subject.ID := Username; Subject.Tenant := OrgID |} ∧
      ∀ resource w1 w2,
        resourceExtractor c w = (Returned (resource, None), w1) →
        middleware.client_Check client
          {| ResourceCheck.Subject := subject; ResourceCheck.Relation := relation;
             ResourceCheck.Resource := resource |} w1 = (Returned (true, None), w2) →
        middleware.enforceWithClient instr client relation resourceExtractor next c w
          = next (utils.SetRequestContextValue c subject) w2
  end.
Proof.
  intros OrgID Username.
  unfold kessel_identity.SubjectFromContext, middleware.enforceWithClient.
  fold OrgID Username.
  destruct (String.eqb OrgID "") eqn:Horg.
  - apply String.eqb_eq in Horg. split_and!; [done|by left|done].
  - apply String.eqb_neq in Horg. destruct (String.eqb Username "") eqn:Huser.
    + apply String.eqb_eq in Huser. split_and!; [done|by right|done].
    + apply String.eqb_neq in Huser. split_and!; [done|done|done|].
      intros resource w1 w2 Hextract Hcheck. cbn [orb]. run_bind Hextract. by run_bind Hcheck.
Qed.

(** X17: a request whose resource cannot be extracted is answered with 400
    before anything else happens: the client is not asked, the handler is
    not invoked and no metric is recorded; the extractor's error is not
    passed on. *)
Theorem extractor_failure_is_400 instr (relation : string) resourceExtractor c w
    (resource : Resource) (e : error_value) w1 :
  identityMiddleware.Identity.OrgID (identityMiddleware.XRHID.Identity (echo.RequestIdentity c))
    ≠ "" →
  identityMiddleware.User.Username
    (identityMiddleware.Identity.User (identityMiddleware.XRHID.Identity (echo.RequestIdentity c)))
    ≠ "" →
  resourceExtractor c w = (Returned (resource, Some e), w1) →
  ∀ client next,
    middleware.enforceWithClient instr client relation resourceExtractor next c w
    = (Returned (Some (HTTPError 400 "failed to extract resource from request")), w1).
Proof.
  intros Horg Huser Hextract client next. unfold middleware.enforceWithClient.
  apply String.eqb_neq in Horg, Huser. rewrite Horg, Huser. cbn [orb].
  by run_bind Hextract.
Qed.

(** X18: a handler behind the middleware can read the caller's subject: when
    the check allows, [GetKesselSubject] in the handler returns the subject
    the middleware checked, and the handler still sees the identity and the
    path parameters of the request.  On a request that did not pass the
    middleware, [GetKesselSubject] panics. *)
Theorem GetKesselSubject_behind_middleware instr client (relation : string) resourceExtractor
    c w (resource : Resource) w1 w2 (k : Subject → echo.Context → M W error) :
  let OrgID :=
    identityMiddleware.Identity.OrgID (identityMiddleware.XRHID.Identity (echo.RequestIdentity c)) in
  let Username :=
    identityMiddleware.User.Username
      (identityMiddleware.Identity.User
         (identityMiddleware.XRHID.Identity (echo.RequestIdentity c))) in
  let subject :=
    {| Subject.Type' := kessel.SubjectTypeUser; Subject.ID := Username; Subject.Tenant := OrgID |} in
  OrgID ≠ "" →
  Username ≠ "" →
  resourceExtractor c w = (Returned (resource, None), w1) →
  middleware.client_Check client
    {| ResourceCheck.Subject := subject; ResourceCheck.Relation := relation;
       ResourceCheck.Resource := resource |} w1 = (Returned (true, None), w2) →
  (∃ c',
     middleware.enforceWithClient instr client relation resourceExtractor
       (λ c', s ← middleware.GetKesselSubject c'; k s c') c w
     = k subject c' w2 ∧
     echo.RequestIdentity c' = echo.RequestIdentity c ∧
     echo.PathParams c' = echo.PathParams c) ∧
  (echo.KesselPermissions c = None →
   (s ← middleware.GetKesselSubject c; k s c) w
   = (Panicked "interface conversion: interface {} is nil, not kessel.Subject", w)).
Proof.
  intros OrgID Username subject Horg Huser Hextract Hcheck. split.
  - exists (utils.SetRequestContextValue c subject). split; [|done].
    unfold middleware.enforceWithClient. fold OrgID Username.
    apply String.eqb_neq in Horg, Huser. rewrite Horg, Huser. cbn [orb].
    run_bind Hextract. fold subject. by run_bind Hcheck.
  - intros Hnone. unfold middleware.GetKesselSubject. by rewrite Hnone.
Qed.

(** X19: unless [kessel.impl] is "impl", nothing is enforced at org level.
    The middleware is built without a dial and over the allow-all mock, and
    every request that carries an identity reaches the handler, whatever the
    relation and the resource type. *)
Theorem org_middleware_without_impl_allows_all instr (dial : grpc.Dialer W) (cfg : viper.Viper)
    (relation resourceType : string) next c w :
  let OrgID :=
    identityMiddleware.Identity.OrgID (identityMiddleware.XRHID.Identity (echo.RequestIdentity c)) in
  let Username :=
    identityMiddleware.User.Username
      (identityMiddleware.Identity.User
         (identityMiddleware.XRHID.Identity (echo.RequestIdentity c))) in
  viper.GetString cfg "kessel.impl" ≠ "impl" →
  OrgID ≠ "" →
  Username ≠ "" →
  ∃ m,
    middleware.EnforceKesselOrgPermissions instr dial cfg relation resourceType w
      = (Returned m, w) ∧
    ∀ w0, m next c w0
          = next (utils.SetRequestContextValue c
                    {| Subject.Type' := kessel.SubjectTypeUser; Subject.ID := Username;
                       Subject.Tenant := OrgID |}) w0.
Proof.
  intros OrgID Username Himpl Horg Huser.
  unfold middleware.EnforceKesselOrgPermissions, middleware.EnforceKesselPermissions.
  apply String.eqb_neq in Himpl. rewrite Himpl.
  eexists. split; [reflexivity|]. intros w0.
  unfold middleware.enforceWithClient. fold OrgID Username.
  apply String.eqb_neq in Horg, Huser. by rewrite Horg, Huser.
Qed.

End MiddlewareEdges.

Lemma SubjectFromContext_matches_middleware_witness :
  middleware.enforceWithClient Examples.silent (Some (kessel.NewMockKesselClient true))
    kessel.RelationRead Examples.runExtractor Examples.forbiddenHandler
    (Examples.request "" "jdoe" [("run_id", "42")]) ()
  = (Returned (Some (HTTPError 401 "missing identity information")), ()).
Proof.
  exact (proj2 (proj2 (SubjectFromContext_matches_middleware Examples.silent
    (Some (kessel.NewMockKesselClient true)) kessel.RelationRead Examples.runExtractor
    Examples.forbiddenHandler (Examples.request "" "jdoe" [("run_id", "42")]) ()))).
Defined.

Lemma extractor_failure_is_400_witness :
  middleware.enforceWithClient Examples.silent (Some (kessel.NewMockKesselClient true))
    kessel.RelationRead (λ _, mret (kessel.zeroResourceCheck.(ResourceCheck.Resource),
                                     Some Examples.unavailable))
    Examples.forbiddenHandler (Examples.request "org-123" "jdoe" []) ()
  = (Returned (Some (HTTPError 400 "failed to extract resource from request")), ()).
Proof.
  refine (extractor_failure_is_400 Examples.silent kessel.RelationRead _
    (Examples.request "org-123" "jdoe" []) () _ Examples.unavailable () _ _ eq_refl _ _);
    intros H; inversion H.
Defined.

Lemma GetKesselSubject_behind_middleware_witness :
  ∃ c',
    middleware.enforceWithClient Examples.silent (Some (kessel.NewMockKesselClient true))
      kessel.RelationRead Examples.runExtractor
      (λ c', s ← middleware.GetKesselSubject c'; mret (Some (errorString (Subject.ID s))))
      (Examples.request "org-123" "jdoe" [("run_id", "42")]) ()
    = (Returned (Some (errorString "jdoe")), ()) ∧
    echo.RequestIdentity c' = echo.RequestIdentity (Examples.request "org-123" "jdoe" [("run_id", "42")]) ∧
    echo.PathParams c' = echo.PathParams (Examples.request "org-123" "jdoe" [("run_id", "42")]).
Proof.
  refine (proj1 (GetKesselSubject_behind_middleware Examples.silent
    (Some (kessel.NewMockKesselClient true)) kessel.RelationRead Examples.runExtractor
    (Examples.request "org-123" "jdoe" [("run_id", "42")]) ()
    {| Resource.Type' := kessel.ResourceTypeRun; Resource.ID := "42"; Resource.Tenant := "org-123" |}
    () () (λ s _, mret (Some (errorString (Subject.ID s)))) _ _ eq_refl eq_refl));
    intros H; inversion H.
Defined.

Lemma org_middleware_without_impl_allows_all_witness :
  ∃ m,
    middleware.EnforceKesselOrgPermissions Examples.silent Samples.refusingDial
      (Examples.config true "mock") kessel.RelationWrite kessel.ResourceTypeRun ()
      = (Returned m, ()) ∧
    ∀ w0, m Examples.forbiddenHandler (Examples.request "org-123" "jdoe" []) w0
          = (Panicked "handler invoked", w0).
Proof.
  refine (org_middleware_without_impl_allows_all Examples.silent Samples.refusingDial
    (Examples.config true "mock") kessel.RelationWrite kessel.ResourceTypeRun
    Examples.forbiddenHandler (Examples.request "org-123" "jdoe" []) () _ _ _);
    intros H; inversion H.
Defined.

(** ** The full Kessel route registration *)

Section FullRegistration.
Context {W : Type}.
Variable instr : instrumentation.t W.
Variable dial : grpc.Dialer W.
Variable identity : echo.MiddlewareFunc W.
Variable SetDefault : viper.Setter.
Implicit Types (s : api.Store W) (w : W).

(** The full registration sets the defaults and then registers route after
    route, on the settings it has just changed. *)
Lemma kessel_setup_start s :
  api.SetupRoutesWithKessel instr dial identity SetDefault s
  = (let cfg := kessel.ConfigureDefaults SetDefault (api.viper_of s) in
     let api := echo.Group_Use
                  (echo.Echo_Group (api.echo_of s) "/api/playbook-dispatcher/v1") [identity] in
     m ← api.outside (middleware.EnforceKesselOrgPermissions instr dial cfg
                        kessel.RelationRead kessel.ResourceTypeRun);
     api.register (echo.Group_GET api "/runs" public.ApiRunsList [m]);;
     m ← api.outside (middleware.EnforceKesselPermissions instr dial cfg
                        kessel.RelationRead runResource);
     api.register (echo.Group_GET api "/runs/:run_id" public.ApiRunsGet [m]);;
     m ← api.outside (middleware.EnforceKesselOrgPermissions instr dial cfg
                        kessel.RelationWrite kessel.ResourceTypeRun);
     api.register (echo.Group_POST api "/runs" public.ApiRunsCreate [m]);;
     m ← api.outside (middleware.EnforceKesselPermissions instr dial cfg
                        kessel.RelationCancel runResource);
     api.register (echo.Group_POST api "/runs/:run_id/cancel" public.ApiRunsCancel [m]);;
     m ← api.outside (middleware.EnforceKesselPermissions instr dial cfg
                        kessel.RelationRead runResource);
     api.register (echo.Group_GET api "/runs/:run_id/hosts" public.ApiRunHostsList [m]);;
     m ← api.outside (middleware.EnforceKesselPermissions instr dial cfg
                        kessel.RelationRead runHostResource);
     api.register (echo.Group_GET api "/run_hosts/:run_host_id" public.ApiRunHostsGet [m]);;
     mret None)
    (withSettings s (kessel.ConfigureDefaults SetDefault (api.viper_of s))).
Proof. reflexivity. Qed.






(** One step of the registration, whatever its outcome: when the
    constructor panics, the table holds the [n] routes added so far. *)
Ltac built n :=
  rewrite guard_step; cbn [api.world_of api.viper_of api.echo_of withSettings];
  unfold middleware.EnforceKesselOrgPermissions;
  match goal with
  | |- context [middleware.EnforceKesselPermissions ?i ?d ?c ?r ?x ?before] =>
      let H := fresh "Hbuilt" in
      destruct (middleware.EnforceKesselPermissions i d c r x before) as [[?m|?v] ?w] eqn:H;
        [apply EnforceKesselPermissions_returned in H as [?client ->]
        |intros [= <- <-]; eexists _, _, _, _, _, _, n, _;
         split; [unfold kesselRoutes; cbn [take]; first [by rewrite <- registered_nil|by same_table]
                |by intros err [=]]]
  end.

(** Whatever the outcome of the registration, the routes it has added are
    the first of the six, and all six when it returns. *)
Lemma kessel_setup_table s outcome s' :
  api.SetupRoutesWithKessel instr dial identity SetDefault s = (outcome, s') →
  ∃ client1 client2 client3 client4 client5 client6 n w,
    s' = registered (withSettings s (kessel.ConfigureDefaults SetDefault (api.viper_of s)))
           (take n (kesselRoutes instr identity client1 client2 client3 client4 client5
                      client6)) w ∧
    ∀ err, outcome = Returned err → err = None ∧ n = 6.
Proof.
  rewrite kessel_setup_start. cbv zeta.
  built 0. built 1. built 2. built 3. built 4. built 5.
  intros [= <- <-]. eexists _, _, _, _, _, _, 6, _.
  split; [unfold kesselRoutes; cbn [take]; by same_table|]. by intros err [= <-].
  Unshelve. all: exact None.
Qed.



(** A Kessel middleware whose extractor names a resource of the caller's
    org decides by one check in that org. *)
Lemma guard_checks_in_org (client : option (kessel.KesselClient W)) (relation : string)
    (resourceExtractor : middleware.KesselResourceExtractor W) :
  (∀ c w0, ∃ resource,
     resourceExtractor c w0 = (Returned (resource, None), w0) ∧
     Resource.Tenant resource = OrgIDOf c) →
  ∀ c w0, ∃ resource,
    resourceExtractor c w0 = (Returned (resource, None), w0) ∧
    Resource.Tenant resource = OrgIDOf c ∧
    ∀ next w1 allowed,
      OrgIDOf c ≠ "" → UsernameOf c ≠ "" →
      middleware.client_Check client
        {| ResourceCheck.Subject := userOf c; ResourceCheck.Relation := relation;
           ResourceCheck.Resource := resource |} w0 = (Returned (allowed, None), w1) →
      middleware.enforceWithClient instr client relation resourceExtractor next c w0
      = if allowed then next (utils.SetRequestContextValue c (userOf c)) w1
        else (Returned (Some (HTTPError 403 "Forbidden")), instrumentation.RbacRejected instr c w1).
Proof.
  intros Hextract c w0. destruct (Hextract c w0) as (resource & Hresource & Htenant).
  exists resource. split_and!; [done..|].
  intros next w1 allowed Horg Huser Hcheck.
  unfold middleware.enforceWithClient. fold (OrgIDOf c) (UsernameOf c).
  apply String.eqb_neq in Horg, Huser. rewrite Horg, Huser. cbn [orb].
  run_bind Hresource. fold (userOf c). run_bind Hcheck. by destruct allowed.
Qed.

(** X21: what echo runs for the routes of the full registration.  The
    routes that the registration has added, all six when it returns and the
    first of them when it panics at a later one, each run the identity
    middleware around one Kessel middleware around the controller.  The
    extractor of that middleware never fails and never changes anything, and
    names a resource of the caller's org: no such route answers 400, and
    every check it sends has the caller's org as the tenant of both subject
    and resource. *)
Theorem routes_check_within_the_callers_org
    (controllers : public.Handler → echo.HandlerFunc W) s outcome s' :
  api.SetupRoutesWithKessel instr dial identity SetDefault s = (outcome, s') →
  ∃ added,
    echo.Routes (api.echo_of s') = echo.Routes (api.echo_of s) ++ added ∧
    (∀ err, outcome = Returned err → length added = 6) ∧
    ∀ r, r ∈ added →
      ∃ client relation resourceExtractor,
        api.routeHandler controllers r
        = identity (middleware.enforceWithClient instr client relation resourceExtractor
                      (controllers (echo.Handler r))) ∧
        ∀ c w0, ∃ resource,
          resourceExtractor c w0 = (Returned (resource, None), w0) ∧
          Resource.Tenant resource = OrgIDOf c ∧
          ∀ next w1 allowed,
            OrgIDOf c ≠ "" → UsernameOf c ≠ "" →
            middleware.client_Check client
              {| ResourceCheck.Subject := userOf c; ResourceCheck.Relation := relation;
                 ResourceCheck.Resource := resource |} w0 = (Returned (allowed, None), w1) →
            middleware.enforceWithClient instr client relation resourceExtractor next c w0
            = if allowed then next (utils.SetRequestContextValue c (userOf c)) w1
              else (Returned (Some (HTTPError 403 "Forbidden")),
                    instrumentation.RbacRejected instr c w1).
Proof.
  intros Hsetup.
  apply kessel_setup_table in Hsetup
    as (client1 & client2 & client3 & client4 & client5 & client6 & n & w & -> & Hall).
  eexists. split; [reflexivity|]. split.
  - intros err Herr. destruct (Hall err Herr) as [_ ->]. reflexivity.
  - intros r Hr. apply subseteq_take in Hr.
    repeat (apply elem_of_cons in Hr as [->|Hr]); [..|by apply elem_of_nil in Hr];
      eexists _, _, _; (split; [reflexivity|]);
      apply guard_checks_in_org; intros c w0; by eexists.
Qed.

End FullRegistration.



Lemma routes_check_within_the_callers_org_witness :
  ∃ added,
    echo.Routes
      (api.echo_of
         (registered
            (withSettings (Samples.fresh (Examples.config true "mock") ())
               (Examples.config true "mock"))
            (kesselRoutes Examples.silent Samples.passIdentity allowAllMock allowAllMock
               allowAllMock allowAllMock allowAllMock allowAllMock) ()))
    = echo.Routes (api.echo_of (Samples.fresh (Examples.config true "mock") ())) ++ added ∧
    (∀ err, @Returned error None = Returned err → length added = 6) ∧
    ∀ r, r ∈ added →
      ∃ client relation resourceExtractor,
        api.routeHandler Samples.okControllers r
        = Samples.passIdentity
            (middleware.enforceWithClient Examples.silent client relation resourceExtractor
               (Samples.okControllers (echo.Handler r))) ∧
        ∀ c w0, ∃ resource,
          resourceExtractor c w0 = (Returned (resource, None), w0) ∧
          Resource.Tenant resource = OrgIDOf c ∧
          ∀ next w1 allowed,
            OrgIDOf c ≠ "" → UsernameOf c ≠ "" →
            middleware.client_Check client
              {| ResourceCheck.Subject := userOf c; ResourceCheck.Relation := relation;
                 ResourceCheck.Resource := resource |} w0 = (Returned (allowed, None), w1) →
            middleware.enforceWithClient Examples.silent client relation resourceExtractor
              next c w0
            = if allowed then next (utils.SetRequestContextValue c (userOf c)) w1
              else (Returned (Some (HTTPError 403 "Forbidden")),
                    instrumentation.RbacRejected Examples.silent c w1).
Proof.
  exact (routes_check_within_the_callers_org Examples.silent Samples.refusingDial
    Samples.passIdentity Samples.keepSettings Samples.okControllers
    (Samples.fresh (Examples.config true "mock") ()) (Returned None) _ eq_refl).
Defined.


(** ** Controllers that filter by service *)

Section ServiceFiltering.
Context {W Row : Type}.
Variable database : gorm.DB.
Variable kesselClient : kessel.KesselClient W.
Variable Find : gorm.DB → M W (slice Row * error).
Variable ctx_JSON : nat → json.Body Row → M W error.
Variable ctx_NoContent : nat → M W error.

Lemma len_allowedSlice (l : list string) : (len (allowedSlice l) =? 0)%nat = bool_decide (l = []).
Proof. by destruct l. Qed.

(** X22: what the runs list shows.  With a client that answers
    consistently, a caller with org-level access gets the runs of the
    caller's org, unfiltered; a caller with access to some catalog services
    gets the runs of the caller's org among exactly those services; and a
    caller with access to none gets an empty page, for which the database
    is not asked.  Every query that is made carries the caller's org as a
    condition. *)
Theorem ApiRunsList_filters_by_service (decision : ResourceCheck → bool) ctx w :
  decides kesselClient decision →
  let respond := λ queryBuilder : gorm.DB,
    '(dbRuns, dbError) ← Find queryBuilder;
    match dbError with
    | Some _ => ctx_NoContent 500
    | None => ctx_JSON 200 (json.Formatted dbRuns)
    end in
  let ofOrg :=
    {| gorm.Statement_Table := "runs";
       gorm.Statement_Joins := gorm.Statement_Joins database;
       gorm.Statement_Where :=
         gorm.Statement_Where database
         ++ [ {| gorm.SQL := "org_id = ?"; gorm.Vars := [gorm.VarString (OrgIDOf ctx)] |} ] |} in
  controllersWithKessel.ApiRunsListWithServiceFiltering database kesselClient Find ctx_JSON
    ctx_NoContent ctx w
  = if decision (kessel.orgCheck (userOf ctx)) then respond ofOrg w
    else
      match readable decision (userOf ctx) with
      | [] => ctx_JSON 200 (json.Literal emptyPage) w
      | services =>
          respond
            (gorm.DB_Where ofOrg "service IN ?" [gorm.VarStrings (Slice services)]) w
      end.
Proof.
  intros Hdec. cbv zeta. unfold controllersWithKessel.ApiRunsListWithServiceFiltering.
  fold (OrgIDOf ctx) (UsernameOf ctx) (userOf ctx).
  pose proof (GetAllowedServices_decided kesselClient decision (userOf ctx) w Hdec) as Hallowed.
  destruct (decision (kessel.orgCheck (userOf ctx))); run_bind Hallowed; [done|].
  rewrite len_allowedSlice. fold (readable decision (userOf ctx)).
  by destruct (readable decision (userOf ctx)).
Qed.

(** X23: the run hosts list decides as the runs list does.  It reads
    run hosts through their runs: the org condition and the service
    condition are conditions on the run.  Org-level access gives the run
    hosts of the caller's org; access to some catalog services narrows
    them to the runs of those services; access to none gives the empty page
    without a query. *)
Theorem ApiRunHostsList_filters_by_service (decision : ResourceCheck → bool) ctx w :
  decides kesselClient decision →
  let respond := λ queryBuilder : gorm.DB,
    '(dbRunHosts, dbError) ← Find queryBuilder;
    match dbError with
    | Some _ => ctx_NoContent 500
    | None => ctx_JSON 200 (json.Formatted dbRunHosts)
    end in
  let ofOrg :=
    {| gorm.Statement_Table := "run_hosts";
       gorm.Statement_Joins :=
         gorm.Statement_Joins database ++ ["INNER JOIN runs on runs.id = run_hosts.run_id"];
       gorm.Statement_Where :=
         gorm.Statement_Where database
         ++ [ {| gorm.SQL := "runs.org_id = ?";
                 gorm.Vars := [gorm.VarString (OrgIDOf ctx)] |} ] |} in
  controllersWithKessel.ApiRunHostsListWithServiceFiltering database kesselClient Find ctx_JSON
    ctx_NoContent ctx w
  = if decision (kessel.orgCheck (userOf ctx)) then respond ofOrg w
    else
      match readable decision (userOf ctx) with
      | [] => ctx_JSON 200 (json.Literal emptyPage) w
      | services =>
          respond
            (gorm.DB_Where ofOrg "runs.service IN ?" [gorm.VarStrings (Slice services)]) w
      end.
Proof.
  intros Hdec. cbv zeta. unfold controllersWithKessel.ApiRunHostsListWithServiceFiltering.
  fold (OrgIDOf ctx) (UsernameOf ctx) (userOf ctx).
  pose proof (GetAllowedServices_decided kesselClient decision (userOf ctx) w Hdec) as Hallowed.
  destruct (decision (kessel.orgCheck (userOf ctx))); run_bind Hallowed; [done|].
  rewrite len_allowedSlice. fold (readable decision (userOf ctx)).
  by destruct (readable decision (userOf ctx)).
Qed.

(** X24: when the org-level check fails, none of the three controllers
    shows or creates anything: each returns the 503 error "error checking
    service permissions" for echo to send, without asking the client again,
    without a query and without writing a response itself.  The answer that
    came with the error is ignored, and the cause is not passed on. *)
Theorem controllers_answer_503_on_failure ctx (service : string) w (hasOrgAccess : bool)
    (e : error_value) w' :
  kessel.Check kesselClient (kessel.orgCheck (userOf ctx)) w
    = (Returned (hasOrgAccess, Some e), w') →
  let unavailable :=
    (Returned (Some (HTTPError 503 "error checking service permissions")), w') in
  controllersWithKessel.ApiRunsListWithServiceFiltering database kesselClient Find ctx_JSON
    ctx_NoContent ctx w = unavailable ∧
  controllersWithKessel.ApiRunHostsListWithServiceFiltering database kesselClient Find ctx_JSON
    ctx_NoContent ctx w = unavailable ∧
  controllersWithKessel.ApiRunsCreateWithServiceCheck (Row:=Row) kesselClient ctx_JSON ctx
    service w = unavailable.
Proof.
  intros Horg. cbv zeta.
  unfold controllersWithKessel.ApiRunsListWithServiceFiltering,
    controllersWithKessel.ApiRunHostsListWithServiceFiltering,
    controllersWithKessel.ApiRunsCreateWithServiceCheck.
  fold (OrgIDOf ctx) (UsernameOf ctx) (userOf ctx).
  assert (kessel.GetAllowedServices kesselClient (userOf ctx) w
          = (Returned (SliceNil, false, Some e), w')) as Hallowed.
  { unfold kessel.GetAllowedServices. by run_bind Horg. }
  assert (kessel.HasServiceAccess kesselClient (userOf ctx) service w
          = (Returned (false, Some e), w')) as Haccess.
  { unfold kessel.HasServiceAccess. by run_bind Horg. }
  split_and!; [by run_bind Hallowed|by run_bind Hallowed|by run_bind Haccess].
Qed.

End ServiceFiltering.

Section ServiceCheck.
Context {W Row : Type}.
Variable kesselClient : kessel.KesselClient W.
Variable ctx_JSON : nat → json.Body Row → M W error.

(** X25: creating a run for a service.  With a client that answers
    consistently the controller answers 201 when the caller has org-level
    access or access to the service, and otherwise returns the 403 error
    that names the service.  For a service of the catalog, the caller may
    create runs exactly for the services whose runs the runs list shows. *)
Theorem ApiRunsCreate_checks_the_service (decision : ResourceCheck → bool) ctx
    (service : string) w :
  decides kesselClient decision →
  let granted :=
    decision (kessel.orgCheck (userOf ctx))
    || decision (kessel.serviceCheck (userOf ctx) service) in
  controllersWithKessel.ApiRunsCreateWithServiceCheck (Row:=Row) kesselClient ctx_JSON ctx
    service w
  = (if granted
     then ctx_JSON 201 (json.Literal (json.Object [("status", json.String "created")])) w
     else (Returned (Some (HTTPError 403 ("no access to service: " +:+ service))), w)) ∧
  (service ∈ kessel.KnownServices →
   granted = true ↔
   decision (kessel.orgCheck (userOf ctx)) = true ∨ service ∈ readable decision (userOf ctx)).
Proof.
  intros Hdec. cbv zeta. split.
  - unfold controllersWithKessel.ApiRunsCreateWithServiceCheck.
    fold (OrgIDOf ctx) (UsernameOf ctx) (userOf ctx).
    run_bind (HasServiceAccess_decided kesselClient decision (userOf ctx) service w Hdec).
    by destruct (_ || _).
  - intros Hin. rewrite orb_true_iff. unfold readable. rewrite list_elem_of_filter. tauto.
Qed.

End ServiceCheck.

Lemma ApiRunsList_filters_by_service_witness :
  controllersWithKessel.ApiRunsListWithServiceFiltering Samples.emptyDatabase
    (kessel.NewMockKesselClient false) Samples.findNothing Samples.writeJSON
    Samples.writeNoContent (Examples.request "org-123" "jdoe" []) Samples.quiet
  = (Returned None, {| Samples.written := [200]; Samples.queried := [] |}).
Proof.
  refine (ApiRunsList_filters_by_service Samples.emptyDatabase (kessel.NewMockKesselClient false)
    Samples.findNothing Samples.writeJSON Samples.writeNoContent (λ _, false)
    (Examples.request "org-123" "jdoe" []) Samples.quiet _).
  apply mock_decides.
Defined.

Lemma ApiRunHostsList_filters_by_service_witness :
  controllersWithKessel.ApiRunHostsListWithServiceFiltering Samples.emptyDatabase
    (kessel.NewMockKesselClient true) Samples.findNothing Samples.writeJSON
    Samples.writeNoContent (Examples.request "org-123" "jdoe" []) Samples.quiet
  = (Returned None,
     {| Samples.written := [200];
        Samples.queried :=
          [ {| gorm.Statement_Table := "run_hosts";
               gorm.Statement_Joins := ["INNER JOIN runs on runs.id = run_hosts.run_id"];
               gorm.Statement_Where :=
                 [ {| gorm.SQL := "runs.org_id = ?";
                      gorm.Vars := [gorm.VarString "org-123"] |} ] |} ] |}).
Proof.
  refine (ApiRunHostsList_filters_by_service Samples.emptyDatabase
    (kessel.NewMockKesselClient true) Samples.findNothing Samples.writeJSON
    Samples.writeNoContent (λ _, true) (Examples.request "org-123" "jdoe" []) Samples.quiet _).
  apply mock_decides.
Defined.

Lemma controllers_answer_503_on_failure_witness :
  controllersWithKessel.ApiRunsListWithServiceFiltering Samples.emptyDatabase
    Samples.brokenClient Samples.findNothing Samples.writeJSON Samples.writeNoContent
    (Examples.request "org-123" "jdoe" []) Samples.quiet
  = (Returned (Some (HTTPError 503 "error checking service permissions")), Samples.quiet).
Proof.
  refine (proj1 (controllers_answer_503_on_failure Samples.emptyDatabase Samples.brokenClient
    Samples.findNothing Samples.writeJSON Samples.writeNoContent
    (Examples.request "org-123" "jdoe" []) "advisor" Samples.quiet false Examples.unavailable
    Samples.quiet eq_refl)).
Defined.

Lemma ApiRunsCreate_checks_the_service_witness :
  controllersWithKessel.ApiRunsCreateWithServiceCheck (kessel.NewMockKesselClient false)
    Samples.writeJSON (Examples.request "org-123" "jdoe" []) "advisor" Samples.quiet
  = (Returned (Some (HTTPError 403 "no access to service: advisor")), Samples.quiet).
Proof.
  refine (proj1 (ApiRunsCreate_checks_the_service (kessel.NewMockKesselClient false)
    Samples.writeJSON (λ _, false) (Examples.request "org-123" "jdoe" []) "advisor"
    Samples.quiet _)).
  apply mock_decides.
Defined.

(** ** The connection status of hosts *)

Lemma append_appended {A} (l : list A) (x : A) : append (appended l) x = appended (l ++ [x]).
Proof. unfold append. by destruct l. Qed.

Lemma elems_of_appended {A} (l : list A) : elems_of (appended l) = l.
Proof. by destruct l. Qed.

Lemma host_sorts_one_way (host : inventory.HostDetails) :
  (viaSatellite host = true ∧ viaRHC host = false ∧ unconnected host = false) ∨
  (viaSatellite host = false ∧ viaRHC host = true ∧ unconnected host = false) ∨
  (viaSatellite host = false ∧ viaRHC host = false ∧ unconnected host = true).
Proof.
  unfold viaSatellite, viaRHC, unconnected.
  destruct (inventory.SatelliteInstanceID host), (inventory.RHCClientID host); cbv; tauto.
Qed.

Section Hosts.
Context {W UUID ConnectionStatus : Type} `{EqDecision ConnectionStatus}.
Variable uuid_Parse : string → UUID * error.
Variable uuid_Nil : UUID.
Variable Connected : ConnectionStatus.
Variable log_Error : error_value → W → W.
Variable ctx_NoContent : nat → M W error.

Lemma sort_step (host : inventory.HostDetails) (i : nat)
    (sat direct no : slice inventory.HostDetails) (w : W) :
  private.sortHostsByRecipient_body i host (sat, direct, no) w
  = (Returned (if viaSatellite host then (append sat host, direct, no)
               else if viaRHC host then (sat, append direct host, no)
               else (sat, direct, append no host)), w).
Proof.
  unfold private.sortHostsByRecipient_body, viaSatellite, viaRHC.
  by destruct (inventory.SatelliteInstanceID host), (inventory.RHCClientID host).
Qed.

Lemma sort_loop (l : list inventory.HostDetails) :
  ∀ i (sat direct no : list inventory.HostDetails) (w : W),
    for_range_from i l private.sortHostsByRecipient_body
      (appended sat, appended direct, appended no) w
    = (Returned (appended (sat ++ filter (λ h, viaSatellite h = true) l),
                 appended (direct ++ filter (λ h, viaRHC h = true) l),
                 appended (no ++ filter (λ h, unconnected h = true) l)), w).
Proof.
  induction l as [|host l IH]; intros i sat direct no w.
  - cbn. by rewrite !app_nil_r.
  - cbn [for_range_from]. rewrite !filter_cons. run_bind (sort_step host i (appended sat) (appended direct) (appended no) w).
    destruct (host_sorts_one_way host) as [(Hs & Hr & Hu)|[(Hs & Hr & Hu)|(Hs & Hr & Hu)]];
      rewrite Hs, Hr, Hu;
      repeat first [rewrite decide_True by done | rewrite decide_False by done];
      rewrite append_appended, IH; by rewrite <- ?app_assoc.
Qed.

Lemma sortHostsByRecipient_result (details : slice inventory.HostDetails) (w : W) :
  private.sortHostsByRecipient details w
  = (Returned (appended (filter (λ h, viaSatellite h = true) (elems_of details)),
               appended (filter (λ h, viaRHC h = true) (elems_of details)),
               appended (filter (λ h, unconnected h = true) (elems_of details))), w).
Proof. apply (sort_loop (elems_of details) 0 [] [] [] w). Qed.

Lemma sorted_permutation (l : list inventory.HostDetails) :
  l ≡ₚ filter (λ h, viaSatellite h = true) l ++ filter (λ h, viaRHC h = true) l
       ++ filter (λ h, unconnected h = true) l.
Proof.
  induction l as [|host l IH]; [done|]. rewrite !filter_cons.
  destruct (host_sorts_one_way host) as [(Hs & Hr & Hu)|[(Hs & Hr & Hu)|(Hs & Hr & Hu)]];
    rewrite Hs, Hr, Hu;
    repeat first [rewrite decide_True by done | rewrite decide_False by done].
  - cbn. by f_equiv.
  - rewrite <- app_comm_cons, <- Permutation_middle. by f_equiv.
  - rewrite app_assoc, <- Permutation_middle, <- app_assoc. by f_equiv.
Qed.

Lemma formatConnectionResponse_returned (satID satOrgID rhcClientID : option string)
    (orgID : string) (hosts : list string) (recipientType status : string) (w : W) :
  private.formatConnectionResponse uuid_Parse uuid_Nil satID satOrgID rhcClientID orgID
    (Slice hosts) recipientType status w
  = (Returned {| private.OrgId := orgID;
                 private.Recipient :=
                   match rhcClientID with Some s => (uuid_Parse s).1 | None => uuid_Nil end;
                 private.RecipientType := recipientType;
                 private.SatId := default "" satID;
                 private.SatOrgId := default "" satOrgID;
                 private.Status := status;
                 private.Systems := Slice hosts |}, w).
Proof.
  unfold private.formatConnectionResponse, len. cbn [elems_of].
  erewrite bind_returned by apply (make_assign id). cbn beta iota.
  rewrite list_fmap_id. by destruct satID, satOrgID.
Qed.

Lemma getRHCStatus_returned (hostDetails : slice inventory.HostDetails) (orgID : string) (w : W) :
  private.getRHCStatus uuid_Parse uuid_Nil hostDetails orgID w
  = (Returned {| private.OrgId := orgID;
                 private.Recipient := uuid_Nil;
                 private.RecipientType := "none";
                 private.SatId := "";
                 private.SatOrgId := "";
                 private.Status := "rhc_not_configured";
                 private.Systems := Slice (map inventory.ID (elems_of hostDetails)) |}, w).
Proof.
  unfold private.getRHCStatus, len.
  erewrite bind_returned by apply (make_assign inventory.ID). cbn beta iota.
  apply formatConnectionResponse_returned.
Qed.

(** X26: [sortHostsByRecipient] sorts every host into exactly one of its
    three results, keeping the order: a host with a satellite instance id is
    a satellite host whatever else it has, a host with only an RHC client id
    is directly connected, and the others are not connected.  Nothing is
    dropped or doubled, and a result into which no host was sorted is nil,
    which is what the handler tests.  The response that [getRHCStatus]
    makes for the hosts that are not connected lists exactly these hosts,
    in order, with no recipient and the status "rhc_not_configured". *)
Theorem sortHostsByRecipient_partitions (details : slice inventory.HostDetails) (w : W) :
  ∃ satellite directConnected noRhc,
    private.sortHostsByRecipient details w = (Returned (satellite, directConnected, noRhc), w) ∧
    elems_of satellite = filter (λ h, viaSatellite h = true) (elems_of details) ∧
    elems_of directConnected = filter (λ h, viaRHC h = true) (elems_of details) ∧
    elems_of noRhc = filter (λ h, unconnected h = true) (elems_of details) ∧
    elems_of details ≡ₚ elems_of satellite ++ elems_of directConnected ++ elems_of noRhc ∧
    (satellite = SliceNil ↔ elems_of satellite = []) ∧
    (directConnected = SliceNil ↔ elems_of directConnected = []) ∧
    (noRhc = SliceNil ↔ elems_of noRhc = []) ∧
    ∀ orgID,
      private.getRHCStatus uuid_Parse uuid_Nil noRhc orgID w
      = (Returned {| private.OrgId := orgID;
                     private.Recipient := uuid_Nil;
                     private.RecipientType := "none";
                     private.SatId := "";
                     private.SatOrgId := "";
                     private.Status := "rhc_not_configured";
                     private.Systems :=
                       Slice (map inventory.ID
                                (filter (λ h, unconnected h = true) (elems_of details))) |}, w).
Proof.
  do 3 eexists. split; [apply sortHostsByRecipient_result|].
  rewrite !elems_of_appended.
  split_and!; [done|done|done|apply sorted_permutation|..|];
    [by destruct (filter _ _)..|].
  intros orgID. by rewrite getRHCStatus_returned, elems_of_appended.
Qed.

(** While the cloud connector answers, the loop appends one response per
    host and leaves the world as it is. *)
Lemma direct_loop (client : connectors.CloudConnectorClient W ConnectionStatus)
    (statusOf : string → ConnectionStatus) (orgId : string) (l : list inventory.HostDetails) :
  Forall (λ h, ∃ recipient,
            inventory.RHCClientID h = Some recipient ∧
            ∀ w, connectors.GetConnectionStatus client orgId recipient w
                 = (Returned (statusOf recipient, None), w)) l →
  ∀ i acc w,
    for_range_return_from i l
      (private.getDirectConnectStatus_body uuid_Parse uuid_Nil Connected log_Error ctx_NoContent
         client orgId)
      (Slice acc) w
    = (Returned (Continue (Slice (acc ++
         map (directResponse uuid_Parse uuid_Nil Connected statusOf orgId) l))), w).
Proof.
  intros Hl. induction Hl as [|host l (recipient & Hrecipient & Hclient) _ IH]; intros i acc w.
  - cbn. by rewrite app_nil_r.
  - cbn [for_range_return_from map].
    erewrite bind_returned; last first.
    { unfold private.getDirectConnectStatus_body. rewrite Hrecipient.
      cbn [private.deref]. rewrite bind_ret. run_bind (Hclient w).
      erewrite bind_returned by apply formatConnectionResponse_returned. reflexivity. }
    cbn beta iota. unfold append. cbn [elems_of]. rewrite IH.
    rewrite <- app_assoc. unfold directResponse at 2. by rewrite Hrecipient.
Qed.

(** X27: the directly connected hosts get one response each.  When the
    cloud connector reports a status for every recipient, the hosts that
    [sortHostsByRecipient] hands out as directly connected all have an RHC
    client id, so [getDirectConnectStatus] dereferences none that is
    missing; it returns no error and, in the order of the hosts, one
    response per host that names this host alone, with the status that the
    connector reported for its RHC client. *)
Theorem direct_hosts_get_one_response_each
    (client : connectors.CloudConnectorClient W ConnectionStatus)
    (statusOf : string → ConnectionStatus) (orgId : string)
    (details : slice inventory.HostDetails) (w : W) :
  reports client orgId statusOf →
  ∃ satellite directConnected noRhc,
    private.sortHostsByRecipient details w = (Returned (satellite, directConnected, noRhc), w) ∧
    Forall (λ h, inventory.RHCClientID h ≠ None) (elems_of directConnected) ∧
    private.getDirectConnectStatus uuid_Parse uuid_Nil Connected log_Error ctx_NoContent client
      orgId directConnected w
    = (Returned (Slice (map (directResponse uuid_Parse uuid_Nil Connected statusOf orgId)
                          (elems_of directConnected)), None), w).
Proof.
  intros Hclient. do 3 eexists. split; [apply sortHostsByRecipient_result|].
  rewrite elems_of_appended.
  assert (Forall (λ h, inventory.RHCClientID h ≠ None)
            (filter (λ h, viaRHC h = true) (elems_of details))) as Hids.
  { apply Forall_forall. intros h [Hh _]%list_elem_of_filter.
    by apply bool_decide_eq_true_1 in Hh as [_ ?]. }
  split; [done|].
  unfold private.getDirectConnectStatus. rewrite elems_of_appended.
  assert (Forall (λ h, ∃ recipient,
            inventory.RHCClientID h = Some recipient ∧
            ∀ w, connectors.GetConnectionStatus client orgId recipient w
                 = (Returned (statusOf recipient, None), w))
            (filter (λ h, viaRHC h = true) (elems_of details))) as Hanswers.
  { eapply Forall_impl; [exact Hids|]. intros h Hh. cbn beta in Hh.
    destruct (inventory.RHCClientID h) as [recipient|]; [|done].
    exists recipient. split; [done|]. intros w0. apply Hclient. }
  by run_bind (direct_loop client statusOf orgId _ Hanswers 0 [] w).
Qed.

(** X28: [getDirectConnectStatus] stops at the first host whose status
    cannot be read.  The responses gathered so far are dropped and the hosts
    after it are not asked about.  The error it returns is not the cause,
    which is only logged, but whatever writing the 500 response returned:
    when that succeeds, the caller is told of no error. *)
Theorem getDirectConnectStatus_stops_at_first_failure
    (client : connectors.CloudConnectorClient W ConnectionStatus)
    (statusOf : string → ConnectionStatus) (orgId : string)
    (before : list inventory.HostDetails) (host : inventory.HostDetails) (recipient : string)
    (status : ConnectionStatus) (e : error_value) (r : error) (w w1 w2 : W) :
  Forall (λ h, ∃ recipient,
            inventory.RHCClientID h = Some recipient ∧
            ∀ w, connectors.GetConnectionStatus client orgId recipient w
                 = (Returned (statusOf recipient, None), w)) before →
  inventory.RHCClientID host = Some recipient →
  connectors.GetConnectionStatus client orgId recipient w = (Returned (status, Some e), w1) →
  ctx_NoContent 500 (log_Error e w1) = (Returned r, w2) →
  ∀ after,
    private.getDirectConnectStatus uuid_Parse uuid_Nil Connected log_Error ctx_NoContent client
      orgId (Slice (before ++ host :: after)) w
    = (Returned (SliceNil, r), w2).
Proof.
  intros Hbefore Hrecipient Hstatus Hwrite after.
  assert (∀ i acc,
    private.getDirectConnectStatus_body uuid_Parse uuid_Nil Connected log_Error ctx_NoContent
      client orgId i host acc w = (Returned (Return (SliceNil, r)), w2)) as Hbody.
  { intros i acc. unfold private.getDirectConnectStatus_body. rewrite Hrecipient.
    cbn [private.deref]. rewrite bind_ret. run_bind Hstatus.
    unfold modify. unfold mbind at 1, M_bind at 1. by run_bind Hwrite. }
  assert (for_range_return_from 0 (before ++ host :: after)
            (private.getDirectConnectStatus_body uuid_Parse uuid_Nil Connected log_Error
               ctx_NoContent client orgId) (Slice []) w
          = (Returned (Return (SliceNil, r)), w2)) as Hloop.
  { rewrite for_range_return_app.
    run_bind (direct_loop client statusOf orgId before Hbefore 0 [] w).
    cbn [for_range_return_from]. by run_bind (Hbody (0 + length before)
      (Slice ([] ++ map (directResponse uuid_Parse uuid_Nil Connected statusOf orgId) before))). }
  unfold private.getDirectConnectStatus. cbn [elems_of]. by run_bind Hloop.
Qed.

Lemma group_step (host : inventory.HostDetails) (i : nat) (m : gmap string private.rhcSatellite)
    (w : W) :
  private.groupHostsBySatellite_body i host m w
  = match inventory.SatelliteInstanceID host, inventory.SatelliteOrgID host with
    | Some instance, Some org =>
        (Returned
           (<[instance +:+ org :=
                match m !! (instance +:+ org) with
                | Some satellite =>
                    {| private.SatelliteInstanceID := private.SatelliteInstanceID satellite;
                       private.SatelliteOrgID := private.SatelliteOrgID satellite;
                       private.SatelliteVersion := private.SatelliteVersion satellite;
                       private.Hosts := append (private.Hosts satellite) (inventory.ID host);
                       private.SourceID := private.SourceID satellite;
                       private.RhcClientID := private.RhcClientID satellite;
                       private.SourceAvailabilityStatus :=
                         private.SourceAvailabilityStatus satellite |}
                | None =>
                    {| private.SatelliteInstanceID := instance;
                       private.SatelliteOrgID := org;
                       private.SatelliteVersion := default "" (inventory.SatelliteVersion host);
                       private.Hosts := Slice [inventory.ID host];
                       private.SourceID := "";
                       private.RhcClientID := None;
                       private.SourceAvailabilityStatus := None |}
                end]> m), w)
    | _, _ => (Panicked nil_dereference, w)
    end.
Proof.
  unfold private.groupHostsBySatellite_body.
  destruct (inventory.SatelliteInstanceID host) as [instance|]; [|done].
  destruct (inventory.SatelliteOrgID host) as [org|]; [|done].
  cbn [private.deref]. rewrite !bind_ret.
  destruct (m !! (instance +:+ org)); [done|].
  by destruct (inventory.SatelliteVersion host).
Qed.

Lemma group_loop_panics (l : list inventory.HostDetails) :
  Exists (λ h, inventory.SatelliteInstanceID h = None ∨ inventory.SatelliteOrgID h = None) l →
  ∀ i m (w : W),
    for_range_from i l private.groupHostsBySatellite_body m w = (Panicked nil_dereference, w).
Proof.
  induction l as [|host l IH]; intros Hl i m w; [by apply Exists_nil in Hl|].
  cbn [for_range_from]. unfold mbind, M_bind. rewrite group_step.
  destruct (inventory.SatelliteInstanceID host) as [instance|] eqn:Hinstance; [|done].
  destruct (inventory.SatelliteOrgID host) as [org|] eqn:Horg; [|done].
  apply IH. apply Exists_cons in Hl as [[Hno|Hno]|Hl]; [congruence|congruence|done].
Qed.

(** X29: a satellite host without a satellite org id brings the grouping
    down.  [sortHostsByRecipient] looks at the satellite instance id alone,
    so such a host is handed out as a satellite host, and
    [groupHostsBySatellite] on the satellite hosts then dereferences the
    missing org id and panics, whatever the other hosts are. *)
Theorem satellite_host_without_org_panics (details : slice inventory.HostDetails)
    (host : inventory.HostDetails) (w : W) :
  host ∈ elems_of details →
  inventory.SatelliteInstanceID host ≠ None →
  inventory.SatelliteOrgID host = None →
  ∃ satellite directConnected noRhc,
    private.sortHostsByRecipient details w = (Returned (satellite, directConnected, noRhc), w) ∧
    host ∈ elems_of satellite ∧
    private.groupHostsBySatellite satellite w = (Panicked nil_dereference, w).
Proof.
  intros Hin Hinstance Horg. do 3 eexists. split; [apply sortHostsByRecipient_result|].
  rewrite elems_of_appended.
  assert (host ∈ filter (λ h, viaSatellite h = true) (elems_of details)) as Hsat.
  { apply list_elem_of_filter. split; [|done]. by apply bool_decide_eq_true_2. }
  split; [done|].
  unfold private.groupHostsBySatellite. rewrite elems_of_appended.
  apply group_loop_panics, Exists_exists. exists host. split; [done|by right].
Qed.

Lemma group_loop (l : list inventory.HostDetails) :
  Forall (λ h, inventory.SatelliteInstanceID h ≠ None ∧ inventory.SatelliteOrgID h ≠ None) l →
  ∀ i before (m : gmap string private.rhcSatellite) (w : W),
    (∀ key, m !! key = groupOf before key) →
    ∃ groups,
      for_range_from i l private.groupHostsBySatellite_body m w = (Returned groups, w) ∧
      ∀ key, groups !! key = groupOf (before ++ l) key.
Proof.
  induction 1 as [|host l [Hinstance Horg] _ IH]; intros i before m w Hm.
  - exists m. split; [done|]. intros key. by rewrite app_nil_r.
  - cbn [for_range_from]. unfold mbind, M_bind. rewrite group_step.
    destruct (inventory.SatelliteInstanceID host) as [instance|] eqn:Einstance; [|done].
    destruct (inventory.SatelliteOrgID host) as [org|] eqn:Eorg; [|done].
    assert (satelliteKey host = instance +:+ org) as Hkey
      by (unfold satelliteKey; by rewrite Einstance, Eorg).
    replace (before ++ host :: l) with ((before ++ [host]) ++ l) by (by rewrite <- app_assoc).
    apply IH. intros key. unfold groupOf. rewrite filter_app, filter_cons, filter_nil.
    destruct (decide (instance +:+ org = key)) as [<-|Hne].
    + rewrite lookup_insert_eq, decide_True by done. rewrite Hm. unfold groupOf.
      destruct (filter _ before) as [|first others]; cbn [app].
      * by rewrite Einstance, Eorg.
      * unfold append. cbn [elems_of private.Hosts private.SatelliteInstanceID
          private.SatelliteOrgID private.SatelliteVersion private.SourceID private.RhcClientID
          private.SourceAvailabilityStatus].
        cbn [app map]. by rewrite map_app.
    + rewrite lookup_insert_ne by done. rewrite decide_False by congruence.
      rewrite app_nil_r. apply Hm.
Qed.

(** X30: [groupHostsBySatellite] files each host under the satellite
    instance id and the satellite org id written one after the other, with
    nothing between them.  On hosts that have both ids it returns one group
    per such key: the group carries the ids and the version of the first
    host filed under the key, and lists all the hosts filed under it, in
    order.  So hosts of two satellites whose ids run together to the same
    text end up in one group, under the ids of the first. *)
Theorem groupHostsBySatellite_files_by_joined_ids (hosts : list inventory.HostDetails) (w : W) :
  Forall (λ h, inventory.SatelliteInstanceID h ≠ None ∧ inventory.SatelliteOrgID h ≠ None)
    hosts →
  ∃ groups,
    private.groupHostsBySatellite (Slice hosts) w = (Returned groups, w) ∧
    (∀ key, groups !! key = groupOf hosts key) ∧
    ∀ h, h ∈ hosts →
      ∃ satellite,
        groups !! satelliteKey h = Some satellite ∧
        inventory.ID h ∈ elems_of (private.Hosts satellite).
Proof.
  intros Hhosts.
  destruct (group_loop hosts Hhosts 0 [] ∅ w) as (groups & Hloop & Hgroups).
  { intros key. by rewrite lookup_empty. }
  cbn [app] in Hgroups. exists groups. split_and!; [done|done|].
  intros h Hh. rewrite Hgroups. unfold groupOf.
  assert (h ∈ filter (λ h', satelliteKey h' = satelliteKey h) hosts) as Hfiled
    by (by apply list_elem_of_filter).
  destruct (filter _ hosts) as [|first others]; [by apply elem_of_nil in Hfiled|].
  eexists. split; [reflexivity|]. cbn [private.Hosts elems_of].
  by apply (list_elem_of_fmap_2 inventory.ID).
Qed.

End Hosts.

Lemma direct_hosts_get_one_response_each_witness :
  ∃ satellite directConnected noRhc,
    private.sortHostsByRecipient
      (Slice [Samples.host "h1" None None (Some "rhc-1");
              Samples.host "h2" (Some "sat-1") (Some "1") (Some "rhc-2");
              Samples.host "h3" None None None;
              Samples.host "h4" None None (Some "rhc-4")]) ()
    = (Returned (satellite, directConnected, noRhc), ()) ∧
    Forall (λ h, inventory.RHCClientID h ≠ None) (elems_of directConnected) ∧
    private.getDirectConnectStatus Samples.parse "" true Samples.noLog Samples.noContent
      Samples.steadyConnector "org-123" directConnected ()
    = (Returned (Slice (map (directResponse Samples.parse "" true Samples.onlyFirst "org-123")
                          (elems_of directConnected)), None), ()).
Proof.
  refine (direct_hosts_get_one_response_each Samples.parse "" true Samples.noLog
    Samples.noContent Samples.steadyConnector Samples.onlyFirst "org-123" _ () _).
  intros recipient w. reflexivity.
Defined.

Lemma getDirectConnectStatus_stops_at_first_failure_witness :
  private.getDirectConnectStatus Samples.parse "" true Samples.noLog Samples.noContent
    Samples.moodyConnector "org-123"
    (Slice [Samples.host "h1" None None (Some "rhc-1");
            Samples.host "h2" None None (Some "rhc-down");
            Samples.host "h3" None None (Some "rhc-3")]) ()
  = (Returned (SliceNil, None), ()).
Proof.
  refine (getDirectConnectStatus_stops_at_first_failure Samples.parse "" true Samples.noLog
    Samples.noContent Samples.moodyConnector Samples.onlyFirst "org-123"
    [Samples.host "h1" None None (Some "rhc-1")]
    (Samples.host "h2" None None (Some "rhc-down")) "rhc-down" false Samples.refused None
    () () () _ eq_refl eq_refl eq_refl [Samples.host "h3" None None (Some "rhc-3")]).
  constructor; [|constructor].
  exists "rhc-1". split; [reflexivity|]. intros w. reflexivity.
Defined.

Lemma satellite_host_without_org_panics_witness :
  ∃ satellite directConnected noRhc,
    private.sortHostsByRecipient
      (Slice [Samples.host "h1" (Some "sat-1") (Some "1") None;
              Samples.host "h2" (Some "sat-2") None (Some "rhc-2")]) ()
    = (Returned (satellite, directConnected, noRhc), ()) ∧
    Samples.host "h2" (Some "sat-2") None (Some "rhc-2") ∈ elems_of satellite ∧
    private.groupHostsBySatellite satellite () = (Panicked nil_dereference, ()).
Proof.
  refine (satellite_host_without_org_panics
    (Slice [Samples.host "h1" (Some "sat-1") (Some "1") None;
            Samples.host "h2" (Some "sat-2") None (Some "rhc-2")])
    (Samples.host "h2" (Some "sat-2") None (Some "rhc-2")) () _ _ eq_refl).
  - right. left.
  - intros H. inversion H.
Defined.

Lemma groupHostsBySatellite_files_by_joined_ids_witness :
  ∃ groups,
    private.groupHostsBySatellite
      (Slice [Samples.host "h1" (Some "ab") (Some "c") None;
              Samples.host "h2" (Some "a") (Some "bc") None]) ()
    = (Returned groups, ()) ∧
    (∀ key, groups !! key
            = groupOf [Samples.host "h1" (Some "ab") (Some "c") None;
                       Samples.host "h2" (Some "a") (Some "bc") None] key) ∧
    ∀ h, h ∈ [Samples.host "h1" (Some "ab") (Some "c") None;
              Samples.host "h2" (Some "a") (Some "bc") None] →
      ∃ satellite,
        groups !! satelliteKey h = Some satellite ∧
        inventory.ID h ∈ elems_of (private.Hosts satellite).
Proof.
  refine (groupHostsBySatellite_files_by_joined_ids
    [Samples.host "h1" (Some "ab") (Some "c") None;
     Samples.host "h2" (Some "a") (Some "bc") None] () _).
  repeat (constructor; [split; intros H; inversion H|]). constructor.
Defined.
